(** * Movie recommendation bot ([bot.py]): model and verified properties

    The development embeds [src/bot.py] shallowly:

    - Python values: [str] as a list of Unicode code points, [float] as an
      IEEE-754 binary64 value ([spec_float] of the Standard Library), [int]
      as [Z];
    - the builtins [int(text)] and [float(text)] that the handlers call;
    - the pandas operations used on [movies_df] (boolean-mask filtering,
      [min]/[max] skipping NaN, [sample(1)], [empty]);
    - every handler of [MovieRecommendationBot], in a small writer/error
      monad that records the replies sent and the exception raised, if any
      ([AttributeError] on an edited message, [TypeError] on an overview
      that is NaN, [OverflowError] on a year too large for the column);
    - the handler table of [main] with the dispatch rules of
      python-telegram-bot's [Application] and [ConversationHandler], the
      per-user conversation store being a [gmap].

    The calls to the Bot API are taken to succeed: a handler raises only
    through its own Python code. *)

From Stdlib Require Import ZArith NArith List String Ascii Bool Lia.
From Stdlib Require Import SpecFloat DecimalString.
From stdpp Require Import base option list gmap.
Import ListNotations.

Local Open Scope N_scope.

(** ** Python strings *)

(** A Python [str] is a sequence of code points; [len] and slicing count
    code points, not bytes. *)
Abbreviation pystr := (list N) (only parsing).

Module PyStr.

Definition bytes_of (s : string) : list N :=
  List.map N_of_ascii (list_ascii_of_string s).

(** The literals of this file are written in UTF-8, as in [bot.py]; the
    decoder turns their bytes into the code points Python sees. *)
Fixpoint utf8_decode (bs : list N) : list N :=
  match bs with
  | [] => []
  | b :: r =>
      if b <? 128 then b :: utf8_decode r
      else if b <? 224 then
        match r with
        | c1 :: r1 => (N.land b 31 * 64 + N.land c1 63) :: utf8_decode r1
        | _ => []
        end
      else if b <? 240 then
        match r with
        | c1 :: c2 :: r2 =>
            (N.land b 15 * 4096 + N.land c1 63 * 64 + N.land c2 63)
              :: utf8_decode r2
        | _ => []
        end
      else
        match r with
        | c1 :: c2 :: c3 :: r3 =>
            (N.land b 7 * 262144 + N.land c1 63 * 4096
             + N.land c2 63 * 64 + N.land c3 63) :: utf8_decode r3
        | _ => []
        end
  end.

Definition lit (s : string) : list N := utf8_decode (bytes_of s).

(** [s[:n]] for an [int] [n]: a negative bound counts from the end. *)
Definition slice_to (s : list N) (n : Z) : list N :=
  if (n <? 0)%Z
  then firstn (Z.to_nat (Z.of_nat (length s) + n)) s
  else firstn (Z.to_nat n) s.

(** [str(n)] for an [int]. *)
Definition str_int (n : Z) : list N :=
  bytes_of (NilZero.string_of_int (Z.to_int n)).


End PyStr.

Arguments PyStr.lit _%_string.
Abbreviation lit := PyStr.lit.

(** ** Python floats *)

Module PyFloat.

(** binary64: 53 bits of precision, exponents below 1024. *)
Definition prec : Z := 53.
Definition emax : Z := 1024.

Definition nan : spec_float := S754_nan.

(** [x <= y] and [x >= y]; false as soon as one side is NaN. *)
Definition le (x y : spec_float) : bool := SFleb x y.
Definition ge (x y : spec_float) : bool := SFleb y x.

(** [pd.notna] on a float. *)
Definition notna (x : spec_float) : bool :=
  match x with S754_nan => false | _ => true end.

(** The correctly rounded value of [(-1)^s * d * 10^e], as the decimal to
    binary conversion of [float()] computes it. *)
Definition of_decimal (s : bool) (d : Z) (e : Z) : spec_float :=
  match (d * 10 ^ Z.max e 0)%Z, (10 ^ Z.max (- e) 0)%Z with
  | Zpos n, Zpos k =>
      SFdiv prec emax (S754_finite s n 0) (S754_finite false k 0)
  | _, _ => S754_zero s
  end.

(** [m * 2^e * 10], rounded to the nearest integer, ties to even. *)
Definition tenths (m : positive) (e : Z) : Z :=
  match e with
  | Zneg p =>
      let den := Z.pow_pos 2 p in
      let q := (10 * Zpos m / den)%Z in
      let r := (10 * Zpos m mod den)%Z in
      match (2 * r ?= den)%Z with
      | Lt => q
      | Gt => (q + 1)%Z
      | Eq => if Z.even q then q else (q + 1)%Z
      end
  | _ => (10 * Zpos m * 2 ^ e)%Z
  end.

Definition sign_str (s : bool) : list N := if s then lit "-" else [].

(** Whether the conversion of the [int] [n] to a float raises
    [OverflowError]: [n], rounded half to even to 53 bits, reaches
    [2^1024] in magnitude. *)
Definition overflows (n : Z) : bool :=
  (2 ^ 1024 - 2 ^ 970 <=? Z.abs n)%Z.

(** [format(x, '.1f')]: one digit after the point, the exact binary value
    rounded half to even. *)
Definition format_1f (x : spec_float) : list N :=
  match x with
  | S754_nan => lit "nan"
  | S754_infinity s => sign_str s ++ lit "inf"
  | S754_zero s => sign_str s ++ lit "0.0"
  | S754_finite s m e =>
      let t := tenths m e in
      sign_str s ++ PyStr.str_int (t / 10) ++ lit "."
        ++ PyStr.str_int (t mod 10)
  end.

End PyFloat.

Abbreviation float := spec_float (only parsing).


(** ** The builtins [int(text)] and [float(text)]

    Both first map the text to ASCII (CPython's
    [_PyUnicode_TransformDecimalAndSpaceToASCII]): a non-ASCII space becomes
    a blank, a Unicode decimal digit its ASCII digit, anything else ['?'],
    where the conversion stops. Both raise [ValueError] on a text outside
    their grammar; [None] stands for that exception. *)

Module Builtins.

(** Zero digits of the decimal-digit (Nd) ranges of Unicode 14.0, each
    followed by its digits one to nine. *)
Definition decimal_zeros : list N :=
  [48; 1632; 1776; 1984; 2406; 2534; 2662; 2790; 2918; 3046; 3174; 3302;
   3430; 3558; 3664; 3792; 3872; 4160; 4240; 6112; 6160; 6470; 6608; 6784;
   6800; 6992; 7088; 7232; 7248; 42528; 43216; 43264; 43472; 43504; 43600;
   44016; 65296; 66720; 68912; 69734; 69872; 69942; 70096; 70384; 70736;
   70864; 71248; 71360; 71472; 71904; 72016; 72784; 73040; 73120; 92768;
   92864; 93008; 120782; 120792; 120802; 120812; 120822; 123200; 123632;
   125264; 130032].

(** [Py_UNICODE_TODECIMAL]. *)
Definition unicode_todecimal (ch : N) : option N :=
  match List.find (fun z => (z <=? ch) && (ch <=? z + 9)) decimal_zeros with
  | Some z => Some (ch - z)
  | None => None
  end.

(** [Py_UNICODE_ISSPACE]. *)
Definition unicode_isspace (ch : N) : bool :=
  existsb (N.eqb ch)
    [9; 10; 11; 12; 13; 28; 29; 30; 31; 32; 133; 160; 5760; 8192; 8193;
     8194; 8195; 8196; 8197; 8198; 8199; 8200; 8201; 8202; 8232; 8233;
     8239; 8287; 12288].

Fixpoint transform (s : list N) : list N :=
  match s with
  | [] => []
  | ch :: r =>
      if ch <? 127 then ch :: transform r
      else if unicode_isspace ch then 32 :: transform r
      else match unicode_todecimal ch with
           | Some d => (48 + d) :: transform r
           | None => [63]
           end
  end.

Definition to_ascii (s : list N) : list N :=
  if forallb (fun ch => ch <? 128) s then s else transform s.

(** [Py_ISSPACE]: blank, tab, line feed, vertical tab, form feed,
    carriage return. *)
Definition Py_ISSPACE (c : N) : bool :=
  (c =? 32) || ((9 <=? c) && (c <=? 13)).

Fixpoint lstrip (s : list N) : list N :=
  match s with
  | c :: r => if Py_ISSPACE c then lstrip r else s
  | [] => []
  end.

Definition strip (s : list N) : list N := rev (lstrip (rev (lstrip s))).

Definition is_digit (c : N) : bool := (48 <=? c) && (c <=? 57).

Definition digit_val (c : N) : Z := Z.of_N (c - 48).

(** The value of a run of digits, most significant first. *)
Definition digits_val (ds : list N) : Z :=
  fold_left (fun acc c => (10 * acc + digit_val c)%Z) ds 0%Z.

(** An underscore is accepted only between two digits. *)
Fixpoint underscores_ok (prev : N) (s : list N) : bool :=
  match s with
  | [] => negb (prev =? 95)
  | c :: r =>
      (if c =? 95 then is_digit prev
       else negb (prev =? 95) || is_digit c)
      && underscores_ok c r
  end.

Definition drop_underscores (s : list N) : list N :=
  List.filter (fun c => negb (c =? 95)) s.

(** The longest prefix of digits, and what follows it. *)
Fixpoint span_digits (s : list N) : list N * list N :=
  match s with
  | c :: r =>
      if is_digit c
      then let '(d, t) := span_digits r in (c :: d, t)
      else ([], s)
  | [] => ([], [])
  end.

(** An optional sign: [true] for a minus. *)
Definition take_sign (s : list N) : bool * list N :=
  match s with
  | 43 :: r => (false, r)
  | 45 :: r => (true, r)
  | _ => (false, s)
  end.

(** [int(text)], base ten: blanks, an optional sign, digits with single
    underscores between them, blanks. *)
Definition py_int (text : list N) : option Z :=
  let '(neg, body) := take_sign (strip (to_ascii text)) in
  let ds := drop_underscores body in
  match body with
  | [] => None
  | c :: _ =>
      if is_digit c && underscores_ok 0 body && forallb is_digit ds
      then Some (if neg then - digits_val ds else digits_val ds)%Z
      else None
  end.

Definition lower (c : N) : N :=
  if (65 <=? c) && (c <=? 90) then c + 32 else c.

(** The exponent part, empty or [e], an optional sign and digits. *)
Definition exponent (s : list N) : option Z :=
  match s with
  | [] => Some 0%Z
  | c :: r =>
      if lower c =? 101 then
        let '(neg, r1) := take_sign r in
        match span_digits r1 with
        | ([], _) => None
        | (ds, []) =>
            Some (if neg then - digits_val ds else digits_val ds)%Z
        | _ => None
        end
      else None
  end.

(** A decimal number: digits, an optional point and digits (one digit at
    least in all), an optional exponent. *)
Definition decimal (neg : bool) (s : list N) : option spec_float :=
  let '(ip, r1) := span_digits s in
  let '(fp, r2) :=
    match r1 with
    | 46 :: r => span_digits r
    | _ => ([], r1)
    end in
  match ip ++ fp with
  | [] => None
  | ds =>
      match exponent r2 with
      | Some e =>
          Some (PyFloat.of_decimal neg (digits_val ds)
                  (e - Z.of_nat (length fp)))
      | None => None
      end
  end.

(** [float(text)]: blanks, an optional sign, then [inf], [infinity] or
    [nan] in any case, or a decimal number; underscores only between
    digits. *)
Definition py_float (text : list N) : option spec_float :=
  let t := strip (to_ascii text) in
  if underscores_ok 0 t then
    let '(neg, body) := take_sign (drop_underscores t) in
    let word := List.map lower body in
    if bool_decide (word = lit "inf") || bool_decide (word = lit "infinity")
    then Some (S754_infinity neg)
    else if bool_decide (word = lit "nan") then Some S754_nan
    else decimal neg body
  else None.

End Builtins.

Import Builtins.


(** ** The catalog and the pandas operations on it *)

(** A cell of a text column as [pd.read_csv] fills it: an empty field is
    read as NaN, so the string of a cell is never empty; [Text c s] is the
    string that starts with [c] and goes on with [s]. *)
Inductive text_cell :=
| Blank
| Text (c : N) (s : list N).

(** A cell of an optional column, as [movie.get('poster_path')] reads it:
    [None] when the CSV has no such column, NaN for an empty field, a
    string (never empty, as above), or a number when pandas inferred a
    numeric column. *)
Inductive cell :=
| Absent
| NaN
| Str (c : N) (s : list N)
| Num (x : spec_float).

(** The string of a cell that holds one. *)
Definition cell_str (c : cell) : option (list N) :=
  match c with Str c s => Some (c :: s) | _ => None end.

(** A row of [movies_df] after [load_movies]: the required columns, the
    derived [year] (rows without one are dropped, so it is an integer), and
    the optional [poster_path]. [title] and [overview] are read as text
    columns; [load_movies] keeps the rows where one of them is NaN. *)
Record Movie := {
  title : text_cell;
  overview : text_cell;
  year : Z;
  popularity : spec_float;
  vote_average : spec_float;
  vote_count : Z;
  poster_path : cell
}.

(** The exceptions that the handlers meet. *)
Inductive exn :=
| ValueError
| AttributeError
| TypeError
| OverflowError.

Module pd.

(** [df[name]]: a column. *)
Definition col {A : Type} (f : Movie -> A) (df : list Movie) : list A :=
  List.map f df.

(** [series >= x] for a float [x]: the element-wise mask. *)
Definition ge_mask (s : list spec_float) (x : spec_float) : list bool :=
  List.map (fun v => PyFloat.ge v x) s.

(** [series == y] for an [int] [y] and a column of whole numbers. On a
    float64 column ([float_column]: the column went through NaN) the
    [int] is converted to a float first, and one beyond the range of
    float64 raises [OverflowError]. A year of the column is exact as a
    float, so the comparison that does not raise is the comparison of the
    integers. *)
Definition eq_mask (float_column : bool) (s : list Z) (y : Z)
    : exn + list bool :=
  if float_column && PyFloat.overflows y then inl OverflowError
  else inr (List.map (fun v => Z.eqb v y) s).

(** [df[mask]]: the rows whose mask entry is true, in order. *)
Fixpoint select (df : list Movie) (mask : list bool) : list Movie :=
  match df, mask with
  | m :: df', b :: mask' =>
      if b then m :: select df' mask' else select df' mask'
  | _, _ => []
  end.

(** [df.empty]. *)
Definition empty (df : list Movie) : bool :=
  match df with [] => true | _ => false end.

(** [series.min()] and [series.max()] with the default [skipna=True]:
    NaN entries are left out, and the result is NaN when nothing is
    left. Which of two equal entries is returned (the two zeros) is not
    fixed by pandas; the comparisons of the handlers cannot tell. *)
Definition min (s : list spec_float) : spec_float :=
  match List.filter PyFloat.notna s with
  | [] => PyFloat.nan
  | x :: xs => fold_left (fun acc v => if SFltb v acc then v else acc) xs x
  end.

Definition max (s : list spec_float) : spec_float :=
  match List.filter PyFloat.notna s with
  | [] => PyFloat.nan
  | x :: xs => fold_left (fun acc v => if SFltb acc v then v else acc) xs x
  end.

(** [pd.notna(poster) and isinstance(poster, str)] on a cell. *)
Definition notna (c : cell) : bool :=
  match c with Absent | NaN => false | _ => true end.

Definition is_str (c : cell) : bool :=
  match c with Str _ _ => true | _ => false end.

End pd.

(** ** Telegram objects and the handler monad *)

(** An inline keyboard: rows of buttons, each a label and its
    [callback_data]. *)
Abbreviation keyboard := (list (list (list N * list N))) (only parsing).

(** What a handler sends through the Bot API. *)
Inductive action :=
| answer
| reply_text (text : list N) (reply_markup : option keyboard) (html : bool)
| edit_message_text (text : list N) (reply_markup : option keyboard)
    (html : bool).

(** An incoming update: a new message, a message that its author
    edited, or a tap on an inline button. A message has its text (empty
    when it carries none) and, when the text starts with a bot command,
    the name of that command as [CommandHandler] reads it. The other
    kinds of update (channel posts, inline queries and the like) are not
    modelled. *)
Inductive payload :=
| Message (text : list N) (command : option (list N))
| EditedMessage (text : list N) (command : option (list N))
| CallbackQuery (data : list N).

Record Update := {
  chat_id : Z;
  user_id : Z;
  first_name : list N;
  content : payload
}.

(** [update.message] is set for a new message, [update.callback_query]
    for a button tap; both are [None] for an edited message, which comes
    as [update.edited_message]. *)
Definition has_message (u : Update) : bool :=
  match content u with Message _ _ => true | _ => false end.

Definition has_query (u : Update) : bool :=
  match content u with CallbackQuery _ => true | _ => false end.

(** A handler run: the actions sent so far, then an exception or a
    result. *)
Definition M (A : Type) : Type := list action * (exn + A).

#[export] Instance M_ret : MRet M := fun A a => ([], inr a).

#[export] Instance M_bind : MBind M := fun A B f c =>
  match c with
  | (out, inl e) => (out, inl e)
  | (out, inr a) => let '(out', r) := f a in (out ++ out', r)
  end.

Definition send (a : action) : M unit := ([a], inr tt).

Definition raise {A : Type} (e : exn) : M A := ([], inl e).

(** A computation that sends nothing. *)
Definition lift {A : Type} (r : exn + A) : M A := ([], r).

(** [update.message.text]; an attribute of [None] raises. *)
Definition message_text (u : Update) : M (list N) :=
  match content u with
  | Message text _ => mret text
  | _ => raise AttributeError
  end.

(** [update.message.reply_text(...)]. *)
Definition message_reply (u : Update) (text : list N)
    (reply_markup : option keyboard) (html : bool) : M unit :=
  if has_message u then send (reply_text text reply_markup html)
  else raise AttributeError.

(** [query.answer()] and [query.edit_message_text(...)] for
    [query = update.callback_query]. *)
Definition query_answer (u : Update) : M unit :=
  if has_query u then send answer else raise AttributeError.

Definition query_edit (u : Update) (text : list N)
    (reply_markup : option keyboard) (html : bool) : M unit :=
  if has_query u then send (edit_message_text text reply_markup html)
  else raise AttributeError.

(** [df.sample(1).iloc[0]]: one row, at the position the random generator
    draws; [sample] raises [ValueError] on an empty frame. *)
Definition sample1 (draw : nat) (df : list Movie) : M Movie :=
  match nth_error df (draw mod length df)%nat with
  | Some movie => mret movie
  | None => raise ValueError
  end.

(** The states of the conversation, [range(3)], and
    [ConversationHandler.END]. *)
Definition RATING : Z := 0.
Definition YEAR : Z := 1.
Definition POPULARITY : Z := 2.
Definition END : Z := -1.

Definition nl : list N := [10].

(** ** Loading the catalog *)

(** A row as [pd.read_csv] returns it, before the year is derived. *)
Record RawRow := {
  raw_title : text_cell;
  raw_overview : text_cell;
  raw_release_date : cell;
  raw_popularity : spec_float;
  raw_vote_average : spec_float;
  raw_vote_count : Z;
  raw_poster_path : cell
}.

(** The frame read from the file: the names of its columns and its rows. *)
Record RawFrame := {
  columns : gset (list N);
  rows : list RawRow
}.

(** Why [load_movies] raises: no file at the path, a failure inside
    [pd.read_csv], required columns missing (with the set of them), or no
    row left once the rows without a year are dropped. *)
Inductive LoadError :=
| FileNotFoundError
| ReadError
| MissingColumns (missing : gset (list N))
| EmptyFrame.

Definition required_cols : gset (list N) :=
  {[ lit "title"; lit "overview"; lit "release_date"; lit "popularity";
     lit "vote_average"; lit "vote_count" ]}.

Section Load.

(** [pd.to_datetime(column, errors='coerce').dt.year]: the year of each
    date of the column, or nothing where the date does not parse. It acts
    on the whole column, pandas choosing a date format from it. *)
Variable to_datetime_year : list cell -> list (option Z).

(** The row of [movies_df] for a raw row and its year. Without a
    [poster_path] column, [movie.get('poster_path')] is [None]. *)
Definition to_movie (frame : RawFrame) (row : RawRow) (y : Z) : Movie :=
  {| title := raw_title row;
     overview := raw_overview row;
     year := y;
     popularity := raw_popularity row;
     vote_average := raw_vote_average row;
     vote_count := raw_vote_count row;
     poster_path :=
       if bool_decide (lit "poster_path" ∈ columns frame)
       then raw_poster_path row
       else Absent |}.

(** [df.dropna(subset=['year'])] on the rows paired with their years. *)
Fixpoint dropna_year (frame : RawFrame) (rs : list RawRow)
    (years : list (option Z)) : list Movie :=
  match rs, years with
  | row :: rs', Some y :: years' =>
      to_movie frame row y :: dropna_year frame rs' years'
  | _ :: rs', None :: years' => dropna_year frame rs' years'
  | _, _ => []
  end.

(** Whether the [year] column of the frame kept is a float64 column:
    [.dt.year] gives integers unless a date of the column did not parse;
    the NaN of such a date makes the column a float64 one, and it stays
    one when the rows without a year are dropped. *)
Definition year_dtype_float64 (frame : RawFrame) : bool :=
  existsb (fun y => match y with None => true | Some _ => false end)
    (to_datetime_year (List.map raw_release_date (rows frame))).

(** [load_movies]: [file] is [None] when there is no file at
    [MOVIES_DB_PATH], and otherwise what [pd.read_csv] gives, a frame or a
    failure. The result is the frame stored in [self.movies_df], or the
    exception that [load_movies] logs and raises again. *)
Definition load_movies (file : option (option RawFrame))
    : LoadError + list Movie :=
  match file with
  | None => inl FileNotFoundError
  | Some None => inl ReadError
  | Some (Some frame) =>
      let missing := required_cols ∖ columns frame in
      if bool_decide (missing = ∅) then
        let df :=
          dropna_year frame (rows frame)
            (to_datetime_year (List.map raw_release_date (rows frame))) in
        if pd.empty df then inl EmptyFrame else inr df
      else inl (MissingColumns missing)
  end.

End Load.

(** ** Filter criteria *)

(** One fully specified query. *)
Inductive Criterion :=
| Random
| MinRating (r : spec_float)
| Year (y : Z)
| MinPopularity (p : spec_float).

(** The predicate of a criterion on a row. *)
Definition satisfies (c : Criterion) (m : Movie) : bool :=
  match c with
  | Random => true
  | MinRating r => PyFloat.ge (vote_average m) r
  | Year y => (year m =? y)%Z
  | MinPopularity p => PyFloat.ge (popularity m) p
  end.

(** ** The dialog, as the specification names it *)

Module Dialog.

(** The state of one user's dialog: no open conversation, or the state
    number the conversation store holds for that user. *)
Inductive State :=
| Idle
| AwaitingRating
| AwaitingYear
| AwaitingPopularity.

Definition stored (st : State) : option Z :=
  match st with
  | Idle => None
  | AwaitingRating => Some RATING
  | AwaitingYear => Some YEAR
  | AwaitingPopularity => Some POPULARITY
  end.

(** What the transport delivers: commands, button taps, and text that
    is not a command. *)
Inductive Intent :=
| start
| selectRandom
| selectAbout
| selectRating
| selectYear
| selectPopularity
| cancel
| textInput (text : list N).

Definition payload_of (i : Intent) : payload :=
  match i with
  | start => Message (lit "/start") (Some (lit "start"))
  | selectRandom => CallbackQuery (lit "random")
  | selectAbout => CallbackQuery (lit "about")
  | selectRating => CallbackQuery (lit "rating")
  | selectYear => CallbackQuery (lit "year")
  | selectPopularity => CallbackQuery (lit "popularity")
  | cancel => Message (lit "/cancel") (Some (lit "cancel"))
  | textInput text => Message text None
  end.

(** The update of user [user] in chat [chat] that carries the intent. *)
Definition update_of (chat user : Z) (name : list N) (i : Intent)
    : Update :=
  {| chat_id := chat; user_id := user; first_name := name;
     content := payload_of i |}.

End Dialog.

(** ** The handlers of [MovieRecommendationBot] *)

Section Bot.

(** [self.movies_df], fixed once [load_movies] has run. *)
Variable movies_df : list Movie.

(** Whether the [year] column of [movies_df] is a float64 column
    ([year_dtype_float64] for a loaded frame). *)
Variable year_float64 : bool.

(** The configured overview limit, [int(os.getenv(...))]. *)
Variable MAX_OVERVIEW_LENGTH : Z.

(** [str(x)] of a float, as an f-string field without a format spec
    renders it (the shortest decimal that reads back as [x]). *)
Variable float_str : spec_float -> list N.

(** [round(x, 1)] on a float. *)
Variable round1 : spec_float -> spec_float.

(** A handler callback: the update, the draw of the random generator
    should the handler sample, and the value returned ([None] when the
    Python function returns nothing). *)
Definition callback : Type := Update -> nat -> M (option Z).

Definition require_data (func : callback) : callback :=
  fun update draw =>
    if pd.empty movies_df then
      let text := lit "⚠️ База фильмов не загружена. Попробуйте позже." in
      (if has_message update
       then send (reply_text text None false)
       else if has_query update
       then send answer;; send (edit_message_text text None false)
       else mret tt);;
      mret (Some END)
    else func update draw.

Definition start : callback :=
  fun update _ =>
    let keyboard :=
      [ [(lit "🎬 Случайный фильм", lit "random")];
        [(lit "⭐ По рейтингу", lit "rating")];
        [(lit "📅 По году", lit "year")];
        [(lit "🔥 По популярности", lit "popularity")];
        [(lit "ℹ️ О боте", lit "about")] ] in
    let text :=
      lit "Привет, " ++ first_name update
        ++ lit "! Выбери критерий поиска:" in
    (if has_message update
     then send (reply_text text (Some keyboard) false)
     else if has_query update
     then send answer;; send (edit_message_text text (Some keyboard) false)
     else mret tt);;
    mret None.

Definition about : callback :=
  fun update _ =>
    query_answer update;;
    let text :=
      lit "🎬 <b>Movie Recommendation Bot</b>" ++ nl ++ nl
        ++ lit "В базе "
        ++ PyStr.str_int (Z.of_nat (length movies_df))
        ++ lit " фильмов." ++ nl
        ++ lit "Критерии поиска:" ++ nl ++ lit "- Случайный выбор" ++ nl
        ++ lit "- По рейтингу (IMDb)" ++ nl ++ lit "- По году" ++ nl
        ++ lit "- По популярности" ++ nl ++ nl
        ++ lit "Используйте /start для начала." in
    let keyboard := [ [(lit "🔙 Назад", lit "back")] ] in
    query_edit update text (Some keyboard) true;;
    mret None.

(** [str(cell)] of a text cell, as an f-string field renders it. *)
Definition str_cell (c : text_cell) : list N :=
  match c with
  | Text c s => c :: s
  | Blank => lit "nan"
  end.

(** The value of a text cell for the operations of [str]: [len] of NaN,
    a float, raises [TypeError]. *)
Definition len_checked (c : text_cell) : M (list N) :=
  match c with
  | Text c s => mret (c :: s)
  | Blank => raise TypeError
  end.

(** The first lines of the text of [_send_movie_info]. *)
Definition movie_head (movie : Movie) (prefix : list N) : list N :=
  prefix ++ nl ++ nl
    ++ lit "<b>" ++ str_cell (title movie) ++ lit "</b> ("
    ++ PyStr.str_int (year movie) ++ lit ")" ++ nl
    ++ lit "⭐ Рейтинг: <b>" ++ float_str (vote_average movie)
    ++ lit "</b>/10 (голосов: " ++ PyStr.str_int (vote_count movie)
    ++ lit ")" ++ nl
    ++ lit "🔥 Популярность: <b>"
    ++ PyFloat.format_1f (popularity movie) ++ lit "</b>" ++ nl ++ nl.

(** The overview as shown: cut to [MAX_OVERVIEW_LENGTH] code points and
    marked with three dots when it is longer than that. *)
Definition shown_overview (overview : list N) : list N :=
  if (MAX_OVERVIEW_LENGTH <? Z.of_nat (length overview))%Z
  then PyStr.slice_to overview MAX_OVERVIEW_LENGTH ++ lit "..."
  else overview.

(** The text of [_send_movie_info] before the poster step, for the
    overview string [overview]. *)
Definition movie_text_base (movie : Movie) (overview prefix : list N)
    : list N :=
  movie_head movie prefix
    ++ lit "📝 <i>" ++ shown_overview overview ++ lit "</i>".

(** The poster link for a path. *)
Definition poster_anchor (poster : list N) : list N :=
  nl ++ nl ++ lit "<a href='https://image.tmdb.org/t/p/w500" ++ poster
    ++ lit "'>🎞 Постер</a>".

(** The whole text of [_send_movie_info]. *)
Definition movie_text (movie : Movie) (overview prefix : list N)
    : list N :=
  let text := movie_text_base movie overview prefix in
  let poster := poster_path movie in
  if pd.notna poster && pd.is_str poster
  then text ++ poster_anchor (default [] (cell_str poster))
  else text.

(** [to_message] is the test [hasattr(update_obj, 'message') and
    update_obj.message]. The callers pass an update whose message they
    have read, or the callback query of a button under a chat message:
    the test holds for both. Nothing is sent before [len(overview)]. *)
Definition _send_movie_info (to_message : bool) (movie : Movie)
    (prefix : list N) : M unit :=
  overview ← len_checked (overview movie);
  let text := movie_text movie overview prefix in
  let keyboard :=
    [ [(lit "🔁 Еще один", lit "random")];
      [(lit "🔙 Назад", lit "back")] ] in
  if to_message
  then send (reply_text text (Some keyboard) true)
  else send (edit_message_text text (Some keyboard) true).

Definition random_movie : callback :=
  require_data (fun update draw =>
    query_answer update;;
    movie ← sample1 draw movies_df;
    _send_movie_info true movie (lit "🎲 Случайная рекомендация:");;
    mret None).

Definition choose_rating : callback :=
  fun update _ =>
    query_answer update;;
    let min_rating := round1 (pd.min (pd.col vote_average movies_df)) in
    let max_rating := round1 (pd.max (pd.col vote_average movies_df)) in
    query_edit update
      (lit "Введите минимальный рейтинг (" ++ float_str min_rating
         ++ lit " - " ++ float_str max_rating ++ lit "):" ++ nl
         ++ lit "Пример: <code>7.5</code>") None true;;
    mret (Some RATING).

(** The end of [process_rating], from the test of the frame on: what
    the handler does with the frame [filtered] of a validated [rating]. *)
Definition serve_rating (update : Update) (rating : spec_float)
    (filtered : list Movie) (draw : nat) : M (option Z) :=
  if pd.empty filtered then
    message_reply update
      (lit "Фильмов с таким рейтингом не найдено.") None false;;
    mret (Some RATING)
  else
    movie ← sample1 draw filtered;
    _send_movie_info true movie
      (lit "🎬 Фильмы с рейтингом " ++ PyFloat.format_1f rating
         ++ lit "+");;
    mret (Some END).

Definition process_rating : callback :=
  fun update draw =>
    text ← message_text update;
    match py_float text with
    | None =>
        message_reply update (lit "Введите корректное число, например 7.5")
          None false;;
        mret (Some RATING)
    | Some rating =>
        let min_rating := pd.min (pd.col vote_average movies_df) in
        let max_rating := pd.max (pd.col vote_average movies_df) in
        if negb (PyFloat.le min_rating rating
                 && PyFloat.le rating max_rating)
        then
          message_reply update
            (lit "Введите число от " ++ PyFloat.format_1f min_rating
               ++ lit " до " ++ PyFloat.format_1f max_rating)
            None false;;
          mret (Some RATING)
        else
          let filtered :=
            pd.select movies_df
              (pd.ge_mask (pd.col vote_average movies_df) rating) in
          serve_rating update rating filtered draw
    end.

Definition choose_year : callback :=
  fun update _ =>
    query_answer update;;
    query_edit update (lit "Введите год выпуска (например, 2020):")
      None false;;
    mret (Some YEAR).

(** The end of [process_year], from the test of the frame on. *)
Definition serve_year (update : Update) (yr : Z) (filtered : list Movie)
    (draw : nat) : M (option Z) :=
  if pd.empty filtered then
    message_reply update
      (lit "Фильмов за " ++ PyStr.str_int yr ++ lit " год не найдено.")
      None false;;
    mret (Some YEAR)
  else
    movie ← sample1 draw filtered;
    _send_movie_info true movie
      (lit "🎬 Фильмы за " ++ PyStr.str_int yr ++ lit " год:");;
    mret (Some END).

Definition process_year : callback :=
  fun update draw =>
    text ← message_text update;
    match py_int text with
    | None =>
        message_reply update (lit "Введите корректный год (например, 2020)")
          None false;;
        mret (Some YEAR)
    | Some yr =>
        mask ← lift (pd.eq_mask year_float64 (pd.col year movies_df) yr);
        let filtered := pd.select movies_df mask in
        serve_year update yr filtered draw
    end.

Definition choose_popularity : callback :=
  fun update _ =>
    query_answer update;;
    query_edit update (lit "Введите минимальный уровень популярности:")
      None false;;
    mret (Some POPULARITY).

(** The end of [process_popularity], from the test of the frame on. *)
Definition serve_popularity (update : Update) (pop : spec_float)
    (filtered : list Movie) (draw : nat) : M (option Z) :=
  if pd.empty filtered then
    message_reply update
      (lit "Фильмов с популярностью от " ++ float_str pop
         ++ lit " не найдено.") None false;;
    mret (Some POPULARITY)
  else
    movie ← sample1 draw filtered;
    _send_movie_info true movie
      (lit "🎬 Фильмы с популярностью от " ++ float_str pop ++ lit ":");;
    mret (Some END).

Definition process_popularity : callback :=
  fun update draw =>
    text ← message_text update;
    match py_float text with
    | None =>
        message_reply update
          (lit "Введите корректное число для популярности.") None false;;
        mret (Some POPULARITY)
    | Some pop =>
        let filtered :=
          pd.select movies_df
            (pd.ge_mask (pd.col popularity movies_df) pop) in
        serve_popularity update pop filtered draw
    end.

Definition cancel : callback :=
  fun update _ =>
    message_reply update
      (lit "Действие отменено. Используйте /start для нового поиска.")
      None false;;
    mret (Some END).

(** [error_handler]: the notice sent when a handler raised. Every update
    of this model has an [effective_message] to reply to. *)
Definition error_handler : list action :=
  [reply_text (lit "⚠️ Произошла ошибка. Пожалуйста, попробуйте позже.")
     None false].

(** ** The handler table of [main] and its dispatch *)

Inductive Handler :=
| CommandHandler (command : list N) (cb : callback)
| CallbackQueryHandler (cb : callback) (pattern : list N)
| MessageHandler (cb : callback).

Definition handler_callback (h : Handler) : callback :=
  match h with
  | CommandHandler _ cb => cb
  | CallbackQueryHandler cb _ => cb
  | MessageHandler cb => cb
  end.

(** [re.match('^word$', data)]: the whole of [data] is [word], a final
    line feed apart. *)
Definition re_match (word data : list N) : bool :=
  bool_decide (data = word) || bool_decide (data = word ++ nl).

(** Whether a handler takes an update. A [CallbackQueryHandler] is given
    the word of its pattern ['^word$']; every [MessageHandler] of [main]
    has the filter [filters.TEXT & ~filters.COMMAND]: a message with a
    text that does not start with a command. Command and message handlers
    read [update.effective_message], so they take an edited message as
    they take a new one. *)
Definition check_update (h : Handler) (u : Update) : bool :=
  match h, content u with
  | CommandHandler command _, Message _ (Some name)
  | CommandHandler command _, EditedMessage _ (Some name) =>
      bool_decide (name = command)
  | CallbackQueryHandler _ pattern, CallbackQuery data =>
      re_match pattern data
  | MessageHandler _, Message text None
  | MessageHandler _, EditedMessage text None =>
      match text with [] => false | _ => true end
  | _, _ => false
  end.

Record ConversationHandler := {
  entry_points : list Handler;
  states : gmap Z (list Handler);
  fallbacks : list Handler;
  allow_reentry : bool
}.

(** The key of a conversation: chat and user ([per_chat], [per_user]). *)
Definition conv_key (u : Update) : Z * Z := (chat_id u, user_id u).

Definition first_match (hs : list Handler) (u : Update) : option Handler :=
  List.find (fun h => check_update h u) hs.

(** [ConversationHandler.check_update]: the entry points are searched
    when no conversation is open or re-entry is allowed; then the
    handlers of the current state; then the fallbacks. Without an open
    conversation only an entry point can take the update. *)
Definition conv_check_update (c : ConversationHandler)
    (conversations : gmap (Z * Z) Z) (u : Update) : option Handler :=
  let state := conversations !! conv_key u in
  let entry :=
    if bool_decide (state = None) || allow_reentry c
    then first_match (entry_points c) u
    else None in
  match entry, state with
  | Some h, _ => Some h
  | None, None => None
  | None, Some st =>
      match first_match (default [] (states c !! st)) u with
      | Some h => Some h
      | None => first_match (fallbacks c) u
      end
  end.

(** [ConversationHandler._update_state]. *)
Definition _update_state (new_state : option Z) (key : Z * Z)
    (conversations : gmap (Z * Z) Z) : gmap (Z * Z) Z :=
  match new_state with
  | Some s =>
      if bool_decide (s = END) then delete key conversations
      else <[key := s]> conversations
  | None => conversations
  end.

Inductive AppHandler :=
| Plain (h : Handler)
| Conversation (c : ConversationHandler).

(** [Application.process_update] on one handler group: the first handler
    that takes the update runs, the others are skipped. When the
    callback raises, the conversation store is left as it was and the
    error handler replies. *)
Fixpoint process_update (handlers : list AppHandler)
    (conversations : gmap (Z * Z) Z) (u : Update) (draw : nat)
    : gmap (Z * Z) Z * list action :=
  match handlers with
  | [] => (conversations, [])
  | Plain h :: rest =>
      if check_update h u then
        match handler_callback h u draw with
        | (out, inl _) => (conversations, out ++ error_handler)
        | (out, inr _) => (conversations, out)
        end
      else process_update rest conversations u draw
  | Conversation c :: rest =>
      match conv_check_update c conversations u with
      | Some h =>
          match handler_callback h u draw with
          | (out, inl _) => (conversations, out ++ error_handler)
          | (out, inr new_state) =>
              (_update_state new_state (conv_key u) conversations, out)
          end
      | None => process_update rest conversations u draw
      end
  end.

Definition conv_handler : ConversationHandler :=
  {| entry_points :=
       [ CallbackQueryHandler choose_rating (lit "rating");
         CallbackQueryHandler choose_year (lit "year");
         CallbackQueryHandler choose_popularity (lit "popularity") ];
     states :=
       {[ RATING := [MessageHandler process_rating];
          YEAR := [MessageHandler process_year];
          POPULARITY := [MessageHandler process_popularity] ]};
     fallbacks := [CommandHandler (lit "cancel") cancel];
     allow_reentry := true |}.

(** The handlers in the order [main] adds them. *)
Definition handlers : list AppHandler :=
  [ Plain (CommandHandler (lit "start") start);
    Plain (CallbackQueryHandler random_movie (lit "random"));
    Plain (CallbackQueryHandler about (lit "about"));
    Plain (CallbackQueryHandler start (lit "back"));
    Conversation conv_handler ].

(** One update through the application. *)
Definition step (conversations : gmap (Z * Z) Z) (u : Update)
    (draw : nat) : gmap (Z * Z) Z * list action :=
  process_update handlers conversations u draw.

(** ** The candidate frames *)

(** The frames that the flows sample from: the [filtered] frames of
    [process_rating], [process_year] and [process_popularity]. The year
    comparison may raise, so the year flow may have no frame. *)
Definition rating_frame (rating : spec_float) : list Movie :=
  pd.select movies_df (pd.ge_mask (pd.col vote_average movies_df) rating).

Definition year_frame (yr : Z) : exn + list Movie :=
  match pd.eq_mask year_float64 (pd.col year movies_df) yr with
  | inl e => inl e
  | inr mask => inr (pd.select movies_df mask)
  end.

Definition popularity_frame (pop : spec_float) : list Movie :=
  pd.select movies_df (pd.ge_mask (pd.col popularity movies_df) pop).

(** The filtering step of each criterion; [random_movie] samples from the
    whole of [movies_df]. *)
Definition candidates (c : Criterion) : exn + list Movie :=
  match c with
  | Random => inr movies_df
  | MinRating rating => inr (rating_frame rating)
  | Year yr => year_frame yr
  | MinPopularity pop => inr (popularity_frame pop)
  end.

(** The run that ends a flow with a movie drawn from [filtered]. *)
Definition resolved (movie : Movie) (prefix : list N) : M (option Z) :=
  _send_movie_info true movie prefix;; mret (Some END).

(** A single plain reply that keeps the conversation in [state]. *)
Definition stays (state : Z) (text : list N) : M (option Z) :=
  ([reply_text text None false], inr (Some state)).

(** The text of a new message. *)
Definition sent_text (u : Update) : list N :=
  match content u with
  | Message text _ => text
  | _ => []
  end.

(** ** The handler monad on message and query updates *)

Lemma mbind_mret {A B : Type} (a : A) (f : A -> M B) :
  (mret a ≫= f) = f a.
Proof.
  unfold mbind, mret, M_bind, M_ret. destruct (f a) as [out r].
  reflexivity.
Qed.

Lemma mbind_lift {A B : Type} (a : A) (f : A -> M B) :
  (lift (inr a) ≫= f) = f a.
Proof. exact (mbind_mret a f). Qed.

Lemma send_bind {B : Type} (a : action) (k : M B) :
  (send a;; k) = (a :: fst k, snd k).
Proof. unfold mbind, M_bind, send. destruct k as [out r]. reflexivity. Qed.

Lemma has_message_not_query (u : Update) :
  has_message u = true -> has_query u = false.
Proof.
  unfold has_message, has_query. destruct (content u); congruence.
Qed.

Lemma has_query_not_message (u : Update) :
  has_query u = true -> has_message u = false.
Proof.
  unfold has_message, has_query. destruct (content u); congruence.
Qed.

Lemma message_text_sent (u : Update) :
  has_message u = true -> message_text u = mret (sent_text u).
Proof.
  unfold has_message, message_text, sent_text.
  destruct (content u); [reflexivity|discriminate..].
Qed.

Lemma message_text_none (u : Update) :
  has_message u = false -> message_text u = raise AttributeError.
Proof.
  unfold has_message, message_text.
  destruct (content u); [discriminate|reflexivity..].
Qed.

Lemma message_reply_sent (u : Update) (text : list N)
    (markup : option keyboard) (html : bool) :
  has_message u = true ->
  message_reply u text markup html = send (reply_text text markup html).
Proof. unfold message_reply. intros ->. reflexivity. Qed.

Lemma query_answer_sent (u : Update) :
  has_query u = true -> query_answer u = send answer.
Proof. unfold query_answer. intros ->. reflexivity. Qed.

(** ** Lemmas on the pandas operations *)

Lemma select_mask {A : Type} (f : Movie -> A) (test : A -> bool)
    (df : list Movie) :
  pd.select df (List.map test (pd.col f df))
  = List.filter (fun m => test (f m)) df.
Proof.
  induction df as [|m df IH]; simpl; [reflexivity|].
  rewrite IH. reflexivity.
Qed.

Lemma rating_frame_filter (r : spec_float) :
  rating_frame r = List.filter (satisfies (MinRating r)) movies_df.
Proof. apply (select_mask vote_average (fun v => PyFloat.ge v r)). Qed.

Lemma popularity_frame_filter (p : spec_float) :
  popularity_frame p = List.filter (satisfies (MinPopularity p)) movies_df.
Proof. apply (select_mask popularity (fun v => PyFloat.ge v p)). Qed.

Lemma year_frame_cases (y : Z) :
  year_frame y
  = if year_float64 && PyFloat.overflows y then inl OverflowError
    else inr (List.filter (satisfies (Year y)) movies_df).
Proof.
  unfold year_frame, pd.eq_mask.
  destruct (year_float64 && PyFloat.overflows y); [reflexivity|].
  f_equal. apply (select_mask year (fun v => Z.eqb v y)).
Qed.

Lemma year_frame_filter (y : Z) (frame : list Movie) :
  year_frame y = inr frame ->
  frame = List.filter (satisfies (Year y)) movies_df.
Proof.
  rewrite year_frame_cases.
  destruct (year_float64 && PyFloat.overflows y); congruence.
Qed.

Lemma year_frame_raises (y : Z) (e : exn) :
  year_frame y = inl e ->
  e = OverflowError /\ year_float64 = true /\ PyFloat.overflows y = true.
Proof.
  rewrite year_frame_cases.
  destruct (year_float64 && PyFloat.overflows y) eqn:E; [|discriminate].
  apply andb_true_iff in E. intros H. inversion H. tauto.
Qed.



Lemma fold_pick_In (pick : spec_float -> spec_float -> bool)
    (xs : list spec_float) (x : spec_float) :
  In (fold_left (fun acc v => if pick acc v then v else acc) xs x)
     (x :: xs).
Proof.
  revert x. induction xs as [|y xs IH]; intros x; simpl.
  - left; reflexivity.
  - destruct (IH (if pick x y then y else x)) as [H|H].
    + destruct (pick x y); rewrite <- H; auto.
    + auto.
Qed.

Lemma max_In (s : list spec_float) :
  PyFloat.notna (pd.max s) = true -> In (pd.max s) s.
Proof.
  unfold pd.max. intros Hna.
  destruct (List.filter PyFloat.notna s) as [|x xs] eqn:E.
  - discriminate Hna.
  - pose proof (fold_pick_In SFltb xs x) as Hin.
    rewrite <- E in Hin. apply filter_In in Hin. exact (proj1 Hin).
Qed.

Lemma le_notna_r (x y : spec_float) :
  PyFloat.le x y = true -> PyFloat.notna y = true.
Proof.
  intros H. destruct y; try reflexivity.
  destruct x; cbv in H; discriminate H.
Qed.

Lemma sample1_member (draw : nat) (df : list Movie) :
  df <> [] -> exists movie, sample1 draw df = mret movie /\ In movie df.
Proof.
  intros Hne. unfold sample1.
  assert (Hlt : (draw mod length df < length df)%nat).
  { apply Nat.mod_upper_bound. destruct df; simpl; congruence. }
  destruct (nth_error df (draw mod length df)) as [movie|] eqn:E.
  - exists movie. split; [reflexivity|]. eapply nth_error_In; eassumption.
  - apply nth_error_None in E. lia.
Qed.

(** ** The presenter, on a text overview and on NaN *)

(** The keyboard under a movie. *)
Definition movie_keyboard : list (list (list N * list N)) :=
  [ [(lit "🔁 Еще один", lit "random")]; [(lit "🔙 Назад", lit "back")] ].

Lemma send_movie_info_text (movie : Movie) (prefix : list N) (c : N)
    (s : list N) :
  overview movie = Text c s ->
  _send_movie_info true movie prefix
  = send (reply_text (movie_text movie (c :: s) prefix)
            (Some movie_keyboard) true).
Proof.
  intros E. unfold _send_movie_info. rewrite E. cbn [len_checked].
  rewrite mbind_mret. reflexivity.
Qed.

Lemma send_movie_info_blank (movie : Movie) (prefix : list N) :
  overview movie = Blank ->
  _send_movie_info true movie prefix = raise TypeError.
Proof.
  intros E. unfold _send_movie_info. rewrite E. reflexivity.
Qed.

Lemma resolved_text (movie : Movie) (prefix : list N) (c : N)
    (s : list N) :
  overview movie = Text c s ->
  resolved movie prefix
  = ([reply_text (movie_text movie (c :: s) prefix)
        (Some movie_keyboard) true], inr (Some END)).
Proof.
  intros E. unfold resolved.
  rewrite (send_movie_info_text movie prefix c s E). reflexivity.
Qed.

Lemma resolved_blank (movie : Movie) (prefix : list N) :
  overview movie = Blank -> resolved movie prefix = raise TypeError.
Proof.
  intros E. unfold resolved.
  rewrite (send_movie_info_blank movie prefix E). reflexivity.
Qed.

(** ** The handlers, case by case *)

Lemma resolve_run (draw : nat) (filtered : list Movie) (prefix : list N) :
  filtered <> [] ->
  exists movie,
    In movie filtered /\
    (movie ← sample1 draw filtered;
     _send_movie_info true movie prefix;; mret (Some END))
    = resolved movie prefix.
Proof.
  intros Hne. destruct (sample1_member draw filtered Hne) as (movie & E & Hin).
  exists movie. split; [exact Hin|]. rewrite E, mbind_mret. reflexivity.
Qed.

(** A resolved run is never a plain reply that keeps the state. *)
Lemma resolved_not_stays (movie : Movie) (prefix text : list N) (st : Z) :
  resolved movie prefix <> stays st text.
Proof.
  destruct (overview movie) as [|c s] eqn:E.
  - rewrite (resolved_blank movie prefix E). discriminate.
  - rewrite (resolved_text movie prefix c s E). unfold stays.
    intros H. inversion H.
Qed.

Definition rating_bounds : spec_float * spec_float :=
  (pd.min (pd.col vote_average movies_df),
   pd.max (pd.col vote_average movies_df)).

(** Rating validation in the words of the specification: the text parses
    as a float within the bounds, both inclusive. *)
Definition rating_valid (text : list N) : Prop :=
  exists r,
    py_float text = Some r /\
    PyFloat.le (fst rating_bounds) r = true /\
    PyFloat.le r (snd rating_bounds) = true.

(** The two corrective prompts of the rating flow. *)
Definition rating_rejected (run : M (option Z)) : Prop :=
  run = stays RATING (lit "Введите корректное число, например 7.5") \/
  run = stays RATING
          (lit "Введите число от "
             ++ PyFloat.format_1f (fst rating_bounds) ++ lit " до "
             ++ PyFloat.format_1f (snd rating_bounds)).

Lemma max_rating_candidate (r : spec_float) :
  PyFloat.le r (snd rating_bounds) = true ->
  exists movie,
    In movie (rating_frame r) /\
    vote_average movie = snd rating_bounds.
Proof.
  intros Hle. pose proof (le_notna_r _ _ Hle) as Hna.
  apply max_In in Hna. unfold pd.col in Hna.
  apply in_map_iff in Hna. destruct Hna as (movie & Hv & Hin).
  exists movie. split; [|exact Hv].
  rewrite rating_frame_filter. apply filter_In. split; [exact Hin|].
  simpl. unfold PyFloat.ge. rewrite Hv. exact Hle.
Qed.

(** The three ends of a flow, on a message update. *)
Lemma serve_rating_cases (u : Update) (r : spec_float)
    (filtered : list Movie) (draw : nat) :
  has_message u = true ->
  (filtered = [] /\
   serve_rating u r filtered draw
   = stays RATING (lit "Фильмов с таким рейтингом не найдено.")) \/
  (exists movie,
      In movie filtered /\
      serve_rating u r filtered draw
      = resolved movie
          (lit "🎬 Фильмы с рейтингом " ++ PyFloat.format_1f r ++ lit "+")).
Proof.
  intros Hm. unfold serve_rating.
  rewrite (message_reply_sent u) by exact Hm.
  destruct filtered as [|m l].
  - left. split; reflexivity.
  - right. cbn [pd.empty]. apply resolve_run. discriminate.
Qed.

Lemma serve_year_cases (u : Update) (y : Z) (filtered : list Movie)
    (draw : nat) :
  has_message u = true ->
  (filtered = [] /\
   serve_year u y filtered draw
   = stays YEAR
       (lit "Фильмов за " ++ PyStr.str_int y ++ lit " год не найдено.")) \/
  (exists movie,
      In movie filtered /\
      serve_year u y filtered draw
      = resolved movie
          (lit "🎬 Фильмы за " ++ PyStr.str_int y ++ lit " год:")).
Proof.
  intros Hm. unfold serve_year.
  rewrite (message_reply_sent u) by exact Hm.
  destruct filtered as [|m l].
  - left. split; reflexivity.
  - right. cbn [pd.empty]. apply resolve_run. discriminate.
Qed.

Lemma serve_popularity_cases (u : Update) (p : spec_float)
    (filtered : list Movie) (draw : nat) :
  has_message u = true ->
  (filtered = [] /\
   serve_popularity u p filtered draw
   = stays POPULARITY
       (lit "Фильмов с популярностью от " ++ float_str p
          ++ lit " не найдено.")) \/
  (exists movie,
      In movie filtered /\
      serve_popularity u p filtered draw
      = resolved movie
          (lit "🎬 Фильмы с популярностью от " ++ float_str p ++ lit ":")).
Proof.
  intros Hm. unfold serve_popularity.
  rewrite (message_reply_sent u) by exact Hm.
  destruct filtered as [|m l].
  - left. split; reflexivity.
  - right. cbn [pd.empty]. apply resolve_run. discriminate.
Qed.

Lemma process_rating_validated (u : Update) (draw : nat) (r : spec_float) :
  has_message u = true ->
  py_float (sent_text u) = Some r ->
  PyFloat.le (fst rating_bounds) r = true ->
  PyFloat.le r (snd rating_bounds) = true ->
  process_rating u draw = serve_rating u r (rating_frame r) draw.
Proof.
  intros Hm Hr Hmin Hmax. unfold process_rating.
  rewrite (message_text_sent u Hm), mbind_mret, Hr.
  change (pd.min (pd.col vote_average movies_df)) with (fst rating_bounds).
  change (pd.max (pd.col vote_average movies_df)) with (snd rating_bounds).
  rewrite Hmin, Hmax. reflexivity.
Qed.

Lemma process_rating_cases (u : Update) (draw : nat) :
  has_message u = true ->
  match py_float (sent_text u) with
  | None =>
      process_rating u draw
      = stays RATING (lit "Введите корректное число, например 7.5")
  | Some r =>
      if PyFloat.le (fst rating_bounds) r
         && PyFloat.le r (snd rating_bounds)
      then
        exists movie,
          In movie (rating_frame r) /\
          process_rating u draw
          = resolved movie
              (lit "🎬 Фильмы с рейтингом " ++ PyFloat.format_1f r
                 ++ lit "+")
      else
        process_rating u draw
        = stays RATING
            (lit "Введите число от "
               ++ PyFloat.format_1f (fst rating_bounds) ++ lit " до "
               ++ PyFloat.format_1f (snd rating_bounds))
  end.
Proof.
  intros Hm.
  destruct (py_float (sent_text u)) as [r|] eqn:Hr.
  - destruct (PyFloat.le (fst rating_bounds) r
              && PyFloat.le r (snd rating_bounds)) eqn:Hb.
    + apply andb_true_iff in Hb. destruct Hb as [Hmin Hmax].
      rewrite (process_rating_validated u draw r Hm Hr Hmin Hmax).
      destruct (max_rating_candidate r Hmax) as (best & Hbest & _).
      destruct (serve_rating_cases u r (rating_frame r) draw Hm)
        as [(Hempty & _)|H]; [|exact H].
      rewrite Hempty in Hbest. destruct Hbest.
    + unfold process_rating.
      rewrite (message_text_sent u Hm), mbind_mret, Hr.
      rewrite (message_reply_sent u) by exact Hm.
      change (pd.min (pd.col vote_average movies_df))
        with (fst rating_bounds).
      change (pd.max (pd.col vote_average movies_df))
        with (snd rating_bounds).
      rewrite Hb. reflexivity.
  - unfold process_rating.
    rewrite (message_text_sent u Hm), mbind_mret, Hr.
    rewrite (message_reply_sent u) by exact Hm. reflexivity.
Qed.

Lemma process_year_parsed (u : Update) (draw : nat) (y : Z) :
  has_message u = true ->
  py_int (sent_text u) = Some y ->
  process_year u draw
  = match year_frame y with
    | inl e => raise e
    | inr frame => serve_year u y frame draw
    end.
Proof.
  intros Hm Hy. unfold process_year, year_frame.
  rewrite (message_text_sent u Hm), mbind_mret, Hy.
  destruct (pd.eq_mask year_float64 (pd.col year movies_df) y) as [e|mask].
  - reflexivity.
  - rewrite mbind_lift. reflexivity.
Qed.

Lemma process_year_cases (u : Update) (draw : nat) :
  has_message u = true ->
  match py_int (sent_text u) with
  | None =>
      process_year u draw
      = stays YEAR (lit "Введите корректный год (например, 2020)")
  | Some y =>
      match year_frame y with
      | inl e => process_year u draw = raise e
      | inr frame =>
          (frame = [] /\
           process_year u draw
           = stays YEAR
               (lit "Фильмов за " ++ PyStr.str_int y
                  ++ lit " год не найдено.")) \/
          (exists movie,
              In movie frame /\
              process_year u draw
              = resolved movie
                  (lit "🎬 Фильмы за " ++ PyStr.str_int y ++ lit " год:"))
      end
  end.
Proof.
  intros Hm.
  destruct (py_int (sent_text u)) as [y|] eqn:Hy.
  - rewrite (process_year_parsed u draw y Hm Hy).
    destruct (year_frame y) as [e|frame]; [reflexivity|].
    apply serve_year_cases. exact Hm.
  - unfold process_year.
    rewrite (message_text_sent u Hm), mbind_mret, Hy.
    rewrite (message_reply_sent u) by exact Hm. reflexivity.
Qed.

Lemma process_popularity_cases (u : Update) (draw : nat) :
  has_message u = true ->
  match py_float (sent_text u) with
  | None =>
      process_popularity u draw
      = stays POPULARITY
          (lit "Введите корректное число для популярности.")
  | Some p =>
      (popularity_frame p = [] /\
       process_popularity u draw
       = stays POPULARITY
           (lit "Фильмов с популярностью от " ++ float_str p
              ++ lit " не найдено.")) \/
      (exists movie,
          In movie (popularity_frame p) /\
          process_popularity u draw
          = resolved movie
              (lit "🎬 Фильмы с популярностью от " ++ float_str p
                 ++ lit ":"))
  end.
Proof.
  intros Hm. unfold process_popularity.
  rewrite (message_text_sent u Hm), mbind_mret.
  destruct (py_float (sent_text u)) as [p|].
  - change (pd.select movies_df
              (pd.ge_mask (pd.col popularity movies_df) p))
      with (popularity_frame p).
    apply serve_popularity_cases. exact Hm.
  - rewrite (message_reply_sent u) by exact Hm. reflexivity.
Qed.

(** The run of [random_movie] on a tap: the guard of [require_data] on an
    empty catalog, or the answer and then the movie drawn. *)
Lemma random_movie_cases (u : Update) (draw : nat) :
  has_query u = true ->
  (movies_df = [] /\
   random_movie u draw
   = ([answer;
       edit_message_text
         (lit "⚠️ База фильмов не загружена. Попробуйте позже.") None false],
      inr (Some END))) \/
  (exists movie,
      In movie movies_df /\
      sample1 draw movies_df = mret movie /\
      random_movie u draw
      = (send answer;;
         _send_movie_info true movie (lit "🎲 Случайная рекомендация:");;
         mret None)).
Proof.
  intros Hq. unfold random_movie, require_data.
  rewrite (query_answer_sent u Hq).
  destruct movies_df as [|m l] eqn:E.
  - left. split; [reflexivity|]. simpl pd.empty. cbv iota.
    rewrite Hq, (has_query_not_message u Hq). reflexivity.
  - right. simpl pd.empty. cbv iota.
    destruct (sample1_member draw (m :: l)) as (movie & Es & Hin);
      [discriminate|].
    exists movie. split; [exact Hin|]. split; [exact Es|].
    rewrite !send_bind, Es, mbind_mret. reflexivity.
Qed.

(** ** Dispatch *)

(** What the application does with the run of a conversation handler. *)
Definition conv_outcome (conversations : gmap (Z * Z) Z) (key : Z * Z)
    (run : M (option Z)) : gmap (Z * Z) Z * list action :=
  match run with
  | (out, inl _) => (conversations, out ++ error_handler)
  | (out, inr new_state) =>
      (_update_state new_state key conversations, out)
  end.

(** The handler that reads the text sent in an awaiting state. *)
Definition text_handler (s : Dialog.State) : callback :=
  match s with
  | Dialog.AwaitingYear => process_year
  | Dialog.AwaitingPopularity => process_popularity
  | _ => process_rating
  end.

Lemma states_lookup (s : Dialog.State) (st : Z) :
  Dialog.stored s = Some st ->
  states conv_handler !! st = Some [MessageHandler (text_handler s)].
Proof.
  destruct s; simpl; intros E; inversion E; subst; reflexivity.
Qed.

Ltac eval_checks :=
  repeat match goal with
    | |- context [re_match ?a ?b] =>
        let v := eval vm_compute in (re_match a b) in
        change (re_match a b) with v
    | |- context [@bool_decide (?a = ?b) ?d] =>
        let v := eval vm_compute in (@bool_decide (a = b) d) in
        change (@bool_decide (a = b) d) with v
    end.

Lemma step_text (conversations : gmap (Z * Z) Z) (chat user : Z)
    (name text : list N) (draw : nat) (s : Dialog.State) (st : Z) :
  text <> [] ->
  Dialog.stored s = Some st ->
  conversations !! (chat, user) = Some st ->
  step conversations
    (Dialog.update_of chat user name (Dialog.textInput text)) draw
  = conv_outcome conversations (chat, user)
      (text_handler s
         (Dialog.update_of chat user name (Dialog.textInput text)) draw).
Proof.
  intros Htext Hs Hconv.
  unfold step, handlers, process_update.
  cbn [check_update content Dialog.update_of Dialog.payload_of].
  unfold conv_check_update, conv_key.
  cbn [chat_id user_id Dialog.update_of].
  rewrite Hconv.
  rewrite (states_lookup s st Hs).
  cbn [entry_points conv_handler allow_reentry fallbacks first_match
       List.find check_update content Dialog.update_of Dialog.payload_of
       default from_option id orb].
  destruct text as [|c text]; [exfalso; apply Htext; reflexivity|].
  cbn [handler_callback]. unfold conv_outcome.
  replace (bool_decide (Some st = None) || true) with true
    by (destruct (bool_decide (Some st = None)); reflexivity).
  cbn iota. reflexivity.
Qed.

(** The entry point that a selection intent reaches, with the state it
    opens. *)
Definition entry_of (i : Dialog.Intent) : option (callback * Z) :=
  match i with
  | Dialog.selectRating => Some (choose_rating, RATING)
  | Dialog.selectYear => Some (choose_year, YEAR)
  | Dialog.selectPopularity => Some (choose_popularity, POPULARITY)
  | _ => None
  end.

Lemma step_select (conversations : gmap (Z * Z) Z) (chat user : Z)
    (name : list N) (draw : nat) (i : Dialog.Intent) (cb : callback)
    (st : Z) :
  entry_of i = Some (cb, st) ->
  step conversations (Dialog.update_of chat user name i) draw
  = conv_outcome conversations (chat, user)
      (cb (Dialog.update_of chat user name i) draw).
Proof.
  intros Hi.
  destruct i; simpl in Hi; inversion Hi; subst; clear Hi;
    unfold step, handlers, process_update;
    cbn [check_update content Dialog.update_of Dialog.payload_of];
    eval_checks; cbn iota;
    unfold conv_check_update, conv_key;
    cbn [chat_id user_id Dialog.update_of allow_reentry conv_handler];
    rewrite orb_true_r;
    cbn [entry_points conv_handler first_match List.find check_update
         content Dialog.update_of Dialog.payload_of];
    eval_checks; cbn iota; reflexivity.
Qed.

Lemma step_cancel_idle (conversations : gmap (Z * Z) Z) (chat user : Z)
    (name : list N) (draw : nat) :
  conversations !! (chat, user) = None ->
  step conversations (Dialog.update_of chat user name Dialog.cancel) draw
  = (conversations, []).
Proof.
  intros Hconv.
  unfold step, handlers, process_update.
  cbn [check_update content Dialog.update_of Dialog.payload_of].
  eval_checks. cbn iota.
  unfold conv_check_update, conv_key.
  cbn [chat_id user_id Dialog.update_of].
  rewrite Hconv.
  cbn [entry_points conv_handler first_match List.find check_update
       content Dialog.update_of Dialog.payload_of].
  destruct (bool_decide (None = None) || allow_reentry conv_handler);
    reflexivity.
Qed.

Lemma step_cancel_awaiting (conversations : gmap (Z * Z) Z)
    (chat user : Z) (name : list N) (draw : nat) (s : Dialog.State)
    (st : Z) :
  Dialog.stored s = Some st ->
  conversations !! (chat, user) = Some st ->
  step conversations (Dialog.update_of chat user name Dialog.cancel) draw
  = (delete (chat, user) conversations,
     [reply_text
        (lit "Действие отменено. Используйте /start для нового поиска.")
        None false]).
Proof.
  intros Hs Hconv.
  unfold step, handlers, process_update.
  cbn [check_update content Dialog.update_of Dialog.payload_of].
  eval_checks. cbn iota.
  unfold conv_check_update, conv_key.
  cbn [chat_id user_id Dialog.update_of].
  rewrite Hconv, (states_lookup s st Hs).
  cbn [entry_points conv_handler allow_reentry fallbacks first_match
       List.find check_update content Dialog.update_of Dialog.payload_of
       default from_option id].
  eval_checks.
  destruct (bool_decide (Some st = None) || true); reflexivity.
Qed.

(** The random pick on a catalog that is not empty: the movie drawn is
    answered with its card when its overview is text, and with the error
    notice when its overview is NaN; the store is left as it was. *)
Lemma step_random (conversations : gmap (Z * Z) Z) (chat user : Z)
    (name : list N) (draw : nat) :
  movies_df <> [] ->
  exists movie,
    In movie movies_df /\
    sample1 draw movies_df = mret movie /\
    fst (step conversations
           (Dialog.update_of chat user name Dialog.selectRandom) draw)
    = conversations /\
    (forall c s,
        overview movie = Text c s ->
        step conversations
          (Dialog.update_of chat user name Dialog.selectRandom) draw
        = (conversations,
           [answer;
            reply_text
              (movie_text movie (c :: s) (lit "🎲 Случайная рекомендация:"))
              (Some movie_keyboard) true])) /\
    (overview movie = Blank ->
     step conversations
       (Dialog.update_of chat user name Dialog.selectRandom) draw
     = (conversations, answer :: error_handler)).
Proof.
  intros Hne.
  destruct (random_movie_cases
              (Dialog.update_of chat user name Dialog.selectRandom) draw
              eq_refl)
    as [[E _]|(movie & Hin & Hs & E)]; [congruence|].
  exists movie. split; [exact Hin|]. split; [exact Hs|].
  assert (Hstep :
    step conversations
      (Dialog.update_of chat user name Dialog.selectRandom) draw
    = match random_movie
              (Dialog.update_of chat user name Dialog.selectRandom) draw
      with
      | (out, inl _) => (conversations, out ++ error_handler)
      | (out, inr _) => (conversations, out)
      end).
  { unfold step, handlers, process_update.
    cbn [check_update content Dialog.update_of Dialog.payload_of].
    eval_checks. cbn iota. reflexivity. }
  rewrite Hstep, E. clear Hstep E.
  destruct (overview movie) as [|c s] eqn:Ho.
  - rewrite (send_movie_info_blank movie _ Ho).
    split; [reflexivity|]. split; [intros c s Hc; discriminate Hc|].
    intros _. reflexivity.
  - rewrite (send_movie_info_text movie _ c s Ho).
    split; [reflexivity|]. split; [|intros Hc; discriminate Hc].
    intros c' s' Hc. inversion Hc; subst c' s'. reflexivity.
Qed.

Lemma parsed_text_nonempty_int (text : list N) (y : Z) :
  py_int text = Some y -> text <> [].
Proof. intros H E. subst text. discriminate H. Qed.

Lemma parsed_text_nonempty_float (text : list N) (r : spec_float) :
  py_float text = Some r -> text <> [].
Proof. intros H E. subst text. discriminate H. Qed.

Lemma stays_outcome (conversations : gmap (Z * Z) Z) (key : Z * Z)
    (st : Z) (text : list N) :
  st <> END ->
  conversations !! key = Some st ->
  conv_outcome conversations key (stays st text)
  = (conversations, [reply_text text None false]).
Proof.
  intros Hst Hconv. unfold conv_outcome, stays, _update_state.
  rewrite bool_decide_false by exact Hst.
  rewrite insert_id by exact Hconv. reflexivity.
Qed.

(** A resolved run closes the conversation when the movie is sent; the
    store is left as it was when the presenter raises. *)
Lemma resolved_outcome (conversations : gmap (Z * Z) Z) (key : Z * Z)
    (movie : Movie) (prefix : list N) :
  overview movie <> Blank ->
  conv_outcome conversations key (resolved movie prefix)
  = (delete key conversations, fst (resolved movie prefix)).
Proof.
  intros Ho. destruct (overview movie) as [|c s] eqn:E; [congruence|].
  rewrite (resolved_text movie prefix c s E). reflexivity.
Qed.

Lemma resolved_outcome_store (conversations : gmap (Z * Z) Z)
    (key : Z * Z) (movie : Movie) (prefix : list N) :
  fst (conv_outcome conversations key (resolved movie prefix))
  = match overview movie with
    | Blank => conversations
    | Text _ _ => delete key conversations
    end.
Proof.
  destruct (overview movie) as [|c s] eqn:E.
  - rewrite (resolved_blank movie prefix E). reflexivity.
  - rewrite (resolved_text movie prefix c s E). reflexivity.
Qed.

Lemma raise_outcome (conversations : gmap (Z * Z) Z) (key : Z * Z)
    (e : exn) :
  conv_outcome conversations key (raise e) = (conversations, error_handler).
Proof. reflexivity. Qed.

(** ** The presenter *)

(** The output carries a poster reference: the poster link of some path
    was appended to the text built before the poster step. *)
Definition has_poster_ref (movie : Movie) (overview prefix : list N)
    : Prop :=
  exists p,
    movie_text movie overview prefix
    = movie_text_base movie overview prefix ++ poster_anchor p.

Lemma poster_anchor_cons (p : list N) :
  exists rest, poster_anchor p = 10 :: rest.
Proof. unfold poster_anchor, nl. simpl. eexists; reflexivity. Qed.

Lemma movie_text_poster (movie : Movie) (overview prefix : list N) :
  movie_text movie overview prefix
  = movie_text_base movie overview prefix
      ++ match cell_str (poster_path movie) with
         | Some p => poster_anchor p
         | None => []
         end.
Proof.
  unfold movie_text.
  destruct (poster_path movie); simpl; rewrite ?app_nil_r; reflexivity.
Qed.

Lemma cell_str_nonempty (c : cell) (p : list N) :
  cell_str c = Some p -> p <> [].
Proof. destruct c; simpl; intros H; inversion H; discriminate. Qed.

Lemma has_poster_ref_iff (movie : Movie) (overview prefix : list N) :
  has_poster_ref movie overview prefix
  <-> exists p, cell_str (poster_path movie) = Some p /\ p <> [].
Proof.
  unfold has_poster_ref. rewrite movie_text_poster. split.
  - intros (p & E). apply app_inv_head in E.
    destruct (cell_str (poster_path movie)) as [q|] eqn:Hq.
    + exists q. split; [reflexivity|]. exact (cell_str_nonempty _ _ Hq).
    + destruct (poster_anchor_cons p) as (rest & Hp).
      rewrite Hp in E. discriminate E.
  - intros (p & E & _). exists p. rewrite E. reflexivity.
Qed.

Lemma slice_to_firstn (s : list N) (n : Z) :
  (0 <= n)%Z -> PyStr.slice_to s n = firstn (Z.to_nat n) s.
Proof.
  intros Hn. unfold PyStr.slice_to.
  destruct (n <? 0)%Z eqn:E; [|reflexivity].
  apply Z.ltb_lt in E. lia.
Qed.



Lemma stored_not_END (s : Dialog.State) (st : Z) :
  Dialog.stored s = Some st -> st <> END.
Proof. destruct s; simpl; intros E; inversion E; subst; discriminate. Qed.

Lemma step_stays (conversations : gmap (Z * Z) Z) (chat user : Z)
    (name text : list N) (draw : nat) (s : Dialog.State) (st : Z)
    (msg : list N) :
  text <> [] ->
  Dialog.stored s = Some st ->
  conversations !! (chat, user) = Some st ->
  text_handler s
    (Dialog.update_of chat user name (Dialog.textInput text)) draw
  = stays st msg ->
  step conversations
    (Dialog.update_of chat user name (Dialog.textInput text)) draw
  = (conversations, [reply_text msg None false]).
Proof.
  intros Htext Hs Hconv Hrun.
  rewrite (step_text _ _ _ _ _ _ s st Htext Hs Hconv), Hrun.
  apply stays_outcome; [exact (stored_not_END s st Hs)|exact Hconv].
Qed.

Lemma step_resolved (conversations : gmap (Z * Z) Z) (chat user : Z)
    (name text : list N) (draw : nat) (s : Dialog.State) (st : Z)
    (movie : Movie) (prefix : list N) :
  text <> [] ->
  Dialog.stored s = Some st ->
  conversations !! (chat, user) = Some st ->
  text_handler s
    (Dialog.update_of chat user name (Dialog.textInput text)) draw
  = resolved movie prefix ->
  step conversations
    (Dialog.update_of chat user name (Dialog.textInput text)) draw
  = conv_outcome conversations (chat, user) (resolved movie prefix) /\
  (overview movie <> Blank ->
   step conversations
     (Dialog.update_of chat user name (Dialog.textInput text)) draw
   = (delete (chat, user) conversations, fst (resolved movie prefix))).
Proof.
  intros Htext Hs Hconv Hrun.
  rewrite (step_text _ _ _ _ _ _ s st Htext Hs Hconv), Hrun.
  split; [reflexivity|]. apply resolved_outcome.
Qed.

(** The first code point of the first reply of a run. *)
Definition first_char (run : M (option Z)) : N :=
  match fst run with
  | reply_text (c :: _) _ _ :: _ => c
  | _ => 0
  end.

Ltac by_first_char E :=
  apply (f_equal first_char) in E; vm_compute in E; discriminate E.





(** The sentence of the specification on the cancel command that the code
    does not follow, as the specification states it: from state [s],
    cancel ends the conversation and is acknowledged. *)
Definition cancel_acknowledged (s : Dialog.State) : Prop :=
  forall (conversations : gmap (Z * Z) Z) chat user name draw,
    conversations !! (chat, user) = Dialog.stored s ->
    let after :=
      step conversations (Dialog.update_of chat user name Dialog.cancel)
        draw in
    fst after !! (chat, user) = None /\
    snd after
    = [reply_text
         (lit "Действие отменено. Используйте /start для нового поиска.")
         None false].

(** A run that does not raise [ValueError]. *)
Definition no_ValueError {A : Type} (run : M A) : Prop :=
  snd run <> inl ValueError.

Lemma resolved_no_ValueError (movie : Movie) (prefix : list N) :
  no_ValueError (resolved movie prefix).
Proof.
  unfold no_ValueError. destruct (overview movie) as [|c s] eqn:E.
  - rewrite (resolved_blank movie prefix E). discriminate.
  - rewrite (resolved_text movie prefix c s E). discriminate.
Qed.

Lemma process_rating_no_ValueError (u : Update) (draw : nat) :
  no_ValueError (process_rating u draw).
Proof.
  destruct (has_message u) eqn:Hm.
  - pose proof (process_rating_cases u draw Hm) as H.
    destruct (py_float (sent_text u)) as [r|].
    + destruct (PyFloat.le (fst rating_bounds) r
                && PyFloat.le r (snd rating_bounds)).
      * destruct H as (movie & _ & E). rewrite E.
        apply resolved_no_ValueError.
      * rewrite H. discriminate.
    + rewrite H. discriminate.
  - unfold process_rating. rewrite (message_text_none u Hm). discriminate.
Qed.

Lemma process_year_no_ValueError (u : Update) (draw : nat) :
  no_ValueError (process_year u draw).
Proof.
  destruct (has_message u) eqn:Hm.
  - pose proof (process_year_cases u draw Hm) as H.
    destruct (py_int (sent_text u)) as [y|].
    + destruct (year_frame y) as [e|frame] eqn:Hf.
      * rewrite H. destruct (year_frame_raises y e Hf) as (-> & _).
        discriminate.
      * destruct H as [(_ & E)|(movie & _ & E)]; rewrite E;
          [discriminate|apply resolved_no_ValueError].
    + rewrite H. discriminate.
  - unfold process_year. rewrite (message_text_none u Hm). discriminate.
Qed.

Lemma process_popularity_no_ValueError (u : Update) (draw : nat) :
  no_ValueError (process_popularity u draw).
Proof.
  destruct (has_message u) eqn:Hm.
  - pose proof (process_popularity_cases u draw Hm) as H.
    destruct (py_float (sent_text u)) as [p|].
    + destruct H as [(_ & E)|(movie & _ & E)]; rewrite E;
        [discriminate|apply resolved_no_ValueError].
    + rewrite H. discriminate.
  - unfold process_popularity. rewrite (message_text_none u Hm).
    discriminate.
Qed.

Lemma random_movie_no_ValueError (u : Update) (draw : nat) :
  no_ValueError (random_movie u draw).
Proof.
  unfold no_ValueError. destruct (has_query u) eqn:Hq.
  - destruct (random_movie_cases u draw Hq)
      as [(_ & E)|(movie & _ & _ & E)]; rewrite E; [discriminate|].
    rewrite send_bind. cbn [snd].
    destruct (overview movie) as [|c s] eqn:Ho.
    + rewrite (send_movie_info_blank movie _ Ho). discriminate.
    + rewrite (send_movie_info_text movie _ c s Ho). discriminate.
  - unfold random_movie, require_data, query_answer. rewrite Hq.
    destruct (pd.empty movies_df); [|discriminate].
    destruct (has_message u); discriminate.
Qed.

(** ** Verified properties *)


(** C2. On a non-empty frame the selection returns one of its rows,
    whatever the generator draws. [sample] raises [ValueError] on an
    empty frame, and no run of a handler that samples raises it: each
    one tests its frame for emptiness first. *)
Theorem choose_member :
  (forall draw filtered,
      filtered <> [] ->
      exists movie,
        sample1 draw filtered = mret movie /\ In movie filtered) /\
  (forall draw, sample1 draw [] = raise ValueError) /\
  (forall u draw,
      no_ValueError (random_movie u draw) /\
      no_ValueError (process_rating u draw) /\
      no_ValueError (process_year u draw) /\
      no_ValueError (process_popularity u draw)).
Proof.
  split; [exact sample1_member|].
  split; [intros [|draw]; reflexivity|].
  intros u draw.
  split; [apply random_movie_no_ValueError|].
  split; [apply process_rating_no_ValueError|].
  split; [apply process_year_no_ValueError
         |apply process_popularity_no_ValueError].
Qed.

(** C10. A rating within the bounds always has a candidate: a movie
    whose [vote_average] is the maximum passes the filter. So a validated
    rating ends the flow with a movie drawn from the frame (the
    conversation is closed once its card is sent), and no run of
    [process_rating] sends the not-found reply. *)
Theorem rating_filter_nonempty (r : spec_float) :
  PyFloat.le (fst rating_bounds) r = true ->
  PyFloat.le r (snd rating_bounds) = true ->
  (exists movie,
      In movie (rating_frame r) /\
      vote_average movie = snd rating_bounds) /\
  rating_frame r <> [] /\
  (forall u draw,
      has_message u = true ->
      py_float (sent_text u) = Some r ->
      exists movie,
        In movie (rating_frame r) /\
        process_rating u draw
        = resolved movie
            (lit "🎬 Фильмы с рейтингом " ++ PyFloat.format_1f r
               ++ lit "+")) /\
  (forall conversations chat user name text draw,
      conversations !! (chat, user) = Some RATING ->
      py_float text = Some r ->
      exists movie,
        In movie (rating_frame r) /\
        step conversations
          (Dialog.update_of chat user name (Dialog.textInput text)) draw
        = conv_outcome conversations (chat, user)
            (resolved movie
               (lit "🎬 Фильмы с рейтингом " ++ PyFloat.format_1f r
                  ++ lit "+")) /\
        (overview movie <> Blank ->
         step conversations
           (Dialog.update_of chat user name (Dialog.textInput text)) draw
         = (delete (chat, user) conversations,
            fst (resolved movie
                   (lit "🎬 Фильмы с рейтингом " ++ PyFloat.format_1f r
                      ++ lit "+"))))) /\
  (forall u draw,
      process_rating u draw
      <> stays RATING (lit "Фильмов с таким рейтингом не найдено.")).
Proof.
  intros Hmin Hmax.
  destruct (max_rating_candidate r Hmax) as (best & Hbest & Hv).
  split; [eauto|].
  split; [intros E; rewrite E in Hbest; exact Hbest|].
  split; [|split].
  - intros u draw Hm Hparse.
    pose proof (process_rating_cases u draw Hm) as H.
    rewrite Hparse, Hmin, Hmax in H. exact H.
  - intros conversations chat user name text draw Hconv Hparse.
    pose proof (process_rating_cases
                  (Dialog.update_of chat user name (Dialog.textInput text))
                  draw eq_refl) as H.
    change (sent_text _) with text in H.
    rewrite Hparse, Hmin, Hmax in H. destruct H as (movie & Hin & E).
    exists movie. split; [exact Hin|].
    apply (step_resolved _ _ _ _ _ _ Dialog.AwaitingRating RATING);
      [exact (parsed_text_nonempty_float _ _ Hparse)|reflexivity
      |exact Hconv|exact E].
  - intros u draw E.
    destruct (has_message u) eqn:Hm;
      [|unfold process_rating in E;
        rewrite (message_text_none u Hm) in E; discriminate E].
    pose proof (process_rating_cases u draw Hm) as H.
    destruct (py_float (sent_text u)) as [r'|].
    + destruct (PyFloat.le (fst rating_bounds) r'
                && PyFloat.le r' (snd rating_bounds)).
      * destruct H as (movie & _ & H). rewrite H in E.
        exact (resolved_not_stays _ _ _ _ E).
      * rewrite H in E. by_first_char E.
    + rewrite H in E. by_first_char E.
Qed.

(** C3. Rating validation succeeds exactly when the text parses as a
    float within the bounds [min, max] of [vote_average], both inclusive;
    otherwise one of the two corrective prompts is sent and the
    conversation stays in [RATING]. With bounds 3.0 and 8.5: "7.5" is
    read as 7.5 and accepted, "2.9" and "abc" are refused, "8.5" is
    accepted. *)
Theorem rating_validation (u : Update) (draw : nat) :
  has_message u = true ->
  (rating_valid (sent_text u)
   <-> ~ rating_rejected (process_rating u draw)) /\
  (~ rating_valid (sent_text u) ->
   rating_rejected (process_rating u draw)) /\
  (forall conversations chat user name text,
      u = Dialog.update_of chat user name (Dialog.textInput text) ->
      text <> [] ->
      conversations !! (chat, user) = Some RATING ->
      rating_rejected (process_rating u draw) ->
      exists msg,
        step conversations u draw
        = (conversations, [reply_text msg None false])) /\
  (rating_bounds
   = (PyFloat.of_decimal false 30 (-1), PyFloat.of_decimal false 85 (-1)) ->
   (sent_text u = lit "7.5" ->
    py_float (sent_text u) = Some (PyFloat.of_decimal false 75 (-1)) /\
    exists movie,
      In movie (rating_frame (PyFloat.of_decimal false 75 (-1))) /\
      process_rating u draw
      = resolved movie (lit "🎬 Фильмы с рейтингом 7.5+")) /\
   (sent_text u = lit "2.9" ->
    process_rating u draw
    = stays RATING (lit "Введите число от 3.0 до 8.5")) /\
   (sent_text u = lit "abc" ->
    process_rating u draw
    = stays RATING (lit "Введите корректное число, например 7.5")) /\
   (sent_text u = lit "8.5" ->
    exists movie,
      In movie (rating_frame (PyFloat.of_decimal false 85 (-1))) /\
      process_rating u draw
      = resolved movie (lit "🎬 Фильмы с рейтингом 8.5+"))).
Proof.
  intros Hm. pose proof (process_rating_cases u draw Hm) as H.
  assert (Hdec :
    (rating_valid (sent_text u)
     /\ ~ rating_rejected (process_rating u draw)) \/
    (~ rating_valid (sent_text u)
     /\ rating_rejected (process_rating u draw))).
  { unfold rating_valid, rating_rejected.
    destruct (py_float (sent_text u)) as [r|].
    - destruct (PyFloat.le (fst rating_bounds) r
                && PyFloat.le r (snd rating_bounds)) eqn:Hb.
      + left. apply andb_true_iff in Hb. split; [eauto|].
        destruct H as (movie & _ & E). rewrite E.
        intros [R|R]; exact (resolved_not_stays _ _ _ _ R).
      + right. split; [|right; exact H].
        intros (r' & Hr & Hmin & Hmax). inversion Hr; subst r'.
        rewrite Hmin, Hmax in Hb. discriminate Hb.
    - right. split; [|left; exact H].
      intros (r' & Hr & _). discriminate Hr. }
  split; [tauto|]. split; [tauto|]. split.
  - intros conversations chat user name text -> Htext Hconv [R|R];
      eexists;
      apply (step_stays _ _ _ _ _ _ Dialog.AwaitingRating RATING);
      try eassumption; reflexivity.
  - intros Hbounds.
    split; [|split; [|split]]; intros Htext; rewrite Htext in *.
    + split; [vm_compute; reflexivity|].
      replace (py_float (lit "7.5"))
        with (Some (PyFloat.of_decimal false 75 (-1))) in H
        by (vm_compute; reflexivity).
      rewrite Hbounds in H. cbn [fst snd] in H.
      replace (PyFloat.le (PyFloat.of_decimal false 30 (-1))
                 (PyFloat.of_decimal false 75 (-1))
               && PyFloat.le (PyFloat.of_decimal false 75 (-1))
                    (PyFloat.of_decimal false 85 (-1)))
        with true in H by (vm_compute; reflexivity).
      replace (lit "🎬 Фильмы с рейтингом 7.5+")
        with (lit "🎬 Фильмы с рейтингом "
                ++ PyFloat.format_1f (PyFloat.of_decimal false 75 (-1))
                ++ lit "+")
        by (vm_compute; reflexivity).
      exact H.
    + replace (py_float (lit "2.9"))
        with (Some (PyFloat.of_decimal false 29 (-1))) in H
        by (vm_compute; reflexivity).
      rewrite Hbounds in H. cbn [fst snd] in H.
      replace (PyFloat.le (PyFloat.of_decimal false 30 (-1))
                 (PyFloat.of_decimal false 29 (-1))
               && PyFloat.le (PyFloat.of_decimal false 29 (-1))
                    (PyFloat.of_decimal false 85 (-1)))
        with false in H by (vm_compute; reflexivity).
      rewrite H. f_equal.
    + replace (py_float (lit "abc")) with (@None spec_float) in H
        by (vm_compute; reflexivity).
      exact H.
    + replace (py_float (lit "8.5"))
        with (Some (PyFloat.of_decimal false 85 (-1))) in H
        by (vm_compute; reflexivity).
      rewrite Hbounds in H. cbn [fst snd] in H.
      replace (PyFloat.le (PyFloat.of_decimal false 30 (-1))
                 (PyFloat.of_decimal false 85 (-1))
               && PyFloat.le (PyFloat.of_decimal false 85 (-1))
                    (PyFloat.of_decimal false 85 (-1)))
        with true in H by (vm_compute; reflexivity).
      replace (lit "🎬 Фильмы с рейтингом 8.5+")
        with (lit "🎬 Фильмы с рейтингом "
                ++ PyFloat.format_1f (PyFloat.of_decimal false 85 (-1))
                ++ lit "+")
        by (vm_compute; reflexivity).
      exact H.
Qed.

(** C8. Popularity validation succeeds exactly when the text parses as a
    float: no bound is enforced on either side, so every parsed value,
    a negative one or NaN included, goes on to the filter. *)
Theorem popularity_validation (u : Update) (draw : nat) :
  has_message u = true ->
  ((exists p, py_float (sent_text u) = Some p)
   <-> process_popularity u draw
       <> stays POPULARITY
            (lit "Введите корректное число для популярности.")) /\
  (py_float (sent_text u) = None ->
   process_popularity u draw
   = stays POPULARITY (lit "Введите корректное число для популярности.")) /\
  (forall p,
      py_float (sent_text u) = Some p ->
      (popularity_frame p = [] /\
       process_popularity u draw
       = stays POPULARITY
           (lit "Фильмов с популярностью от " ++ float_str p
              ++ lit " не найдено.")) \/
      (exists movie,
          In movie (popularity_frame p) /\
          process_popularity u draw
          = resolved movie
              (lit "🎬 Фильмы с популярностью от " ++ float_str p
                 ++ lit ":"))) /\
  py_float (lit "-5") = Some (PyFloat.of_decimal true 5 0) /\
  py_float (lit "1e400") = Some (S754_infinity false) /\
  py_float (lit "nan") = Some S754_nan.
Proof.
  intros Hm. pose proof (process_popularity_cases u draw Hm) as H.
  split; [|split; [|split; [|repeat split; vm_compute; reflexivity]]].
  - destruct (py_float (sent_text u)) as [p|].
    + split; [|eauto]. intros _ E.
      destruct H as [(_ & H)|(movie & _ & H)]; rewrite H in E.
      * by_first_char E.
      * exact (resolved_not_stays _ _ _ _ E).
    + split; [intros (p & Hp); discriminate Hp|].
      intros Hne. contradiction.
  - intros Hnone. rewrite Hnone in H. exact H.
  - intros p Hp. rewrite Hp in H. exact H.
Qed.


(** C5, as the code has it. From an awaiting state the cancel command
    ends the conversation of that user (the state becomes idle) and the
    acknowledgment is sent; the conversations of other users are not
    touched. Without an open conversation the command reaches no
    handler: the state stays idle and nothing is sent. In both cases a
    random pick asked for next draws a movie of the catalog, leaves the
    state idle, and is answered with the card of that movie (a movie
    whose overview is NaN gets the error notice in place of its card). *)
Theorem cancel_ends_conversation (conversations : gmap (Z * Z) Z)
    (chat user : Z) (name : list N) (draw : nat) (s : Dialog.State) :
  conversations !! (chat, user) = Dialog.stored s ->
  movies_df <> [] ->
  let after :=
    step conversations (Dialog.update_of chat user name Dialog.cancel)
      draw in
  fst after !! (chat, user) = None /\
  (forall key, key <> (chat, user) ->
               fst after !! key = conversations !! key) /\
  snd after
  = match s with
    | Dialog.Idle => []
    | _ =>
        [reply_text
           (lit "Действие отменено. Используйте /start для нового поиска.")
           None false]
    end /\
  (forall name' draw',
      exists movie,
        In movie movies_df /\
        sample1 draw' movies_df = mret movie /\
        step (fst after)
          (Dialog.update_of chat user name' Dialog.selectRandom) draw'
        = (fst after,
           answer ::
           match overview movie with
           | Text c o =>
               [reply_text
                  (movie_text movie (c :: o)
                     (lit "🎲 Случайная рекомендация:"))
                  (Some [ [(lit "🔁 Еще один", lit "random")];
                          [(lit "🔙 Назад", lit "back")] ])
                  true]
           | Blank => error_handler
           end)).
Proof.
  intros Hconv Hne after.
  assert (Hafter :
    after = match s with
            | Dialog.Idle => (conversations, [])
            | _ =>
                (delete (chat, user) conversations,
                 [reply_text
                    (lit "Действие отменено. Используйте /start для нового поиска.")
                    None false])
            end).
  { subst after. destruct s; simpl in Hconv;
      [apply step_cancel_idle; exact Hconv
      |eapply (step_cancel_awaiting _ _ _ _ _ Dialog.AwaitingRating);
         [reflexivity|exact Hconv]
      |eapply (step_cancel_awaiting _ _ _ _ _ Dialog.AwaitingYear);
         [reflexivity|exact Hconv]
      |eapply (step_cancel_awaiting _ _ _ _ _ Dialog.AwaitingPopularity);
         [reflexivity|exact Hconv]]. }
  rewrite Hafter. clear Hafter after.
  split; [|split; [|split]].
  - destruct s; simpl; [exact Hconv|apply lookup_delete_eq..].
  - intros key Hkey.
    destruct s; simpl; [reflexivity|apply lookup_delete_ne; congruence..].
  - destruct s; reflexivity.
  - intros name' draw'.
    destruct (step_random
                (fst match s with
                     | Dialog.Idle => (conversations, [])
                     | _ =>
                         (delete (chat, user) conversations,
                          [reply_text
                             (lit "Действие отменено. Используйте /start для нового поиска.")
                             None false])
                     end) chat user name' draw' Hne)
      as (movie & Hin & Hs & _ & Htext & Hblank).
    exists movie. split; [exact Hin|]. split; [exact Hs|].
    destruct (overview movie) as [|c o];
      [exact (Hblank eq_refl)|exact (Htext c o eq_refl)].
Qed.

(** C6. A selection intent opens its session whatever the state of the
    user was: the prompt is sent, the stored state is overwritten, and
    nothing else is kept of the earlier session. The text sent next is
    read by the handler of the new state; so after [selectYear] in
    [AwaitingRating] the next text is read as a year, and the flow then
    stays in [YEAR] or ends: it never goes back to [RATING]. *)
Theorem reentry_replaces_session (conversations : gmap (Z * Z) Z)
    (chat user : Z) (name : list N) (draw : nat) :
  step conversations
    (Dialog.update_of chat user name Dialog.selectRating) draw
  = (<[(chat, user) := RATING]> conversations,
     [answer;
      edit_message_text
        (lit "Введите минимальный рейтинг ("
           ++ float_str (round1 (fst rating_bounds)) ++ lit " - "
           ++ float_str (round1 (snd rating_bounds)) ++ lit "):" ++ nl
           ++ lit "Пример: <code>7.5</code>") None true]) /\
  step conversations
    (Dialog.update_of chat user name Dialog.selectYear) draw
  = (<[(chat, user) := YEAR]> conversations,
     [answer;
      edit_message_text (lit "Введите год выпуска (например, 2020):")
        None false]) /\
  step conversations
    (Dialog.update_of chat user name Dialog.selectPopularity) draw
  = (<[(chat, user) := POPULARITY]> conversations,
     [answer;
      edit_message_text (lit "Введите минимальный уровень популярности:")
        None false]) /\
  (forall s st name' text draw',
      Dialog.stored s = Some st ->
      text <> [] ->
      step (<[(chat, user) := st]> conversations)
        (Dialog.update_of chat user name' (Dialog.textInput text)) draw'
      = conv_outcome (<[(chat, user) := st]> conversations) (chat, user)
          (text_handler s
             (Dialog.update_of chat user name' (Dialog.textInput text))
             draw')) /\
  (forall name' text draw',
      conversations !! (chat, user) = Some RATING ->
      text <> [] ->
      let mid :=
        fst (step conversations
               (Dialog.update_of chat user name Dialog.selectYear) draw) in
      let u := Dialog.update_of chat user name' (Dialog.textInput text) in
      mid !! (chat, user) = Some YEAR /\
      step mid u draw'
      = conv_outcome mid (chat, user) (process_year u draw') /\
      (fst (step mid u draw') !! (chat, user) = Some YEAR \/
       fst (step mid u draw') !! (chat, user) = None)).
Proof.
  assert (Hyear :
    step conversations
      (Dialog.update_of chat user name Dialog.selectYear) draw
    = (<[(chat, user) := YEAR]> conversations,
       [answer;
        edit_message_text (lit "Введите год выпуска (например, 2020):")
          None false])).
  { rewrite (step_select _ _ _ _ _ _ choose_year YEAR) by reflexivity.
    reflexivity. }
  assert (Htext : forall s st name' text draw',
      Dialog.stored s = Some st ->
      text <> [] ->
      step (<[(chat, user) := st]> conversations)
        (Dialog.update_of chat user name' (Dialog.textInput text)) draw'
      = conv_outcome (<[(chat, user) := st]> conversations) (chat, user)
          (text_handler s
             (Dialog.update_of chat user name' (Dialog.textInput text))
             draw')).
  { intros s st name' text draw' Hs Htext.
    apply (step_text _ _ _ _ _ _ s st Htext Hs).
    apply lookup_insert_eq. }
  split; [|split; [exact Hyear|split; [|split; [exact Htext|]]]].
  - rewrite (step_select _ _ _ _ _ _ choose_rating RATING) by reflexivity.
    reflexivity.
  - rewrite (step_select _ _ _ _ _ _ choose_popularity POPULARITY)
      by reflexivity.
    reflexivity.
  - intros name' text draw' _ Hne mid u. subst mid. rewrite Hyear.
    cbn [fst].
    split; [apply lookup_insert_eq|].
    pose proof (Htext Dialog.AwaitingYear YEAR name' text draw'
                  eq_refl Hne) as Hstep.
    cbn [text_handler] in Hstep. fold u in Hstep.
    split; [exact Hstep|]. rewrite Hstep.
    pose proof (process_year_cases u draw' eq_refl) as H.
    destruct (py_int (sent_text u)) as [y|].
    + destruct (year_frame y) as [e|frame].
      * rewrite H, raise_outcome. left. apply lookup_insert_eq.
      * destruct H as [(_ & H)|(movie & _ & H)]; rewrite H.
        -- left. rewrite stays_outcome;
             [apply lookup_insert_eq|discriminate|apply lookup_insert_eq].
        -- rewrite resolved_outcome_store.
           destruct (overview movie);
             [left; apply lookup_insert_eq|right; apply lookup_delete_eq].
    + rewrite H. left. rewrite stays_outcome;
        [apply lookup_insert_eq|discriminate|apply lookup_insert_eq].
Qed.

(** ** More on the float order and on [min] and [max] *)

(** The place of a float in the order of [<=]: the class first (minus
    infinity, negative, zero, positive, plus infinity), then exponent and
    mantissa, reversed for a negative value. NaN has no place. *)
Definition rank (x : spec_float) : option (Z * Z * Z) :=
  match x with
  | S754_nan => None
  | S754_infinity s => Some (if s then (-2, 0, 0) else (2, 0, 0))%Z
  | S754_zero _ => Some (0, 0, 0)%Z
  | S754_finite s m e =>
      Some (if s then (-1, - e, - Zpos m) else (1, e, Zpos m))%Z
  end.

Definition lex_le (a b : Z * Z * Z) : Prop :=
  let '(a1, a2, a3) := a in
  let '(b1, b2, b3) := b in
  (a1 < b1 \/ (a1 = b1 /\ (a2 < b2 \/ (a2 = b2 /\ a3 <= b3))))%Z.


Lemma SFleb_rank (x y : spec_float) :
  SFleb x y = true
  <-> match rank x, rank y with
      | Some a, Some b => lex_le a b
      | _, _ => False
      end.
Proof.
  unfold SFleb, SFcompare.
  destruct x as [s|s| |s m e], y as [s'|s'| |s' m' e']; simpl;
    try (destruct s); try (destruct s'); simpl;
    try (split; [intros H; try discriminate H; lia|intros H; try lia;
                 reflexivity]);
    change (Pos.compare_cont Eq m m') with (Pos.compare m m');
    destruct (Z.compare_spec e e'); destruct (Pos.compare_spec m m');
    simpl; (split; [intros Hgoal; try discriminate Hgoal; lia
                   |intros Hgoal; try lia; reflexivity]).
Qed.




Lemma le_trans (x y z : spec_float) :
  PyFloat.le x y = true -> PyFloat.le y z = true -> PyFloat.le x z = true.
Proof.
  unfold PyFloat.le. rewrite !SFleb_rank.
  destruct (rank x) as [[[a1 a2] a3]|], (rank y) as [[[b1 b2] b3]|],
    (rank z) as [[[c1 c2] c3]|]; simpl; try contradiction; lia.
Qed.





(** ** Dispatch, for every update *)

(** The callback that [process_update] runs for an update, if any, and
    whether it was taken from the conversation handler. *)
Fixpoint pick_handler (hs : list AppHandler)
    (conversations : gmap (Z * Z) Z) (u : Update)
    : option (callback * bool) :=
  match hs with
  | [] => None
  | Plain h :: rest =>
      if check_update h u then Some (handler_callback h, false)
      else pick_handler rest conversations u
  | Conversation c :: rest =>
      match conv_check_update c conversations u with
      | Some h => Some (handler_callback h, true)
      | None => pick_handler rest conversations u
      end
  end.

Lemma process_update_pick (hs : list AppHandler)
    (conversations : gmap (Z * Z) Z) (u : Update) (draw : nat) :
  process_update hs conversations u draw
  = match pick_handler hs conversations u with
    | None => (conversations, [])
    | Some (cb, in_conv) =>
        match cb u draw with
        | (out, inl _) => (conversations, out ++ error_handler)
        | (out, inr new_state) =>
            (if in_conv
             then _update_state new_state (conv_key u) conversations
             else conversations, out)
        end
    end.
Proof.
  induction hs as [|[h|c] hs IH]; simpl; [reflexivity| |].
  - destruct (check_update h u); [|exact IH].
    destruct (handler_callback h u draw) as [out [e|r]]; reflexivity.
  - destruct (conv_check_update c conversations u) as [h|]; [|exact IH].
    destruct (handler_callback h u draw) as [out [e|r]]; reflexivity.
Qed.

(** What the application does with the run of the handler it selected,
    inside the conversation handler or outside. *)
Definition outcome (in_conv : bool) (conversations : gmap (Z * Z) Z)
    (key : Z * Z) (run : M (option Z)) : gmap (Z * Z) Z * list action :=
  match run with
  | (out, inl _) => (conversations, out ++ error_handler)
  | (out, inr new_state) =>
      (if in_conv then _update_state new_state key conversations
       else conversations, out)
  end.

(** The routing of [main], read as a table: a command, a text or a button
    tap, against the state stored for the user. An edited message is
    routed as a new one. *)
Definition route_command (conversations : gmap (Z * Z) Z) (u : Update)
    (name : list N) : option (callback * bool) :=
  if bool_decide (name = lit "start") then Some (start, false)
  else
    match conversations !! conv_key u with
    | Some _ =>
        if bool_decide (name = lit "cancel") then Some (cancel, true)
        else None
    | None => None
    end.

Definition route_text (conversations : gmap (Z * Z) Z) (u : Update)
    (text : list N) : option (callback * bool) :=
  match conversations !! conv_key u, text with
  | Some st, _ :: _ =>
      if bool_decide (st = RATING) then Some (process_rating, true)
      else if bool_decide (st = YEAR) then Some (process_year, true)
      else if bool_decide (st = POPULARITY)
           then Some (process_popularity, true)
      else None
  | _, _ => None
  end.

Definition routing (conversations : gmap (Z * Z) Z) (u : Update)
    : option (callback * bool) :=
  match content u with
  | Message _ (Some name) | EditedMessage _ (Some name) =>
      route_command conversations u name
  | Message text None | EditedMessage text None =>
      route_text conversations u text
  | CallbackQuery data =>
      if re_match (lit "random") data then Some (random_movie, false)
      else if re_match (lit "about") data then Some (about, false)
      else if re_match (lit "back") data then Some (start, false)
      else if re_match (lit "rating") data then Some (choose_rating, true)
      else if re_match (lit "year") data then Some (choose_year, true)
      else if re_match (lit "popularity") data
           then Some (choose_popularity, true)
      else None
  end.

Lemma states_cases (st : Z) :
  states conv_handler !! st
  = if bool_decide (st = RATING) then Some [MessageHandler process_rating]
    else if bool_decide (st = YEAR) then Some [MessageHandler process_year]
    else if bool_decide (st = POPULARITY)
         then Some [MessageHandler process_popularity]
    else None.
Proof.
  unfold conv_handler. cbn [states].
  repeat case_bool_decide; subst;
    rewrite ?lookup_insert_eq, ?lookup_insert_ne, ?lookup_singleton_eq,
      ?lookup_singleton_ne by congruence;
    try reflexivity.
Qed.

Lemma pick_routing (conversations : gmap (Z * Z) Z) (u : Update) :
  pick_handler handlers conversations u = routing conversations u.
Proof.
  unfold handlers, pick_handler, conv_check_update, routing, route_command,
    route_text, first_match.
  cbn [entry_points fallbacks allow_reentry conv_handler].
  rewrite orb_true_r.
  unfold check_update. cbn [List.find handler_callback].
  destruct (content u) as [text [name|]|text [name|]|data].
  - destruct (bool_decide (name = lit "start")); [reflexivity|].
    destruct (conversations !! conv_key u) as [st|]; [|reflexivity].
    rewrite states_cases.
    repeat (case_bool_decide; cbn [default from_option id List.find];
            try reflexivity).
  - destruct (conversations !! conv_key u) as [st|]; [|reflexivity].
    rewrite states_cases.
    destruct text as [|c text];
      repeat (case_bool_decide; cbn [default from_option id List.find];
              try reflexivity).
  - destruct (bool_decide (name = lit "start")); [reflexivity|].
    destruct (conversations !! conv_key u) as [st|]; [|reflexivity].
    rewrite states_cases.
    repeat (case_bool_decide; cbn [default from_option id List.find];
            try reflexivity).
  - destruct (conversations !! conv_key u) as [st|]; [|reflexivity].
    rewrite states_cases.
    destruct text as [|c text];
      repeat (case_bool_decide; cbn [default from_option id List.find];
              try reflexivity).
  - destruct (re_match (lit "random") data); [reflexivity|].
    destruct (re_match (lit "about") data); [reflexivity|].
    destruct (re_match (lit "back") data); [reflexivity|].
    destruct (re_match (lit "rating") data); [reflexivity|].
    destruct (re_match (lit "year") data); [reflexivity|].
    destruct (re_match (lit "popularity") data); [reflexivity|].
    destruct (conversations !! conv_key u) as [st|]; [|reflexivity].
    rewrite states_cases.
    repeat (case_bool_decide; cbn [default from_option id List.find];
            try reflexivity).
Qed.

Lemma step_routing (conversations : gmap (Z * Z) Z) (u : Update)
    (draw : nat) :
  step conversations u draw
  = match routing conversations u with
    | None => (conversations, [])
    | Some (cb, in_conv) =>
        outcome in_conv conversations (conv_key u) (cb u draw)
    end.
Proof.
  unfold step. rewrite process_update_pick, pick_routing. reflexivity.
Qed.

(** The [callback_data] of the buttons that a run shows. *)
Definition buttons_of (out : list action) : list (list N) :=
  flat_map
    (fun a =>
       match a with
       | reply_text _ (Some kb) _ | edit_message_text _ (Some kb) _ =>
           List.map snd (concat kb)
       | _ => []
       end)
    out.

(** The data that the callback patterns of [main] accept. *)
Definition known_buttons : list (list N) :=
  [lit "random"; lit "about"; lit "back"; lit "rating"; lit "year";
   lit "popularity"].

(** Why a handler raises: it reads [update.message] of an edited message;
    the movie drawn has NaN for its overview; or the year typed is beyond
    the range of float64 and the year column is a float64 column. *)
Definition raise_cause (u : Update) (e : exn) : Prop :=
  (e = AttributeError /\ has_message u = false /\ has_query u = false) \/
  (e = TypeError /\
   exists movie, In movie movies_df /\ overview movie = Blank) \/
  (e = OverflowError /\ year_float64 = true /\
   exists y, py_int (sent_text u) = Some y /\ PyFloat.overflows y = true).

(** What every run started by the dispatch has in common: it answers
    the callback query first when the update is a button tap, and it
    shows only buttons that [main] has a pattern for. When it returns on
    a new message or a tap it has sent something, and a conversation
    callback returns one of the three states or [END]. When it raises it
    has sent nothing, the answer to the tap apart, and the exception has
    one of the three causes. *)
Definition well_behaved (u : Update) (in_conv : bool)
    (run : M (option Z)) : Prop :=
  (has_query u = true -> exists rest, fst run = answer :: rest) /\
  (forall b, In b (buttons_of (fst run)) -> In b known_buttons) /\
  match snd run with
  | inr r =>
      (has_message u = true \/ has_query u = true -> fst run <> []) /\
      (in_conv = true ->
       r = Some RATING \/ r = Some YEAR \/ r = Some POPULARITY
       \/ r = Some END)
  | inl e => (fst run = [] \/ fst run = [answer]) /\ raise_cause u e
  end.

Lemma stays_well_behaved (u : Update) (st : Z) (text : list N) :
  has_message u = true ->
  st = RATING \/ st = YEAR \/ st = POPULARITY ->
  well_behaved u true (stays st text).
Proof.
  intros Hm Hst. unfold well_behaved, stays. cbn [fst snd].
  split; [intros Hq; rewrite (has_message_not_query u Hm) in Hq;
          discriminate Hq|].
  split; [intros b Hb; destruct Hb|].
  split; [intros _; discriminate|].
  intros _. destruct Hst as [-> | [-> | ->]]; tauto.
Qed.

Lemma resolved_well_behaved (u : Update) (movie : Movie)
    (prefix : list N) :
  has_message u = true ->
  In movie movies_df ->
  well_behaved u true (resolved movie prefix).
Proof.
  intros Hm Hin. unfold well_behaved.
  destruct (overview movie) as [|c s] eqn:E.
  - rewrite (resolved_blank movie prefix E). cbn [fst snd raise].
    split; [intros Hq; rewrite (has_message_not_query u Hm) in Hq;
            discriminate Hq|].
    split; [intros b Hb; destruct Hb|].
    split; [left; reflexivity|].
    right. left. split; [reflexivity|]. exists movie. split; assumption.
  - rewrite (resolved_text movie prefix c s E). cbn [fst snd].
    split; [intros Hq; rewrite (has_message_not_query u Hm) in Hq;
            discriminate Hq|].
    split; [intros b Hb; vm_compute in Hb; vm_compute; tauto|].
    split; [intros _; discriminate|]. intros _. tauto.
Qed.

Lemma edited_well_behaved (u : Update) (in_conv : bool) :
  has_message u = false ->
  has_query u = false ->
  well_behaved u in_conv (raise AttributeError).
Proof.
  intros Hm Hq. unfold well_behaved. cbn [fst snd raise].
  split; [intros Hq'; rewrite Hq in Hq'; discriminate Hq'|].
  split; [intros b Hb; destruct Hb|].
  split; [left; reflexivity|]. left. tauto.
Qed.

Lemma frame_movie_in_catalog (c : Criterion) (movie : Movie) :
  In movie (List.filter (satisfies c) movies_df) -> In movie movies_df.
Proof. intros H. apply filter_In in H. exact (proj1 H). Qed.

Lemma process_rating_well_behaved (u : Update) (draw : nat) :
  has_query u = false -> well_behaved u true (process_rating u draw).
Proof.
  intros Hq. destruct (has_message u) eqn:Hm.
  - pose proof (process_rating_cases u draw Hm) as H.
    destruct (py_float (sent_text u)) as [r|].
    + destruct (PyFloat.le (fst rating_bounds) r
                && PyFloat.le r (snd rating_bounds)).
      * destruct H as (movie & Hin & E). rewrite E.
        apply resolved_well_behaved; [exact Hm|].
        rewrite rating_frame_filter in Hin.
        exact (frame_movie_in_catalog _ _ Hin).
      * rewrite H. apply stays_well_behaved; [exact Hm|tauto].
    + rewrite H. apply stays_well_behaved; [exact Hm|tauto].
  - unfold process_rating. rewrite (message_text_none u Hm).
    apply edited_well_behaved; assumption.
Qed.

Lemma process_year_well_behaved (u : Update) (draw : nat) :
  has_query u = false -> well_behaved u true (process_year u draw).
Proof.
  intros Hq. destruct (has_message u) eqn:Hm.
  - pose proof (process_year_cases u draw Hm) as H.
    destruct (py_int (sent_text u)) as [y|] eqn:Hy.
    + destruct (year_frame y) as [e|frame] eqn:Hf.
      * rewrite H. destruct (year_frame_raises y e Hf) as (-> & Hfl & Hov).
        unfold well_behaved. cbn [fst snd raise].
        split; [intros Hq'; rewrite Hq in Hq'; discriminate Hq'|].
        split; [intros b Hb; destruct Hb|].
        split; [left; reflexivity|].
        right. right. split; [reflexivity|]. split; [exact Hfl|].
        exists y. split; [exact Hy|exact Hov].
      * destruct H as [(_ & E)|(movie & Hin & E)]; rewrite E.
        -- apply stays_well_behaved; [exact Hm|tauto].
        -- apply resolved_well_behaved; [exact Hm|].
           rewrite (year_frame_filter y frame Hf) in Hin.
           exact (frame_movie_in_catalog _ _ Hin).
    + rewrite H. apply stays_well_behaved; [exact Hm|tauto].
  - unfold process_year. rewrite (message_text_none u Hm).
    apply edited_well_behaved; assumption.
Qed.

Lemma process_popularity_well_behaved (u : Update) (draw : nat) :
  has_query u = false -> well_behaved u true (process_popularity u draw).
Proof.
  intros Hq. destruct (has_message u) eqn:Hm.
  - pose proof (process_popularity_cases u draw Hm) as H.
    destruct (py_float (sent_text u)) as [p|].
    + destruct H as [(_ & E)|(movie & Hin & E)]; rewrite E.
      * apply stays_well_behaved; [exact Hm|tauto].
      * apply resolved_well_behaved; [exact Hm|].
        rewrite popularity_frame_filter in Hin.
        exact (frame_movie_in_catalog _ _ Hin).
    + rewrite H. apply stays_well_behaved; [exact Hm|tauto].
  - unfold process_popularity. rewrite (message_text_none u Hm).
    apply edited_well_behaved; assumption.
Qed.

Lemma cancel_well_behaved (u : Update) (draw : nat) :
  has_query u = false -> well_behaved u true (cancel u draw).
Proof.
  intros Hq. destruct (has_message u) eqn:Hm.
  - unfold cancel. rewrite (message_reply_sent u) by exact Hm.
    change (send (reply_text
                    (lit "Действие отменено. Используйте /start для нового поиска.")
                    None false);; mret (Some END))
      with (([reply_text
                (lit "Действие отменено. Используйте /start для нового поиска.")
                None false], inr (Some END)) : M (option Z)).
    unfold well_behaved. cbn [fst snd].
    split; [intros Hq'; rewrite Hq in Hq'; discriminate Hq'|].
    split; [intros b Hb; destruct Hb|].
    split; [intros _; discriminate|]. intros _. tauto.
  - unfold cancel, message_reply. rewrite Hm.
    apply edited_well_behaved; assumption.
Qed.

Ltac wb_query :=
  unfold well_behaved; cbn [fst snd];
  split; [intros _; eexists; reflexivity|];
  split; [let b := fresh in let Hb := fresh in
          intros b Hb; vm_compute in Hb; vm_compute; tauto|];
  split; [intros _; discriminate|];
  let Hc := fresh in intros Hc; try discriminate Hc; tauto.

Lemma start_well_behaved (u : Update) (draw : nat) :
  well_behaved u false (start u draw).
Proof.
  unfold start. destruct (has_message u) eqn:Hm.
  - rewrite send_bind. unfold well_behaved. cbn [fst snd mret M_ret].
    split; [intros Hq; rewrite (has_message_not_query u Hm) in Hq;
            discriminate Hq|].
    split; [intros b Hb; vm_compute in Hb; vm_compute; tauto|].
    split; [intros _; discriminate|]. intros Hc; discriminate Hc.
  - destruct (has_query u) eqn:Hq.
    + rewrite !send_bind. cbn [fst snd mret M_ret send]. wb_query.
    + rewrite mbind_mret. unfold well_behaved. cbn [fst snd mret M_ret].
      split; [intros Hq'; rewrite Hq in Hq'; discriminate Hq'|].
      split; [intros b Hb; destruct Hb|].
      split; [intros [H|H]; [rewrite Hm in H|rewrite Hq in H];
              discriminate H|].
      intros Hc; discriminate Hc.
Qed.

Lemma about_well_behaved (u : Update) (draw : nat) :
  has_query u = true -> well_behaved u false (about u draw).
Proof.
  intros Hq. unfold about, query_answer, query_edit. rewrite Hq.
  rewrite !send_bind. cbn [fst snd mret M_ret]. wb_query.
Qed.

Lemma choose_well_behaved (u : Update) (draw : nat) :
  has_query u = true ->
  well_behaved u true (choose_rating u draw) /\
  well_behaved u true (choose_year u draw) /\
  well_behaved u true (choose_popularity u draw).
Proof.
  intros Hq.
  unfold choose_rating, choose_year, choose_popularity,
    query_answer, query_edit.
  rewrite Hq. rewrite !send_bind. cbn [fst snd mret M_ret].
  split; [|split];
    (unfold well_behaved; cbn [fst snd];
     split; [intros _; eexists; reflexivity|];
     split; [intros b Hb; destruct Hb|];
     split; [intros _; discriminate|]; intros _; tauto).
Qed.

Lemma random_movie_well_behaved (u : Update) (draw : nat) :
  has_query u = true -> well_behaved u false (random_movie u draw).
Proof.
  intros Hq. destruct (random_movie_cases u draw Hq)
    as [(Hempty & E)|(movie & Hin & _ & E)]; rewrite E.
  - wb_query.
  - rewrite send_bind.
    destruct (overview movie) as [|c s] eqn:Ho.
    + rewrite (send_movie_info_blank movie _ Ho).
      unfold well_behaved. cbn [fst snd raise mbind M_bind].
      split; [intros _; eexists; reflexivity|].
      split; [intros b Hb; destruct Hb|].
      split; [right; reflexivity|].
      right. left. split; [reflexivity|]. exists movie. split; assumption.
    + rewrite (send_movie_info_text movie _ c s Ho), send_bind.
      cbn [fst snd mret M_ret]. wb_query.
Qed.

Lemma routing_well_behaved (conversations : gmap (Z * Z) Z) (u : Update)
    (draw : nat) (cb : callback) (in_conv : bool) :
  routing conversations u = Some (cb, in_conv) ->
  well_behaved u in_conv (cb u draw).
Proof.
  unfold routing. intros H.
  assert (Hcommand : forall name,
    has_query u = false ->
    route_command conversations u name = Some (cb, in_conv) ->
    well_behaved u in_conv (cb u draw)).
  { intros name Hq Hr. unfold route_command in Hr.
    destruct (bool_decide (name = lit "start")).
    - inversion Hr; subst. apply start_well_behaved.
    - destruct (conversations !! conv_key u); [|discriminate Hr].
      destruct (bool_decide (name = lit "cancel")); [|discriminate Hr].
      inversion Hr; subst. apply cancel_well_behaved. exact Hq. }
  assert (Htext : forall text,
    has_query u = false ->
    route_text conversations u text = Some (cb, in_conv) ->
    well_behaved u in_conv (cb u draw)).
  { intros text Hq Hr. unfold route_text in Hr.
    destruct (conversations !! conv_key u) as [st|]; [|discriminate Hr].
    destruct text as [|c text]; [discriminate Hr|].
    destruct (bool_decide (st = RATING));
      [inversion Hr; subst; apply process_rating_well_behaved; exact Hq|].
    destruct (bool_decide (st = YEAR));
      [inversion Hr; subst; apply process_year_well_behaved; exact Hq|].
    destruct (bool_decide (st = POPULARITY)); [|discriminate Hr].
    inversion Hr; subst. apply process_popularity_well_behaved. exact Hq. }
  destruct (content u) as [text [name|]|text [name|]|data] eqn:Hc.
  - apply (Hcommand name); [unfold has_query; rewrite Hc; reflexivity|].
    exact H.
  - apply (Htext text); [unfold has_query; rewrite Hc; reflexivity|].
    exact H.
  - apply (Hcommand name); [unfold has_query; rewrite Hc; reflexivity|].
    exact H.
  - apply (Htext text); [unfold has_query; rewrite Hc; reflexivity|].
    exact H.
  - assert (Hq : has_query u = true)
      by (unfold has_query; rewrite Hc; reflexivity).
    destruct (choose_well_behaved u draw Hq) as (Hr & Hy & Hp).
    destruct (re_match (lit "random") data);
      [inversion H; subst; apply random_movie_well_behaved; exact Hq|].
    destruct (re_match (lit "about") data);
      [inversion H; subst; apply about_well_behaved; exact Hq|].
    destruct (re_match (lit "back") data);
      [inversion H; subst; apply start_well_behaved|].
    destruct (re_match (lit "rating") data);
      [inversion H; subst; exact Hr|].
    destruct (re_match (lit "year") data);
      [inversion H; subst; exact Hy|].
    destruct (re_match (lit "popularity") data); [|discriminate H].
    inversion H; subst. exact Hp.
Qed.

(** The stored states are the three states of [main]. *)
Definition valid_store (conversations : gmap (Z * Z) Z) : Prop :=
  forall key st,
    conversations !! key = Some st ->
    st = RATING \/ st = YEAR \/ st = POPULARITY.

Lemma step_well_behaved (conversations : gmap (Z * Z) Z) (u : Update)
    (draw : nat) :
  match routing conversations u with
  | None => step conversations u draw = (conversations, [])
  | Some (cb, in_conv) =>
      well_behaved u in_conv (cb u draw) /\
      step conversations u draw
      = outcome in_conv conversations (conv_key u) (cb u draw)
  end.
Proof.
  rewrite step_routing.
  destruct (routing conversations u) as [[cb in_conv]|] eqn:E;
    [|reflexivity].
  split; [|reflexivity].
  exact (routing_well_behaved conversations u draw cb in_conv E).
Qed.

Lemma buttons_of_app (out out' : list action) :
  buttons_of (out ++ out') = buttons_of out ++ buttons_of out'.
Proof. unfold buttons_of. apply flat_map_app. Qed.

(** What is sent for an update shows known buttons only, and starts with
    the answer when the update is a tap that a handler takes. *)
Lemma outcome_well_behaved (conversations : gmap (Z * Z) Z) (u : Update)
    (in_conv : bool) (run : M (option Z)) :
  well_behaved u in_conv run ->
  (forall b,
      In b (buttons_of (snd (outcome in_conv conversations (conv_key u) run)))
      -> In b known_buttons) /\
  (has_query u = true ->
   exists rest,
     snd (outcome in_conv conversations (conv_key u) run) = answer :: rest).
Proof.
  intros (Hans & Hbtn & Hrest). destruct run as [out [e|r]];
    cbn [fst snd outcome] in *.
  - split.
    + intros b Hb. rewrite buttons_of_app in Hb.
      apply in_app_or in Hb. destruct Hb as [Hb|Hb]; [exact (Hbtn b Hb)|].
      destruct Hb.
    + intros Hq. destruct (Hans Hq) as (rest & ->).
      eexists. reflexivity.
  - split; [exact Hbtn|exact Hans].
Qed.

(** ** Further properties of the dispatch *)

(** X1. Why a handler raises, and what the application does then. On a
    catalog that is not empty, for every store, update and draw: when
    the callback that the dispatch selects returns, the application
    sends what the callback sent; when it raises, the store is left as
    it was, the error notice follows what was sent (nothing, or the
    answer to the tap), and the exception has one of three causes: an
    edited message, a movie of the catalog whose overview is NaN, or a
    year beyond float64 typed against a float64 year column. So a new
    message or a tap never makes a handler raise on a catalog whose
    overviews are all text and whose year column is not float64. An
    update that no handler takes changes nothing and sends nothing. *)
Theorem dispatch_raise_causes (conversations : gmap (Z * Z) Z)
    (u : Update) (draw : nat) :
  movies_df <> [] ->
  match pick_handler handlers conversations u with
  | None => step conversations u draw = (conversations, [])
  | Some (cb, in_conv) =>
      match cb u draw with
      | (out, inr r) =>
          step conversations u draw
          = (if in_conv
             then _update_state r (conv_key u) conversations
             else conversations, out)
      | (out, inl e) =>
          step conversations u draw
          = (conversations, out ++ error_handler) /\
          (out = [] \/ out = [answer]) /\
          raise_cause u e
      end /\
      (has_message u = true \/ has_query u = true ->
       (forall movie, In movie movies_df -> overview movie <> Blank) ->
       year_float64 = false ->
       exists out r, cb u draw = (out, inr r))
  end.
Proof.
  intros _.
  pose proof (step_well_behaved conversations u draw) as H.
  rewrite pick_routing.
  destruct (routing conversations u) as [[cb in_conv]|]; [|exact H].
  destruct H as ((_ & _ & Hwb) & Hstep).
  destruct (cb u draw) as [out [e|r]]; cbn [fst snd outcome] in *.
  - destruct Hwb as (Hout & Hcause).
    split; [split; [exact Hstep|split; [exact Hout|exact Hcause]]|].
    intros Hkind Htext Hint. exfalso.
    destruct Hcause as [(_ & Hm & Hq)|[(_ & movie & Hin & Ho)|(_ & Hf & _)]].
    + destruct Hkind as [Hk|Hk]; congruence.
    + exact (Htext movie Hin Ho).
    + congruence.
  - split; [exact Hstep|]. intros _ _ _. eauto.
Qed.

(** X2. The conversations are kept apart: an update of one user in one
    chat leaves the stored state of every other (chat, user) pair as it
    was. *)
Theorem other_conversations_untouched (conversations : gmap (Z * Z) Z)
    (u : Update) (draw : nat) (key : Z * Z) :
  key <> conv_key u ->
  fst (step conversations u draw) !! key = conversations !! key.
Proof.
  intros Hkey. rewrite step_routing.
  destruct (routing conversations u) as [[cb in_conv]|]; [|reflexivity].
  destruct (cb u draw) as [out [e|r]]; cbn [fst outcome]; [reflexivity|].
  destruct in_conv; [|reflexivity].
  unfold _update_state. destruct r as [s|]; [|reflexivity].
  destruct (bool_decide (s = END)).
  - apply lookup_delete_ne. congruence.
  - apply lookup_insert_ne. congruence.
Qed.

(** X3. The store only ever holds the three states of [main]: if every
    stored state is [RATING], [YEAR] or [POPULARITY], so it is after any
    update ([END] is never stored, it removes the entry). *)
Theorem valid_store_preserved (conversations : gmap (Z * Z) Z)
    (u : Update) (draw : nat) :
  valid_store conversations ->
  valid_store (fst (step conversations u draw)).
Proof.
  intros Hvalid. pose proof (step_well_behaved conversations u draw) as H.
  destruct (routing conversations u) as [[cb in_conv]|];
    [|rewrite H; exact Hvalid].
  destruct H as ((_ & _ & Hwb) & Hstep). rewrite Hstep.
  destruct (cb u draw) as [out [e|r]]; cbn [fst snd outcome] in *;
    [exact Hvalid|].
  destruct in_conv; [|exact Hvalid].
  destruct Hwb as (_ & Hr). specialize (Hr eq_refl).
  unfold _update_state.
  destruct Hr as [-> | [-> | [-> | ->]]];
    rewrite ?bool_decide_true, ?bool_decide_false
      by (first [reflexivity | discriminate]);
    intros key st Hlook;
    try (destruct (decide (key = conv_key u)) as [->|Hne];
         [rewrite lookup_insert_eq in Hlook; inversion Hlook; tauto
         |rewrite lookup_insert_ne in Hlook by congruence;
          exact (Hvalid key st Hlook)]).
  destruct (decide (key = conv_key u)) as [->|Hne].
  - rewrite lookup_delete_eq in Hlook. discriminate Hlook.
  - rewrite lookup_delete_ne in Hlook by congruence.
    exact (Hvalid key st Hlook).
Qed.

(** X4. Every button tap that a handler takes is answered first: the
    output of the update is empty (no pattern matched the data) or starts
    with the answer to the callback query. *)
Theorem taps_answered_first (conversations : gmap (Z * Z) Z)
    (u : Update) (draw : nat) :
  has_query u = true ->
  step conversations u draw = (conversations, []) \/
  exists rest, snd (step conversations u draw) = answer :: rest.
Proof.
  intros Hq. pose proof (step_well_behaved conversations u draw) as H.
  destruct (routing conversations u) as [[cb in_conv]|];
    [|left; exact H].
  destruct H as (Hwb & Hstep). right. rewrite Hstep.
  exact (proj2 (outcome_well_behaved conversations u in_conv _ Hwb) Hq).
Qed.

(** X5. No dead buttons: the [callback_data] of every button that the bot
    shows, in whatever message, is taken by a handler when tapped, in any
    state of the store: the tap is answered. *)
Theorem shown_buttons_are_handled (conversations : gmap (Z * Z) Z)
    (u : Update) (draw : nat) (b : list N) :
  In b (buttons_of (snd (step conversations u draw))) ->
  forall (conversations' : gmap (Z * Z) Z) (u' : Update) (draw' : nat),
    content u' = CallbackQuery b ->
    exists rest, snd (step conversations' u' draw') = answer :: rest.
Proof.
  intros Hb conversations' u' draw' Hc.
  assert (Hknown : In b known_buttons).
  { pose proof (step_well_behaved conversations u draw) as H.
    destruct (routing conversations u) as [[cb in_conv]|].
    - destruct H as (Hwb & Hstep). rewrite Hstep in Hb.
      exact (proj1 (outcome_well_behaved conversations u in_conv _ Hwb)
               b Hb).
    - rewrite H in Hb. destruct Hb. }
  assert (Hq : has_query u' = true)
    by (unfold has_query; rewrite Hc; reflexivity).
  pose proof (step_well_behaved conversations' u' draw') as H.
  unfold routing in H. rewrite Hc in H.
  unfold known_buttons in Hknown. cbn [In] in Hknown.
  destruct Hknown as [<-|[<-|[<-|[<-|[<-|[<-|[]]]]]]];
    repeat match type of H with
      | context [re_match ?a ?b] =>
          let v := eval vm_compute in (re_match a b) in
          change (re_match a b) with v in H
      end;
    cbn iota in H;
    destruct H as (Hwb & Hstep);
    rewrite Hstep;
    exact (proj2 (outcome_well_behaved conversations' u' _ _ Hwb) Hq).
Qed.

(** X6. Input that nobody waits for is dropped without a word: a text
    from a user with no open conversation, and a command other than
    [/start] and [/cancel] in any state, reach no handler; the store is
    unchanged and nothing is sent. *)
Theorem unawaited_input_dropped (conversations : gmap (Z * Z) Z)
    (u : Update) (draw : nat) (text : list N) (cmd : option (list N)) :
  content u = Message text cmd ->
  (cmd = None -> conversations !! conv_key u = None) ->
  (forall name,
      cmd = Some name -> name <> lit "start" /\ name <> lit "cancel") ->
  step conversations u draw = (conversations, []).
Proof.
  intros Hc Htext Hcmd. rewrite step_routing. unfold routing. rewrite Hc.
  destruct cmd as [name|].
  - destruct (Hcmd name eq_refl) as [Hs Hx]. unfold route_command.
    rewrite !bool_decide_false by assumption.
    destruct (conversations !! conv_key u); reflexivity.
  - unfold route_text. rewrite (Htext eq_refl). reflexivity.
Qed.

(** X7. The menu does not close a pending question: [/start] and the
    buttons [random], [about] and [back] are served by handlers outside
    the conversation, so the store is left exactly as it was, in every
    state, and something is sent. (The [END] that [require_data] returns
    for an empty catalog has no effect there either.) *)
Theorem menu_keeps_store (conversations : gmap (Z * Z) Z) (u : Update)
    (draw : nat) :
  (exists text, content u = Message text (Some (lit "start"))) \/
  content u = CallbackQuery (lit "random") \/
  content u = CallbackQuery (lit "about") \/
  content u = CallbackQuery (lit "back") ->
  fst (step conversations u draw) = conversations /\
  snd (step conversations u draw) <> [].
Proof.
  intros Hc.
  assert (Hkind : has_message u = true \/ has_query u = true).
  { unfold has_message, has_query.
    destruct Hc as [(text & Hc)|[Hc|[Hc|Hc]]]; rewrite Hc; tauto. }
  pose proof (step_well_behaved conversations u draw) as H.
  unfold routing, route_command in H.
  destruct Hc as [(text & Hc)|[Hc|[Hc|Hc]]]; rewrite Hc in H;
    repeat match type of H with
      | context [re_match ?a ?b] =>
          let v := eval vm_compute in (re_match a b) in
          change (re_match a b) with v in H
      | context [@bool_decide (?a = ?b) ?d] =>
          let v := eval vm_compute in (@bool_decide (a = b) d) in
          change (@bool_decide (a = b) d) with v in H
      end;
    cbn iota in H;
    destruct H as ((_ & _ & Hwb) & Hstep);
    rewrite Hstep;
    match goal with
    | |- context [outcome _ _ _ ?run] =>
        destruct run as [out [e|r]]; cbn [fst snd outcome] in *
    end;
    (split; [reflexivity|]);
    first [exact (proj1 Hwb Hkind)
          |intros Happ; apply app_eq_nil in Happ;
           destruct Happ as [_ Happ]; discriminate Happ].
Qed.

(** The plain replies of the awaiting states. *)
Definition corrective_prompt (msg : list N) : Prop :=
  msg = lit "Введите корректное число, например 7.5" \/
  msg = lit "Введите число от " ++ PyFloat.format_1f (fst rating_bounds)
          ++ lit " до " ++ PyFloat.format_1f (snd rating_bounds) \/
  msg = lit "Введите корректный год (например, 2020)" \/
  msg = lit "Введите корректное число для популярности.".

Definition not_found_notice (msg : list N) : Prop :=
  (exists y : Z,
      msg = lit "Фильмов за " ++ PyStr.str_int y ++ lit " год не найдено.") \/
  (exists p : spec_float,
      msg = lit "Фильмов с популярностью от " ++ float_str p
              ++ lit " не найдено.").

(** The card of a movie of the catalog, under some header. *)
Definition movie_card (a : action) : Prop :=
  exists movie c o prefix,
    In movie movies_df /\
    overview movie = Text c o /\
    a = reply_text (movie_text movie (c :: o) prefix)
          (Some movie_keyboard) true.

(** How the handler of an awaiting state ends on a new message: with a
    plain reply that keeps the state, with a movie of the catalog, or
    with the [OverflowError] of the year comparison. *)
Definition text_answer (u : Update) (st : Z) (run : M (option Z)) : Prop :=
  (exists msg,
      (corrective_prompt msg \/ not_found_notice msg) /\
      run = stays st msg) \/
  (exists movie prefix, In movie movies_df /\ run = resolved movie prefix) \/
  (st = YEAR /\ run = raise OverflowError /\ year_float64 = true /\
   exists y, py_int (sent_text u) = Some y /\ PyFloat.overflows y = true).

Lemma awaited_text_runs (u : Update) (draw : nat) :
  has_message u = true ->
  text_answer u RATING (process_rating u draw) /\
  text_answer u YEAR (process_year u draw) /\
  text_answer u POPULARITY (process_popularity u draw).
Proof.
  intros Hm. unfold text_answer, corrective_prompt, not_found_notice.
  split; [|split].
  - pose proof (process_rating_cases u draw Hm) as H.
    destruct (py_float (sent_text u)) as [r|].
    + destruct (PyFloat.le (fst rating_bounds) r
                && PyFloat.le r (snd rating_bounds)).
      * destruct H as (movie & Hin & E). right. left.
        exists movie. eexists. split; [|exact E].
        rewrite rating_frame_filter in Hin.
        exact (frame_movie_in_catalog _ _ Hin).
      * left. eexists. split; [|exact H]. left. right. left. reflexivity.
    + left. eexists. split; [|exact H]. left. left. reflexivity.
  - pose proof (process_year_cases u draw Hm) as H.
    destruct (py_int (sent_text u)) as [y|] eqn:Hy.
    + destruct (year_frame y) as [e|frame] eqn:Hf.
      * destruct (year_frame_raises y e Hf) as (-> & Hfl & Hov).
        right. right. split; [reflexivity|]. split; [exact H|].
        split; [exact Hfl|]. exists y. split; [reflexivity|exact Hov].
      * destruct H as [(_ & E)|(movie & Hin & E)].
        -- left. eexists. split; [|exact E]. right. left. eauto.
        -- right. left. exists movie. eexists. split; [|exact E].
           rewrite (year_frame_filter y frame Hf) in Hin.
           exact (frame_movie_in_catalog _ _ Hin).
    + left. eexists. split; [|exact H].
      left. right. right. left. reflexivity.
  - pose proof (process_popularity_cases u draw Hm) as H.
    destruct (py_float (sent_text u)) as [p|].
    + destruct H as [(_ & E)|(movie & Hin & E)].
      * left. eexists. split; [|exact E]. right. right. eauto.
      * right. left. exists movie. eexists. split; [|exact E].
        rewrite popularity_frame_filter in Hin.
        exact (frame_movie_in_catalog _ _ Hin).
    + left. eexists. split; [|exact H].
      left. right. right. right. reflexivity.
Qed.

(** X8. On a catalog that is not empty, a text sent in an awaiting state
    always gets one message, no more and no less, of one of three kinds.
    A plain reply, which is a corrective prompt or a not-found notice:
    the store is left as it was. The card of a movie of the catalog: the
    conversation of the user is closed. Or the error notice, the store
    being left as it was: the handler raised, on a movie whose overview
    is NaN or, in the year state, on a year beyond float64. The user is
    never moved to another awaiting state. *)
Theorem awaited_text_answered_once (conversations : gmap (Z * Z) Z)
    (u : Update) (draw : nat) (text : list N) (st : Z) :
  movies_df <> [] ->
  content u = Message text None ->
  text <> [] ->
  conversations !! conv_key u = Some st ->
  st = RATING \/ st = YEAR \/ st = POPULARITY ->
  (exists msg,
      (corrective_prompt msg \/ not_found_notice msg) /\
      step conversations u draw
      = (conversations, [reply_text msg None false])) \/
  (exists card,
      movie_card card /\
      step conversations u draw
      = (delete (conv_key u) conversations, [card])) \/
  (step conversations u draw = (conversations, error_handler) /\
   ((exists movie, In movie movies_df /\ overview movie = Blank) \/
    (st = YEAR /\ year_float64 = true /\
     exists y, py_int text = Some y /\ PyFloat.overflows y = true))).
Proof.
  intros _ Hc Htext Hconv Hst.
  assert (Hm : has_message u = true)
    by (unfold has_message; rewrite Hc; reflexivity).
  assert (Hsent : sent_text u = text)
    by (unfold sent_text; rewrite Hc; reflexivity).
  destruct (awaited_text_runs u draw Hm) as (Hr & Hy & Hp).
  assert (Hgen : forall cb,
    routing conversations u = Some (cb, true) ->
    text_answer u st (cb u draw) ->
    (exists msg,
        (corrective_prompt msg \/ not_found_notice msg) /\
        step conversations u draw
        = (conversations, [reply_text msg None false])) \/
    (exists card,
        movie_card card /\
        step conversations u draw
        = (delete (conv_key u) conversations, [card])) \/
    (step conversations u draw = (conversations, error_handler) /\
     ((exists movie, In movie movies_df /\ overview movie = Blank) \/
      (st = YEAR /\ year_float64 = true /\
       exists y, py_int text = Some y /\ PyFloat.overflows y = true)))).
  { intros cb Hroute Hans. rewrite step_routing, Hroute.
    change (outcome true conversations (conv_key u) (cb u draw))
      with (conv_outcome conversations (conv_key u) (cb u draw)).
    destruct Hans as [(msg & Hkind & E)|[(movie & prefix & Hin & E)|Hov]].
    - left. exists msg. split; [exact Hkind|]. rewrite E.
      apply stays_outcome; [|exact Hconv].
      destruct Hst as [-> | [-> | ->]]; discriminate.
    - rewrite E. destruct (overview movie) as [|c o] eqn:Ho.
      + right. right. rewrite (resolved_blank movie prefix Ho).
        split; [reflexivity|]. left. exists movie. split; assumption.
      + right. left. rewrite (resolved_text movie prefix c o Ho).
        eexists. split; [|reflexivity].
        exists movie, c, o, prefix. repeat split; assumption.
    - destruct Hov as (Hyear & E & Hfl & Hex). rewrite E.
      right. right. split; [reflexivity|]. right.
      rewrite Hsent in Hex. tauto. }
  assert (Hroute : routing conversations u
                   = route_text conversations u text)
    by (unfold routing; rewrite Hc; reflexivity).
  unfold route_text in Hroute. rewrite Hconv in Hroute.
  destruct text as [|c text]; [exfalso; apply Htext; reflexivity|].
  destruct Hst as [-> | [-> | ->]];
    rewrite ?bool_decide_true, ?bool_decide_false in Hroute
      by (first [reflexivity | discriminate]);
    apply (Hgen _ Hroute); assumption.
Qed.

(** X9. Opening a question and cancelling it is a round trip: for a user
    with no open conversation, a selection followed by [/cancel] gives
    back the very store there was before, and the cancellation is
    acknowledged. *)
Theorem select_then_cancel_restores (conversations : gmap (Z * Z) Z)
    (chat user : Z) (name : list N) (draw draw' : nat)
    (i : Dialog.Intent) :
  conversations !! (chat, user) = None ->
  i = Dialog.selectRating \/ i = Dialog.selectYear
  \/ i = Dialog.selectPopularity ->
  step (fst (step conversations (Dialog.update_of chat user name i) draw))
    (Dialog.update_of chat user name Dialog.cancel) draw'
  = (conversations,
     [reply_text
        (lit "Действие отменено. Используйте /start для нового поиска.")
        None false]).
Proof.
  intros Hidle Hi.
  assert (Hopen : exists s st,
    Dialog.stored s = Some st /\
    fst (step conversations (Dialog.update_of chat user name i) draw)
    = <[(chat, user) := st]> conversations).
  { destruct Hi as [-> | [-> | ->]].
    - exists Dialog.AwaitingRating, RATING. split; [reflexivity|].
      rewrite (step_select _ _ _ _ _ _ choose_rating RATING)
        by reflexivity.
      reflexivity.
    - exists Dialog.AwaitingYear, YEAR. split; [reflexivity|].
      rewrite (step_select _ _ _ _ _ _ choose_year YEAR) by reflexivity.
      reflexivity.
    - exists Dialog.AwaitingPopularity, POPULARITY. split; [reflexivity|].
      rewrite (step_select _ _ _ _ _ _ choose_popularity POPULARITY)
        by reflexivity.
      reflexivity. }
  destruct Hopen as (s & st & Hs & ->).
  rewrite (step_cancel_awaiting _ _ _ _ _ s st Hs)
    by apply lookup_insert_eq.
  rewrite delete_insert_id by exact Hidle. reflexivity.
Qed.

Lemma start_edited (u : Update) (draw : nat) :
  has_message u = false -> has_query u = false ->
  start u draw = ([], inr None).
Proof. intros Hm Hq. unfold start. rewrite Hm, Hq. reflexivity. Qed.

Lemma cancel_edited (u : Update) (draw : nat) :
  has_message u = false -> cancel u draw = raise AttributeError.
Proof. intros Hm. unfold cancel, message_reply. rewrite Hm. reflexivity. Qed.

(** X21. An edited message reaches the handlers of a new one, which read
    [update.message], [None] for it. An edited [/start] is taken by
    [start], which then does nothing; an edited [/cancel], or an edited
    text in an awaiting state, makes the handler raise
    [AttributeError]: the error notice is sent. In every case the store
    is left as it was, so editing an old message never answers, opens
    or closes a question. *)
Theorem edited_message_handling (conversations : gmap (Z * Z) Z)
    (u : Update) (draw : nat) (text : list N) (cmd : option (list N)) :
  content u = EditedMessage text cmd ->
  (step conversations u draw = (conversations, []) \/
   step conversations u draw = (conversations, error_handler)) /\
  (cmd = Some (lit "start") ->
   step conversations u draw = (conversations, [])) /\
  (forall st,
      conversations !! conv_key u = Some st ->
      cmd = Some (lit "cancel") ->
      step conversations u draw = (conversations, error_handler)) /\
  (forall st,
      conversations !! conv_key u = Some st ->
      st = RATING \/ st = YEAR \/ st = POPULARITY ->
      cmd = None ->
      text <> [] ->
      step conversations u draw = (conversations, error_handler)).
Proof.
  intros Hc.
  assert (Hm : has_message u = false)
    by (unfold has_message; rewrite Hc; reflexivity).
  assert (Hq : has_query u = false)
    by (unfold has_query; rewrite Hc; reflexivity).
  assert (Hstart : outcome false conversations (conv_key u) (start u draw)
                   = (conversations, []))
    by (rewrite (start_edited u draw Hm Hq); reflexivity).
  assert (Hcancel : outcome true conversations (conv_key u) (cancel u draw)
                    = (conversations, error_handler))
    by (rewrite (cancel_edited u draw Hm); reflexivity).
  assert (Hrating :
    outcome true conversations (conv_key u) (process_rating u draw)
    = (conversations, error_handler))
    by (unfold process_rating; rewrite (message_text_none u Hm);
        reflexivity).
  assert (Hyear :
    outcome true conversations (conv_key u) (process_year u draw)
    = (conversations, error_handler))
    by (unfold process_year; rewrite (message_text_none u Hm);
        reflexivity).
  assert (Hpop :
    outcome true conversations (conv_key u) (process_popularity u draw)
    = (conversations, error_handler))
    by (unfold process_popularity; rewrite (message_text_none u Hm);
        reflexivity).
  rewrite step_routing. unfold routing. rewrite Hc.
  split; [|split; [|split]].
  - destruct cmd as [name|].
    + unfold route_command.
      destruct (bool_decide (name = lit "start")); [left; exact Hstart|].
      destruct (conversations !! conv_key u); [|left; reflexivity].
      destruct (bool_decide (name = lit "cancel"));
        [right; exact Hcancel|left; reflexivity].
    + unfold route_text.
      destruct (conversations !! conv_key u) as [st|]; [|left; reflexivity].
      destruct text as [|c text]; [left; reflexivity|].
      destruct (bool_decide (st = RATING)); [right; exact Hrating|].
      destruct (bool_decide (st = YEAR)); [right; exact Hyear|].
      destruct (bool_decide (st = POPULARITY));
        [right; exact Hpop|left; reflexivity].
  - intros ->. unfold route_command.
    rewrite bool_decide_true by reflexivity. exact Hstart.
  - intros st Hconv ->. unfold route_command.
    rewrite bool_decide_false by discriminate.
    rewrite Hconv, bool_decide_true by reflexivity. exact Hcancel.
  - intros st Hconv Hst -> Htext. unfold route_text. rewrite Hconv.
    destruct text as [|c text]; [exfalso; apply Htext; reflexivity|].
    destruct Hst as [-> | [-> | ->]];
      rewrite ?bool_decide_true, ?bool_decide_false
        by (first [reflexivity | discriminate]);
      assumption.
Qed.

(** ** Further properties of the queries *)


(** X11. Thresholds are monotone: raising the minimum rating or the
    minimum popularity never adds a movie to the candidates. *)
Theorem higher_threshold_fewer_candidates (low high : spec_float)
    (movie : Movie) :
  PyFloat.le low high = true ->
  (In movie (rating_frame high) -> In movie (rating_frame low)) /\
  (In movie (popularity_frame high) -> In movie (popularity_frame low)).
Proof.
  intros Hle. rewrite !rating_frame_filter, !popularity_frame_filter.
  split; intros H;
    apply filter_In in H; destruct H as [Hin Hsat];
    apply filter_In; (split; [exact Hin|]);
    simpl in *; unfold PyFloat.ge in *;
    exact (le_trans _ _ _ Hle Hsat).
Qed.

Lemma nothing_reaches_nan {A : Type} (f : A -> spec_float) (l : list A) :
  List.filter (fun x => PyFloat.ge (f x) S754_nan) l = [].
Proof.
  induction l as [|x l IH]; [reflexivity|]. simpl. exact IH.
Qed.

(** X12. NaN as input: "nan" is a float for Python, so it is not a
    malformed number. In the rating flow it is out of range for every
    catalog; in the popularity flow it passes validation and, no value
    being [>= NaN], always ends in the not-found reply. *)
Theorem nan_input (u : Update) (draw : nat) :
  has_message u = true ->
  py_float (sent_text u) = Some S754_nan ->
  process_rating u draw
  = stays RATING
      (lit "Введите число от " ++ PyFloat.format_1f (fst rating_bounds)
         ++ lit " до " ++ PyFloat.format_1f (snd rating_bounds)) /\
  popularity_frame S754_nan = [] /\
  process_popularity u draw
  = stays POPULARITY
      (lit "Фильмов с популярностью от " ++ float_str S754_nan
         ++ lit " не найдено.").
Proof.
  intros Hm Hparse.
  assert (Hempty : popularity_frame S754_nan = []).
  { rewrite popularity_frame_filter.
    apply (nothing_reaches_nan popularity). }
  split; [|split; [exact Hempty|]].
  - pose proof (process_rating_cases u draw Hm) as H.
    rewrite Hparse in H.
    replace (PyFloat.le (fst rating_bounds) S754_nan) with false in H
      by (destruct (fst rating_bounds); reflexivity).
    exact H.
  - pose proof (process_popularity_cases u draw Hm) as H.
    rewrite Hparse in H.
    destruct H as [(_ & H)|(movie & Hin & _)]; [exact H|].
    rewrite Hempty in Hin. destruct Hin.
Qed.

(** X13. What is shown matches what was asked: when a flow ends with a
    movie, that movie is a row of the catalog that satisfies the value
    typed (its year is the year, its rating or popularity is at least the
    minimum); when its overview is text, one message carries it and the
    conversation of the user is closed. *)
Theorem shown_movie_matches (conversations : gmap (Z * Z) Z)
    (chat user : Z) (name text : list N) (draw : nat) :
  let u := Dialog.update_of chat user name (Dialog.textInput text) in
  (forall r,
      conversations !! (chat, user) = Some RATING ->
      py_float text = Some r ->
      PyFloat.le (fst rating_bounds) r = true ->
      PyFloat.le r (snd rating_bounds) = true ->
      exists movie,
        In movie movies_df /\
        PyFloat.ge (vote_average movie) r = true /\
        step conversations u draw
        = conv_outcome conversations (chat, user)
            (resolved movie
               (lit "🎬 Фильмы с рейтингом " ++ PyFloat.format_1f r
                  ++ lit "+")) /\
        (overview movie <> Blank ->
         step conversations u draw
         = (delete (chat, user) conversations,
            fst (resolved movie
                   (lit "🎬 Фильмы с рейтингом " ++ PyFloat.format_1f r
                      ++ lit "+"))))) /\
  (forall y frame,
      conversations !! (chat, user) = Some YEAR ->
      py_int text = Some y ->
      year_frame y = inr frame ->
      frame <> [] ->
      exists movie,
        In movie movies_df /\
        year movie = y /\
        step conversations u draw
        = conv_outcome conversations (chat, user)
            (resolved movie
               (lit "🎬 Фильмы за " ++ PyStr.str_int y ++ lit " год:")) /\
        (overview movie <> Blank ->
         step conversations u draw
         = (delete (chat, user) conversations,
            fst (resolved movie
                   (lit "🎬 Фильмы за " ++ PyStr.str_int y
                      ++ lit " год:"))))) /\
  (forall p,
      conversations !! (chat, user) = Some POPULARITY ->
      py_float text = Some p ->
      popularity_frame p <> [] ->
      exists movie,
        In movie movies_df /\
        PyFloat.ge (popularity movie) p = true /\
        step conversations u draw
        = conv_outcome conversations (chat, user)
            (resolved movie
               (lit "🎬 Фильмы с популярностью от " ++ float_str p
                  ++ lit ":")) /\
        (overview movie <> Blank ->
         step conversations u draw
         = (delete (chat, user) conversations,
            fst (resolved movie
                   (lit "🎬 Фильмы с популярностью от " ++ float_str p
                      ++ lit ":"))))).
Proof.
  intros u. split; [|split].
  - intros r Hconv Hparse Hmin Hmax.
    pose proof (process_rating_cases u draw eq_refl) as H.
    change (sent_text u) with text in H.
    rewrite Hparse, Hmin, Hmax in H. destruct H as (movie & Hin & E).
    rewrite rating_frame_filter in Hin. apply filter_In in Hin.
    exists movie. split; [exact (proj1 Hin)|].
    split; [exact (proj2 Hin)|].
    apply (step_resolved _ _ _ _ _ _ Dialog.AwaitingRating RATING);
      [exact (parsed_text_nonempty_float _ _ Hparse)|reflexivity
      |exact Hconv|exact E].
  - intros y frame Hconv Hparse Hframe Hne.
    pose proof (process_year_cases u draw eq_refl) as H.
    change (sent_text u) with text in H. rewrite Hparse, Hframe in H.
    destruct H as [(Hempty & _)|(movie & Hin & E)]; [contradiction|].
    rewrite (year_frame_filter y frame Hframe) in Hin.
    apply filter_In in Hin.
    destruct Hin as [Hin Hsat]. simpl in Hsat. apply Z.eqb_eq in Hsat.
    exists movie. split; [exact Hin|]. split; [exact Hsat|].
    apply (step_resolved _ _ _ _ _ _ Dialog.AwaitingYear YEAR);
      [exact (parsed_text_nonempty_int _ _ Hparse)|reflexivity
      |exact Hconv|exact E].
  - intros p Hconv Hparse Hne.
    pose proof (process_popularity_cases u draw eq_refl) as H.
    change (sent_text u) with text in H. rewrite Hparse in H.
    destruct H as [(Hempty & _)|(movie & Hin & E)]; [contradiction|].
    rewrite popularity_frame_filter in Hin. apply filter_In in Hin.
    exists movie. split; [exact (proj1 Hin)|].
    split; [exact (proj2 Hin)|].
    apply (step_resolved _ _ _ _ _ _ Dialog.AwaitingPopularity POPULARITY);
      [exact (parsed_text_nonempty_float _ _ Hparse)|reflexivity
      |exact Hconv|exact E].
Qed.


(** ** Further properties of the presenter *)

(** X14. With a limit that is not negative, the overview shown has at
    most [MAX_OVERVIEW_LENGTH + 3] code points, starts as the overview
    does, and is the overview itself when that fits the limit. *)
Theorem shown_overview_bounded (overview : list N) :
  (0 <= MAX_OVERVIEW_LENGTH)%Z ->
  (Z.of_nat (length (shown_overview overview))
   <= MAX_OVERVIEW_LENGTH + 3)%Z /\
  firstn (Z.to_nat MAX_OVERVIEW_LENGTH) (shown_overview overview)
  = firstn (Z.to_nat MAX_OVERVIEW_LENGTH) overview /\
  ((Z.of_nat (length overview) <= MAX_OVERVIEW_LENGTH)%Z ->
   shown_overview overview = overview).
Proof.
  intros Hmax. unfold shown_overview.
  rewrite slice_to_firstn by exact Hmax.
  destruct (MAX_OVERVIEW_LENGTH <? Z.of_nat (length overview))%Z eqn:E.
  - apply Z.ltb_lt in E.
    assert (Hlen : length (firstn (Z.to_nat MAX_OVERVIEW_LENGTH) overview)
                   = Z.to_nat MAX_OVERVIEW_LENGTH)
      by (apply firstn_length_le; lia).
    split; [|split].
    + rewrite length_app, Hlen.
      change (length (lit "...")) with 3%nat. lia.
    + rewrite firstn_app, Hlen, Nat.sub_diag. cbn [firstn].
      rewrite app_nil_r, firstn_firstn. f_equal. lia.
    + intros Hfit. lia.
  - apply Z.ltb_ge in E. split; [lia|]. split; reflexivity.
Qed.

(** X15. A negative limit (nothing in the code excludes one) marks every
    overview as cut: [len(overview) > limit] always holds, and the slice
    drops [-limit] code points from the end. *)
Theorem negative_limit_always_cuts (overview : list N) :
  (MAX_OVERVIEW_LENGTH < 0)%Z ->
  shown_overview overview
  = firstn (length overview - Z.to_nat (- MAX_OVERVIEW_LENGTH)) overview
      ++ lit "...".
Proof.
  intros Hneg. unfold shown_overview, PyStr.slice_to.
  replace (MAX_OVERVIEW_LENGTH <? Z.of_nat (length overview))%Z
    with true by (symmetry; apply Z.ltb_lt; lia).
  replace (MAX_OVERVIEW_LENGTH <? 0)%Z with true
    by (symmetry; apply Z.ltb_lt; lia).
  do 2 f_equal. lia.
Qed.

(** X20. A catalog with rows but without a single rating (every
    [vote_average] is NaN) refuses every rating: both bounds are NaN, no
    number lies between them, and each text gets a corrective prompt and
    leaves the user in [RATING]. *)
Theorem unrated_catalog_refuses_all (u : Update) (draw : nat) :
  movies_df <> [] ->
  (forall movie,
      In movie movies_df -> PyFloat.notna (vote_average movie) = false) ->
  has_message u = true ->
  rating_bounds = (S754_nan, S754_nan) /\
  rating_rejected (process_rating u draw).
Proof.
  intros _ Hnan Hm.
  assert (Hnone : List.filter PyFloat.notna (pd.col vote_average movies_df)
                  = []).
  { unfold pd.col. clear Hm.
    induction movies_df as [|m df IH]; [reflexivity|]. simpl.
    rewrite (Hnan m) by (left; reflexivity).
    apply IH. intros movie Hin. apply Hnan. right. exact Hin. }
  assert (Hb : rating_bounds = (S754_nan, S754_nan)).
  { unfold rating_bounds, pd.min, pd.max. rewrite Hnone. reflexivity. }
  split; [exact Hb|].
  pose proof (process_rating_cases u draw Hm) as H.
  unfold rating_rejected.
  destruct (py_float (sent_text u)) as [r|]; [|left; exact H].
  rewrite Hb in H. cbn [fst snd] in H.
  replace (PyFloat.le S754_nan r) with false in H by reflexivity.
  cbn [andb] in H. right. rewrite Hb. exact H.
Qed.

End Bot.

(** ** A small catalog, and the properties at work on it *)

Module Demo.

(** [d] tenths, as [float] reads the decimal. *)
Definition tenths (d : Z) : spec_float := PyFloat.of_decimal false d (-1).

(** A field of a text column as [read_csv] reads it: NaN when empty. *)
Definition text (s : string) : text_cell :=
  match lit s with
  | c :: r => Text c r
  | [] => Blank
  end.

Definition path (s : string) : cell :=
  match lit s with
  | c :: r => Str c r
  | [] => NaN
  end.

Definition row (name : string) (y rating pop : Z) (poster : cell)
    : Movie :=
  {| title := text name;
     overview := text "A film.";
     year := y;
     popularity := tenths pop;
     vote_average := tenths rating;
     vote_count := 1200;
     poster_path := poster |}.

(** Ratings 6.0, 7.2 and 8.9; no movie of 1899. *)
Definition catalog : list Movie :=
  [ row "Heat" 1995 60 311 NaN;
    row "Alien" 1979 72 458 (path "/alien.jpg");
    row "Seven Samurai" 1954 89 207 Absent ].

(** Ratings from 3.0 to 8.5. *)
Definition bounded : list Movie :=
  [ row "Low" 2001 30 12 NaN; row "High" 2002 85 40 NaN ].

(** A row whose overview field was empty in the file. *)
Definition untold : Movie :=
  {| title := text "Untold";
     overview := Blank;
     year := 2000;
     popularity := tenths 10;
     vote_average := tenths 50;
     vote_count := 3;
     poster_path := NaN |}.

(** On values with one decimal, [str(x)] is [format(x, '.1f')] and
    [round(x, 1)] is [x]. *)
Definition float_str : spec_float -> list N := PyFloat.format_1f.
Definition round1 (x : spec_float) : spec_float := x.

Definition limit : Z := 400.

(** User 7 in chat 7. *)
Definition says (text : string) : Update :=
  Dialog.update_of 7 7 (lit "Ann") (Dialog.textInput (lit text)).

Definition does (i : Dialog.Intent) : Update :=
  Dialog.update_of 7 7 (lit "Ann") i.

Definition awaiting (st : Z) : gmap (Z * Z) Z := {[ (7, 7)%Z := st ]}.

(** A one followed by 309 zeros: an integer for [int], beyond the range
    of float64. *)
Definition googol_plus : list N := 49 :: repeat 48 309%nat.

Definition types (text : list N) : Update :=
  Dialog.update_of 7 7 (lit "Ann") (Dialog.textInput text).

(** User 7 edits an old message of theirs. *)
Definition edits (text : string) (cmd : option (list N)) : Update :=
  {| chat_id := 7; user_id := 7; first_name := lit "Ann";
     content := EditedMessage (lit text) cmd |}.

End Demo.

(** ** A small file, and what is loaded from it *)

Module Fixtures.

(** A stand-in for the date parser: the year is the first four characters
    of the date, when they are digits. *)
Definition years (dates : list cell) : list (option Z) :=
  List.map
    (fun c =>
       match cell_str c with
       | Some s => py_int (firstn 4 s)
       | None => None
       end)
    dates.

Definition raw (name date : string) (rating : Z) : RawRow :=
  {| raw_title := Demo.text name;
     raw_overview := Demo.text "A film.";
     raw_release_date := Demo.path date;
     raw_popularity := Demo.tenths 100;
     raw_vote_average := Demo.tenths rating;
     raw_vote_count := 10;
     raw_poster_path := NaN |}.

(** A file with the required columns only, one row of which has no
    readable date. *)
Definition frame : RawFrame :=
  {| columns := required_cols;
     rows := [raw "Heat" "1995-12-15" 60; raw "Lost" "unknown" 50;
              raw "Alien" "1979-05-25" 72] |}.

Definition loaded : list Movie :=
  [to_movie frame (raw "Heat" "1995-12-15" 60) 1995;
   to_movie frame (raw "Alien" "1979-05-25" 72) 1979].

(** The same file without its [title] column. *)
Definition untitled : RawFrame :=
  {| columns := required_cols ∖ {[ lit "title" ]}; rows := rows frame |}.

(** A row whose overview field is empty. *)
Definition untold : RawRow :=
  {| raw_title := Demo.text "Untold";
     raw_overview := Demo.text "";
     raw_release_date := Demo.path "2000-01-01";
     raw_popularity := Demo.tenths 10;
     raw_vote_average := Demo.tenths 50;
     raw_vote_count := 3;
     raw_poster_path := NaN |}.

(** A file whose second row has no overview. *)
Definition sparse : RawFrame :=
  {| columns := required_cols;
     rows := [raw "Heat" "1995-12-15" 60; untold] |}.

Definition sparse_loaded : list Movie :=
  [to_movie sparse (raw "Heat" "1995-12-15" 60) 1995;
   to_movie sparse untold 2000].

(** A catalog whose only row has no rating. *)
Definition unrated : list Movie :=
  [ {| title := Demo.text "Draft"; overview := Demo.text "A film.";
       year := 2024; popularity := Demo.tenths 10;
       vote_average := S754_nan; vote_count := 0; poster_path := NaN |} ].

(** Another user, waiting for a rating while user 7 waits for a year. *)
Definition two_users : gmap (Z * Z) Z :=
  <[ (1, 1)%Z := RATING ]> (Demo.awaiting YEAR).

End Fixtures.

Lemma years_length (dates : list cell) :
  length (Fixtures.years dates) = length dates.
Proof. apply length_map. Qed.

Lemma frame_loads :
  load_movies Fixtures.years (Some (Some Fixtures.frame))
  = inr Fixtures.loaded.
Proof. vm_compute. reflexivity. Qed.

Lemma sparse_loads :
  load_movies Fixtures.years (Some (Some Fixtures.sparse))
  = inr Fixtures.sparse_loaded.
Proof. vm_compute. reflexivity. Qed.

(** ** Two scenarios of the specification *)

(** The rating scenario: with ratings 6.0, 7.2 and 8.9 the
    prompt shows the bounds, and the input 7.0 keeps the two movies rated
    7.2 and 8.9. *)
Example rating_scenario :
  step Demo.catalog true Demo.limit Demo.float_str Demo.round1 ∅
    (Demo.does Dialog.selectRating) 0
  = (Demo.awaiting RATING,
     [answer;
      edit_message_text
        (lit "Введите минимальный рейтинг (6.0 - 8.9):" ++ nl
           ++ lit "Пример: <code>7.5</code>") None true]) /\
  py_float (lit "7.0") = Some (Demo.tenths 70) /\
  List.map title (rating_frame Demo.catalog (Demo.tenths 70))
  = [Demo.text "Alien"; Demo.text "Seven Samurai"].
Proof.
  split; [vm_compute; reflexivity|].
  split; vm_compute; reflexivity.
Qed.

(** The year scenario: 1899 has no movie, the reply says so and the user
    is still asked for a year. *)
Example year_scenario :
  step Demo.catalog true Demo.limit Demo.float_str Demo.round1
    (Demo.awaiting YEAR) (Demo.says "1899") 0
  = (Demo.awaiting YEAR,
     [reply_text (lit "Фильмов за 1899 год не найдено.") None false]).
Proof. vm_compute. reflexivity. Qed.

(** ** The properties at concrete inputs *)


Lemma choose_member_witness :
  Demo.catalog <> [] /\
  exists movie,
    sample1 7 Demo.catalog = mret movie /\ In movie Demo.catalog.
Proof.
  assert (H : Demo.catalog <> []) by discriminate.
  split; [exact H|].
  exact (proj1 (choose_member Demo.catalog true Demo.limit Demo.float_str)
           7%nat Demo.catalog H).
Defined.

Lemma rating_validation_witness :
  has_message (Demo.says "7.5") = true /\
  rating_bounds Demo.bounded = (Demo.tenths 30, Demo.tenths 85) /\
  sent_text (Demo.says "7.5") = lit "7.5" /\
  exists movie,
    In movie (rating_frame Demo.bounded (Demo.tenths 75)) /\
    process_rating Demo.bounded Demo.limit Demo.float_str
      (Demo.says "7.5") 0%nat
    = resolved Demo.limit Demo.float_str movie
        (lit "🎬 Фильмы с рейтингом 7.5+").
Proof.
  assert (Hm : has_message (Demo.says "7.5") = true) by reflexivity.
  assert (Hb : rating_bounds Demo.bounded
               = (Demo.tenths 30, Demo.tenths 85))
    by (vm_compute; reflexivity).
  assert (Ht : sent_text (Demo.says "7.5") = lit "7.5") by reflexivity.
  split; [exact Hm|]. split; [exact Hb|]. split; [exact Ht|].
  destruct (rating_validation Demo.bounded true Demo.limit Demo.float_str
              Demo.round1 (Demo.says "7.5") 0%nat Hm) as (_ & _ & _ & Hex).
  destruct (Hex Hb) as (H75 & _).
  exact (proj2 (H75 Ht)).
Defined.


Lemma cancel_ends_conversation_witness :
  Demo.awaiting RATING !! (7, 7)%Z = Dialog.stored Dialog.AwaitingRating /\
  Demo.catalog <> [] /\
  fst (step Demo.catalog true Demo.limit Demo.float_str Demo.round1
         (Demo.awaiting RATING) (Demo.does Dialog.cancel) 0) !! (7, 7)%Z
  = None /\
  snd (step Demo.catalog true Demo.limit Demo.float_str Demo.round1
         (Demo.awaiting RATING) (Demo.does Dialog.cancel) 0)
  = [reply_text
       (lit "Действие отменено. Используйте /start для нового поиска.")
       None false].
Proof.
  assert (Hc : Demo.awaiting RATING !! (7, 7)%Z
               = Dialog.stored Dialog.AwaitingRating)
    by (vm_compute; reflexivity).
  assert (Hne : Demo.catalog <> []) by discriminate.
  split; [exact Hc|]. split; [exact Hne|].
  pose proof (cancel_ends_conversation Demo.catalog true Demo.limit
                Demo.float_str Demo.round1 (Demo.awaiting RATING) 7 7
                (lit "Ann") 0%nat Dialog.AwaitingRating Hc Hne) as H.
  cbv zeta in H. destruct H as (Hidle & _ & Hack & _).
  split; [exact Hidle|exact Hack].
Defined.

Lemma reentry_replaces_session_witness :
  Demo.awaiting RATING !! (7, 7)%Z = Some RATING /\
  lit "2020" <> [] /\
  fst (step Demo.catalog true Demo.limit Demo.float_str Demo.round1
         (Demo.awaiting RATING) (Demo.does Dialog.selectYear) 0)
    !! (7, 7)%Z
  = Some YEAR.
Proof.
  assert (Hc : Demo.awaiting RATING !! (7, 7)%Z = Some RATING)
    by (vm_compute; reflexivity).
  assert (Hne : lit "2020" <> []) by discriminate.
  split; [exact Hc|]. split; [exact Hne|].
  destruct (reentry_replaces_session Demo.catalog true Demo.limit
              Demo.float_str Demo.round1 (Demo.awaiting RATING) 7 7
              (lit "Ann") 0%nat)
    as (_ & _ & _ & _ & H).
  exact (proj1 (H (lit "Ann") (lit "2020") 0%nat Hc Hne)).
Defined.

Lemma popularity_validation_witness :
  has_message (Demo.says "-5") = true /\
  py_float (sent_text (Demo.says "-5"))
  = Some (PyFloat.of_decimal true 5 0) /\
  process_popularity Demo.catalog Demo.limit Demo.float_str
    (Demo.says "-5") 0%nat
  <> stays POPULARITY (lit "Введите корректное число для популярности.").
Proof.
  assert (Hm : has_message (Demo.says "-5") = true) by reflexivity.
  assert (Hp : py_float (sent_text (Demo.says "-5"))
               = Some (PyFloat.of_decimal true 5 0))
    by (vm_compute; reflexivity).
  split; [exact Hm|]. split; [exact Hp|].
  destruct (popularity_validation Demo.catalog Demo.limit Demo.float_str
              (Demo.says "-5") 0%nat Hm) as (Hiff & _).
  apply (proj1 Hiff). exists (PyFloat.of_decimal true 5 0). exact Hp.
Defined.


Lemma rating_filter_nonempty_witness :
  PyFloat.le (fst (rating_bounds Demo.catalog)) (Demo.tenths 70) = true /\
  PyFloat.le (Demo.tenths 70) (snd (rating_bounds Demo.catalog)) = true /\
  exists movie,
    In movie (rating_frame Demo.catalog (Demo.tenths 70)) /\
    vote_average movie = snd (rating_bounds Demo.catalog).
Proof.
  assert (Hmin : PyFloat.le (fst (rating_bounds Demo.catalog))
                   (Demo.tenths 70) = true) by (vm_compute; reflexivity).
  assert (Hmax : PyFloat.le (Demo.tenths 70)
                   (snd (rating_bounds Demo.catalog)) = true)
    by (vm_compute; reflexivity).
  split; [exact Hmin|]. split; [exact Hmax|].
  exact (proj1 (rating_filter_nonempty Demo.catalog true Demo.limit
                  Demo.float_str Demo.round1 (Demo.tenths 70) Hmin Hmax)).
Defined.

(** ** Where the code departs from the specification *)

(** C5 as stated fails in the idle state: the cancel command of a user
    without an open conversation reaches no handler, so the store is left
    as it was and no acknowledgment is sent. *)
Lemma cancel_from_idle_unacknowledged :
  (∅ : gmap (Z * Z) Z) !! (7, 7)%Z = Dialog.stored Dialog.Idle /\
  step Demo.catalog true Demo.limit Demo.float_str Demo.round1 ∅
    (Demo.does Dialog.cancel) 0
  = (∅, []) /\
  ~ cancel_acknowledged Demo.catalog true Demo.limit Demo.float_str
      Demo.round1 Dialog.Idle.
Proof.
  split; [reflexivity|]. split; [vm_compute; reflexivity|].
  intros H.
  specialize (H ∅ 7%Z 7%Z (lit "Ann") 0%nat eq_refl).
  cbv zeta in H. destruct H as [_ H].
  vm_compute in H. discriminate H.
Qed.

(** C7, where the code misses it. The file of [Fixtures.frame] has a row
    without a readable date, so the year column of the catalog loaded
    from it is a float64 column. In the year state, a one followed by 309
    zeros is an integer for [int], and no movie of the catalog has that
    year. The comparison of line 153 raises [OverflowError], which
    [process_year] does not catch: the user gets the error notice, not
    the not-found reply that the year 1899, without a movie either,
    gets. The store is left as it was in both cases. *)
Theorem year_beyond_float64_raises :
  load_movies Fixtures.years (Some (Some Fixtures.frame))
  = inr Fixtures.loaded /\
  year_dtype_float64 Fixtures.years Fixtures.frame = true /\
  py_int Demo.googol_plus = Some (10 ^ 309)%Z /\
  List.filter (satisfies (Year (10 ^ 309))) Fixtures.loaded = [] /\
  candidates Fixtures.loaded true (Year (10 ^ 309)) = inl OverflowError /\
  process_year Fixtures.loaded true Demo.limit Demo.float_str
    (Demo.types Demo.googol_plus) 0%nat
  = raise OverflowError /\
  step Fixtures.loaded true Demo.limit Demo.float_str Demo.round1
    (Demo.awaiting YEAR) (Demo.types Demo.googol_plus) 0
  = (Demo.awaiting YEAR,
     [reply_text (lit "⚠️ Произошла ошибка. Пожалуйста, попробуйте позже.")
        None false]) /\
  step Fixtures.loaded true Demo.limit Demo.float_str Demo.round1
    (Demo.awaiting YEAR) (Demo.says "1899") 0
  = (Demo.awaiting YEAR,
     [reply_text (lit "Фильмов за 1899 год не найдено.") None false]).
Proof.
  split; [exact frame_loads|].
  split; [vm_compute; reflexivity|].
  split; [vm_compute; reflexivity|].
  split; [vm_compute; reflexivity|].
  split; [vm_compute; reflexivity|].
  split; [vm_compute; reflexivity|].
  split; vm_compute; reflexivity.
Qed.

(** ** Loading the catalog: properties *)

(** Every row kept is a row of the file together with the year at the
    same position. *)
Lemma dropna_year_In (frame : RawFrame) (rs : list RawRow)
    (years : list (option Z)) (movie : Movie) :
  In movie (dropna_year frame rs years) ->
  exists i row y,
    nth_error rs i = Some row /\
    nth_error years i = Some (Some y) /\
    movie = to_movie frame row y.
Proof.
  revert years. induction rs as [|row rs IH]; intros [|[y|] years] Hin;
    simpl in Hin; try contradiction.
  - destruct Hin as [<-|Hin].
    + exists 0%nat, row, y. repeat split.
    + destruct (IH years Hin) as (i & row' & y' & Hr & Hy & E).
      exists (S i), row', y'. repeat split; assumption.
  - destruct (IH years Hin) as (i & row' & y' & Hr & Hy & E).
    exists (S i), row', y'. repeat split; assumption.
Qed.

Lemma dropna_year_length (frame : RawFrame) (rs : list RawRow)
    (years : list (option Z)) :
  (length (dropna_year frame rs years) <= length rs)%nat.
Proof.
  revert years. induction rs as [|row rs IH]; intros [|[y|] years]; simpl;
    try lia; specialize (IH years); lia.
Qed.

Lemma dropna_year_nil (frame : RawFrame) (rs : list RawRow)
    (years : list (option Z)) :
  length years = length rs ->
  (dropna_year frame rs years = [] <-> forall y, ~ In (Some y) years).
Proof.
  revert years. induction rs as [|row rs IH]; intros [|[y|] years] Hlen;
    simpl in *; try discriminate Hlen.
  - split; [intros _ y []|reflexivity].
  - split; [discriminate|]. intros H. exfalso. apply (H y). left; reflexivity.
  - injection Hlen as Hlen. rewrite (IH years Hlen). split.
    + intros H y [E|Hy]; [discriminate E|exact (H y Hy)].
    + intros H y Hy. apply (H y). right. exact Hy.
Qed.

Lemma required_present (frame : RawFrame) :
  required_cols ∖ columns frame = ∅ <-> required_cols ⊆ columns frame.
Proof.
  split.
  - intros H x Hx.
    destruct (decide (x ∈ columns frame)) as [Hin|Hout]; [exact Hin|].
    assert (Hd : x ∈ required_cols ∖ columns frame)
      by (apply elem_of_difference; split; assumption).
    rewrite H in Hd. apply not_elem_of_empty in Hd. destruct Hd.
  - intros H. apply leibniz_equiv. intros x.
    rewrite elem_of_difference. split.
    + intros [Hr Hn]. exfalso. apply Hn. apply H. exact Hr.
    + intros Hx. apply not_elem_of_empty in Hx. destruct Hx.
Qed.

(** What [load_movies] returns when it returns a frame. *)
Lemma load_movies_inr
    (to_datetime_year : list cell -> list (option Z))
    (file : option (option RawFrame)) (df : list Movie) :
  load_movies to_datetime_year file = inr df ->
  exists frame,
    file = Some (Some frame) /\
    required_cols ∖ columns frame = ∅ /\
    df = dropna_year frame (rows frame)
           (to_datetime_year (List.map raw_release_date (rows frame))) /\
    df <> [].
Proof.
  unfold load_movies. intros H.
  destruct file as [[frame|]|]; try discriminate H.
  case_bool_decide as Hmiss; [|discriminate H].
  destruct (dropna_year frame (rows frame)
              (to_datetime_year (List.map raw_release_date (rows frame))))
    as [|m l] eqn:E; [discriminate H|].
  cbn [pd.empty] in H. inversion H; subst df.
  exists frame. split; [reflexivity|]. split; [exact Hmiss|].
  split; [symmetry; exact E|discriminate].
Qed.

(** X16. What a successful load guarantees. The frame kept in
    [movies_df] is not empty; the file was there, was read and has every
    required column; and every row kept is a row of the file whose own
    release date gave a year, with that year and its other fields as
    read. No row is invented: the catalog is never longer than the
    file. *)
Theorem load_movies_success
    (to_datetime_year : list cell -> list (option Z))
    (file : option (option RawFrame)) (df : list Movie) :
  load_movies to_datetime_year file = inr df ->
  df <> [] /\
  exists frame,
    file = Some (Some frame) /\
    required_cols ⊆ columns frame /\
    (length df <= length (rows frame))%nat /\
    forall movie,
      In movie df ->
      exists i row y,
        nth_error (rows frame) i = Some row /\
        nth_error
          (to_datetime_year (List.map raw_release_date (rows frame))) i
        = Some (Some y) /\
        movie = to_movie frame row y.
Proof.
  intros H.
  destruct (load_movies_inr _ _ _ H) as (frame & -> & Hmiss & -> & Hne).
  split; [exact Hne|].
  exists frame. split; [reflexivity|].
  split; [apply required_present; exact Hmiss|].
  split; [apply dropna_year_length|].
  intros movie Hin. exact (dropna_year_In _ _ _ _ Hin).
Qed.

(** X17. Why a load fails, in the order of the checks: no file; a file
    that [read_csv] cannot read; required columns missing, reported as
    exactly the set of the missing ones, whatever the rows are; and, with
    all required columns there, no row whose release date gives a year
    (a file with a header only, for one). *)
Theorem load_movies_errors
    (to_datetime_year : list cell -> list (option Z))
    (file : option (option RawFrame)) :
  (forall dates, length (to_datetime_year dates) = length dates) ->
  (load_movies to_datetime_year file = inl FileNotFoundError
   <-> file = None) /\
  (load_movies to_datetime_year file = inl ReadError
   <-> file = Some None) /\
  (forall missing,
      load_movies to_datetime_year file = inl (MissingColumns missing)
      <-> exists frame,
            file = Some (Some frame) /\
            missing = required_cols ∖ columns frame /\
            ~ required_cols ⊆ columns frame) /\
  (load_movies to_datetime_year file = inl EmptyFrame
   <-> exists frame,
         file = Some (Some frame) /\
         required_cols ⊆ columns frame /\
         forall y,
           ~ In (Some y)
               (to_datetime_year
                  (List.map raw_release_date (rows frame)))).
Proof.
  intros Hlen. unfold load_movies.
  destruct file as [[frame|]|].
  - pose proof (dropna_year_nil frame (rows frame)
                  (to_datetime_year (List.map raw_release_date (rows frame))))
      as Hnil.
    rewrite Hlen, length_map in Hnil. specialize (Hnil eq_refl).
    pose proof (required_present frame) as Hreq.
    case_bool_decide as Hmiss.
    + destruct (dropna_year frame (rows frame)
                  (to_datetime_year
                     (List.map raw_release_date (rows frame))))
        as [|m l]; cbn [pd.empty].
      * split; [split; intros H; discriminate H|].
        split; [split; intros H; discriminate H|].
        split.
        -- intros missing. split; [intros H; discriminate H|].
           intros (frame' & E & _ & Hnot). inversion E; subst frame'.
           exfalso. apply Hnot. apply Hreq. exact Hmiss.
        -- split; [|reflexivity]. intros _. exists frame.
           split; [reflexivity|].
           split; [apply Hreq; exact Hmiss|apply Hnil; reflexivity].
      * split; [split; intros H; discriminate H|].
        split; [split; intros H; discriminate H|].
        split.
        -- intros missing. split; [intros H; discriminate H|].
           intros (frame' & E & _ & Hnot). inversion E; subst frame'.
           exfalso. apply Hnot. apply Hreq. exact Hmiss.
        -- split; [intros H; discriminate H|].
           intros (frame' & E & _ & Hnone). inversion E; subst frame'.
           apply Hnil in Hnone. discriminate Hnone.
    + split; [split; intros H; discriminate H|].
      split; [split; intros H; discriminate H|].
      split.
      * intros missing. split.
        -- intros H. inversion H. exists frame.
           split; [reflexivity|]. split; [reflexivity|].
           intros Hsub. apply Hmiss. apply Hreq. exact Hsub.
        -- intros (frame' & E & -> & _). inversion E; subst frame'.
           reflexivity.
      * split; [intros H; discriminate H|].
        intros (frame' & E & Hsub & _). inversion E; subst frame'.
        exfalso. apply Hmiss. apply Hreq. exact Hsub.
  - split; [split; intros H; discriminate H|].
    split; [split; intros H; reflexivity|].
    split; [intros missing; split;
            [intros H; discriminate H
            |intros (frame & E & _); discriminate E]|].
    split; [intros H; discriminate H
           |intros (frame & E & _); discriminate E].
  - split; [split; intros H; reflexivity|].
    split; [split; intros H; discriminate H|].
    split; [intros missing; split;
            [intros H; discriminate H
            |intros (frame & E & _); discriminate E]|].
    split; [intros H; discriminate H
           |intros (frame & E & _); discriminate E].
Qed.

Lemma dropna_year_drops (frame : RawFrame) (rs : list RawRow)
    (years : list (option Z)) :
  length years = length rs ->
  (existsb (fun y => match y with None => true | Some _ => false end) years
   = true
   <-> (length (dropna_year frame rs years) < length rs)%nat).
Proof.
  revert years. induction rs as [|row rs IH]; intros [|[y|] years] Hlen;
    simpl in *; try discriminate Hlen.
  - split; [discriminate|lia].
  - injection Hlen as Hlen. rewrite (IH years Hlen). lia.
  - pose proof (dropna_year_length frame rs years). split; [lia|reflexivity].
Qed.

(** X24. When the year column is a float64 column: the date parser giving
    one entry per date, the year column of a loaded catalog is float64
    exactly when the load dropped a row, that is when the file has a row
    whose release date gives no year. *)
Theorem dropped_row_makes_float64
    (to_datetime_year : list cell -> list (option Z))
    (frame : RawFrame) (df : list Movie) :
  (forall dates, length (to_datetime_year dates) = length dates) ->
  load_movies to_datetime_year (Some (Some frame)) = inr df ->
  (year_dtype_float64 to_datetime_year frame = true
   <-> (length df < length (rows frame))%nat) /\
  (year_dtype_float64 to_datetime_year frame = false
   <-> length df = length (rows frame)).
Proof.
  intros Hlen Hload.
  destruct (load_movies_inr _ _ _ Hload) as (frame' & E & _ & -> & _).
  inversion E; subst frame'.
  pose proof (dropna_year_drops frame (rows frame)
                (to_datetime_year (List.map raw_release_date (rows frame))))
    as H.
  rewrite Hlen, length_map in H. specialize (H eq_refl).
  pose proof (dropna_year_length frame (rows frame)
                (to_datetime_year (List.map raw_release_date (rows frame))))
    as Hle.
  unfold year_dtype_float64. split; [exact H|].
  destruct (existsb _ _); split; intros Hx;
    try discriminate Hx; try reflexivity.
  - assert (Hlt := proj1 H eq_refl). lia.
  - destruct H as [_ H].
    destruct (Nat.eq_dec
                (length (dropna_year frame (rows frame)
                           (to_datetime_year
                              (List.map raw_release_date (rows frame)))))
                (length (rows frame))) as [Heq|Hneq]; [exact Heq|].
    assert (Hf : false = true) by (apply H; lia). discriminate Hf.
Qed.

(** X18. Once the catalog is loaded the guard of [require_data] never
    fires: on a loaded catalog the random button always draws a movie of
    that catalog, whatever the state of the user, and the state is left
    as it was. The tap is answered with the card of the movie when its
    overview is text, and with the error notice when its overview is
    NaN. *)
Theorem loaded_catalog_serves_random
    (to_datetime_year : list cell -> list (option Z))
    (file : option (option RawFrame)) (df : list Movie)
    (float64 : bool) (limit : Z) (float_str : spec_float -> list N)
    (round1 : spec_float -> spec_float)
    (conversations : gmap (Z * Z) Z) (chat user : Z) (name : list N)
    (draw : nat) :
  load_movies to_datetime_year file = inr df ->
  exists movie,
    In movie df /\
    sample1 draw df = mret movie /\
    fst (step df float64 limit float_str round1 conversations
           (Dialog.update_of chat user name Dialog.selectRandom) draw)
    = conversations /\
    (forall c o,
        overview movie = Text c o ->
        step df float64 limit float_str round1 conversations
          (Dialog.update_of chat user name Dialog.selectRandom) draw
        = (conversations,
           [answer;
            reply_text
              (movie_text limit float_str movie (c :: o)
                 (lit "🎲 Случайная рекомендация:"))
              (Some movie_keyboard) true])) /\
    (overview movie = Blank ->
     step df float64 limit float_str round1 conversations
       (Dialog.update_of chat user name Dialog.selectRandom) draw
     = (conversations,
        [answer;
         reply_text
           (lit "⚠️ Произошла ошибка. Пожалуйста, попробуйте позже.")
           None false])).
Proof.
  intros Hload. apply step_random.
  destruct (load_movies_inr _ _ _ Hload) as (frame & _ & _ & _ & Hne).
  exact Hne.
Qed.

(** X19. The poster column is optional, and without it no poster link is
    ever sent: the load succeeds all the same, and the text for any movie
    of the catalog ends with the overview. *)
Theorem no_poster_column_no_link
    (to_datetime_year : list cell -> list (option Z))
    (frame : RawFrame) (df : list Movie)
    (limit : Z) (float_str : spec_float -> list N)
    (movie : Movie) (overview prefix : list N) :
  load_movies to_datetime_year (Some (Some frame)) = inr df ->
  lit "poster_path" ∉ columns frame ->
  In movie df ->
  poster_path movie = Absent /\
  movie_text limit float_str movie overview prefix
  = movie_text_base limit float_str movie overview prefix /\
  ~ has_poster_ref limit float_str movie overview prefix.
Proof.
  intros Hload Hcol Hin.
  assert (Hposter : poster_path movie = Absent).
  { destruct (load_movies_inr _ _ _ Hload) as (frame' & E & _ & -> & _).
    inversion E; subst frame'.
    destruct (dropna_year_In _ _ _ _ Hin) as (i & row & y & _ & _ & ->).
    cbn [to_movie poster_path].
    rewrite bool_decide_false by exact Hcol. reflexivity. }
  split; [exact Hposter|]. split.
  - unfold movie_text. rewrite Hposter. reflexivity.
  - intros Href. apply has_poster_ref_iff in Href.
    destruct Href as (p & Hp & _). rewrite Hposter in Hp. discriminate Hp.
Qed.

(** X23. [load_movies] drops the rows without a year and no others: a
    row whose overview field is empty is kept, with NaN for its
    overview. The card of such a movie is never sent: [len(overview)]
    raises [TypeError], so a flow that draws it ends with the error
    notice and leaves the store as it was, and the random tap is
    answered and then gets the error notice. *)
Theorem blank_overview_breaks_card
    (to_datetime_year : list cell -> list (option Z))
    (frame : RawFrame) (df : list Movie)
    (float64 : bool) (limit : Z) (float_str : spec_float -> list N)
    (round1 : spec_float -> spec_float)
    (i : nat) (row : RawRow) (y : Z) :
  load_movies to_datetime_year (Some (Some frame)) = inr df ->
  nth_error (rows frame) i = Some row ->
  nth_error (to_datetime_year (List.map raw_release_date (rows frame))) i
  = Some (Some y) ->
  raw_overview row = Blank ->
  let movie := to_movie frame row y in
  In movie df /\
  overview movie = Blank /\
  (forall to_message prefix,
      _send_movie_info limit float_str to_message movie prefix
      = raise TypeError) /\
  (forall conversations key prefix,
      conv_outcome conversations key
        (resolved limit float_str movie prefix)
      = (conversations,
         [reply_text
            (lit "⚠️ Произошла ошибка. Пожалуйста, попробуйте позже.")
            None false])) /\
  (forall conversations chat user name draw,
      sample1 draw df = mret movie ->
      step df float64 limit float_str round1 conversations
        (Dialog.update_of chat user name Dialog.selectRandom) draw
      = (conversations,
         [answer;
          reply_text
            (lit "⚠️ Произошла ошибка. Пожалуйста, попробуйте позже.")
            None false])).
Proof.
  intros Hload Hrow Hyear Hblank movie.
  destruct (load_movies_inr _ _ _ Hload) as (frame' & E & _ & Hdf & Hne).
  inversion E; subst frame'.
  assert (Ho : overview movie = Blank) by exact Hblank.
  split; [|split; [exact Ho|split; [|split]]].
  - rewrite Hdf. clear Hdf Hload Hne E Ho.
    revert i Hrow Hyear.
    generalize (to_datetime_year (List.map raw_release_date (rows frame))).
    induction (rows frame) as [|r rs IH]; intros years [|i] Hr Hy;
      try discriminate Hr.
    + destruct years as [|[y'|] years]; try discriminate Hy.
      cbn in Hr, Hy. inversion Hr; inversion Hy; subst.
      left. reflexivity.
    + destruct years as [|[y'|] years]; try discriminate Hy;
        cbn in Hr, Hy; cbn [dropna_year];
        [right|]; exact (IH years i Hr Hy).
  - intros to_message prefix. unfold _send_movie_info. rewrite Ho.
    reflexivity.
  - intros conversations key prefix.
    rewrite (resolved_blank limit float_str movie prefix Ho).
    reflexivity.
  - intros conversations chat user name draw Hs.
    destruct (step_random df float64 limit float_str round1 conversations
                chat user name draw Hne)
      as (movie' & _ & Hs' & _ & _ & Hstep).
    rewrite Hs in Hs'. inversion Hs'; subst movie'.
    exact (Hstep Ho).
Qed.

(** ** The further properties at concrete inputs *)

Lemma demo_overviews (movie : Movie) :
  In movie Demo.catalog -> overview movie <> Blank.
Proof.
  intros [<-|[<-|[<-|[]]]]; discriminate.
Qed.

Lemma dispatch_raise_causes_witness :
  Demo.catalog <> [] /\
  (has_message (Demo.says "1979") = true
   \/ has_query (Demo.says "1979") = true) /\
  (forall movie, In movie Demo.catalog -> overview movie <> Blank) /\
  exists out r,
    process_year Demo.catalog false Demo.limit Demo.float_str
      (Demo.says "1979") 0%nat
    = (out, inr r).
Proof.
  assert (Hne : Demo.catalog <> []) by discriminate.
  assert (Hk : has_message (Demo.says "1979") = true
               \/ has_query (Demo.says "1979") = true)
    by (left; reflexivity).
  split; [exact Hne|]. split; [exact Hk|]. split; [exact demo_overviews|].
  pose proof (dispatch_raise_causes Demo.catalog false Demo.limit
                Demo.float_str Demo.round1 (Demo.awaiting YEAR)
                (Demo.says "1979") 0%nat Hne) as H.
  rewrite pick_routing in H.
  change (routing Demo.catalog false Demo.limit Demo.float_str Demo.round1
            (Demo.awaiting YEAR) (Demo.says "1979"))
    with (Some (process_year Demo.catalog false Demo.limit Demo.float_str,
                true)) in H.
  exact (proj2 H Hk demo_overviews eq_refl).
Defined.

Lemma other_conversations_untouched_witness :
  (1, 1)%Z <> conv_key (Demo.says "2020") /\
  fst (step Demo.catalog true Demo.limit Demo.float_str Demo.round1
         Fixtures.two_users (Demo.says "2020") 0) !! (1, 1)%Z
  = Fixtures.two_users !! (1, 1)%Z.
Proof.
  assert (H : (1, 1)%Z <> conv_key (Demo.says "2020")) by discriminate.
  split; [exact H|].
  exact (other_conversations_untouched Demo.catalog true Demo.limit
           Demo.float_str Demo.round1 Fixtures.two_users
           (Demo.says "2020") 0%nat (1, 1)%Z H).
Defined.

Lemma valid_store_preserved_witness :
  valid_store (Demo.awaiting YEAR) /\
  valid_store
    (fst (step Demo.catalog true Demo.limit Demo.float_str Demo.round1
            (Demo.awaiting YEAR) (Demo.says "1979") 0)).
Proof.
  assert (H : valid_store (Demo.awaiting YEAR)).
  { intros key st Hlook. unfold Demo.awaiting in Hlook.
    apply lookup_singleton_Some in Hlook. destruct Hlook as [_ <-].
    right. left. reflexivity. }
  split; [exact H|].
  exact (valid_store_preserved Demo.catalog true Demo.limit Demo.float_str
           Demo.round1 (Demo.awaiting YEAR) (Demo.says "1979") 0%nat H).
Defined.

Lemma taps_answered_first_witness :
  has_query (Demo.does Dialog.selectYear) = true /\
  (step Demo.catalog true Demo.limit Demo.float_str Demo.round1 ∅
     (Demo.does Dialog.selectYear) 0
   = (∅, []) \/
   exists rest,
     snd (step Demo.catalog true Demo.limit Demo.float_str Demo.round1 ∅
            (Demo.does Dialog.selectYear) 0)
     = answer :: rest).
Proof.
  assert (H : has_query (Demo.does Dialog.selectYear) = true)
    by reflexivity.
  split; [exact H|].
  exact (taps_answered_first Demo.catalog true Demo.limit Demo.float_str
           Demo.round1 ∅ (Demo.does Dialog.selectYear) 0%nat H).
Defined.

Lemma shown_buttons_are_handled_witness :
  In (lit "about")
    (buttons_of
       (snd (step Demo.catalog true Demo.limit Demo.float_str Demo.round1 ∅
               (Demo.does Dialog.start) 0))) /\
  content (Demo.does Dialog.selectAbout) = CallbackQuery (lit "about") /\
  exists rest,
    snd (step Demo.catalog true Demo.limit Demo.float_str Demo.round1
           (Demo.awaiting YEAR) (Demo.does Dialog.selectAbout) 0)
    = answer :: rest.
Proof.
  assert (H : In (lit "about")
                (buttons_of
                   (snd (step Demo.catalog true Demo.limit Demo.float_str
                           Demo.round1 ∅ (Demo.does Dialog.start) 0))))
    by (vm_compute; tauto).
  assert (Hc : content (Demo.does Dialog.selectAbout)
               = CallbackQuery (lit "about")) by reflexivity.
  split; [exact H|]. split; [exact Hc|].
  exact (shown_buttons_are_handled Demo.catalog true Demo.limit
           Demo.float_str Demo.round1 ∅ (Demo.does Dialog.start) 0%nat
           (lit "about") H
           (Demo.awaiting YEAR) (Demo.does Dialog.selectAbout) 0%nat Hc).
Defined.

Lemma unawaited_input_dropped_witness :
  content (Demo.says "hello") = Message (lit "hello") None /\
  (∅ : gmap (Z * Z) Z) !! conv_key (Demo.says "hello") = None /\
  step Demo.catalog true Demo.limit Demo.float_str Demo.round1 ∅
    (Demo.says "hello") 0
  = (∅, []).
Proof.
  assert (Hc : content (Demo.says "hello") = Message (lit "hello") None)
    by reflexivity.
  assert (Hi : (∅ : gmap (Z * Z) Z) !! conv_key (Demo.says "hello") = None)
    by reflexivity.
  split; [exact Hc|]. split; [exact Hi|].
  apply (unawaited_input_dropped Demo.catalog true Demo.limit
           Demo.float_str Demo.round1 ∅ (Demo.says "hello") 0%nat
           (lit "hello") None Hc).
  - intros _. exact Hi.
  - intros name Hname. discriminate Hname.
Defined.

Lemma menu_keeps_store_witness :
  content (Demo.does Dialog.selectRandom) = CallbackQuery (lit "random") /\
  fst (step Demo.catalog true Demo.limit Demo.float_str Demo.round1
         (Demo.awaiting RATING) (Demo.does Dialog.selectRandom) 0)
  = Demo.awaiting RATING.
Proof.
  assert (Hc : content (Demo.does Dialog.selectRandom)
               = CallbackQuery (lit "random")) by reflexivity.
  split; [exact Hc|].
  exact (proj1 (menu_keeps_store Demo.catalog true Demo.limit
                  Demo.float_str Demo.round1 (Demo.awaiting RATING)
                  (Demo.does Dialog.selectRandom) 0%nat
                  (or_intror (or_introl Hc)))).
Defined.

Lemma awaited_text_answered_once_witness :
  Demo.catalog <> [] /\
  content (Demo.says "abc") = Message (lit "abc") None /\
  lit "abc" <> [] /\
  Demo.awaiting RATING !! conv_key (Demo.says "abc") = Some RATING /\
  ((exists msg,
       (corrective_prompt Demo.catalog msg
        \/ not_found_notice Demo.float_str msg) /\
       step Demo.catalog true Demo.limit Demo.float_str Demo.round1
         (Demo.awaiting RATING) (Demo.says "abc") 0
       = (Demo.awaiting RATING, [reply_text msg None false])) \/
   (exists card,
       movie_card Demo.catalog Demo.limit Demo.float_str card /\
       step Demo.catalog true Demo.limit Demo.float_str Demo.round1
         (Demo.awaiting RATING) (Demo.says "abc") 0
       = (delete (conv_key (Demo.says "abc")) (Demo.awaiting RATING),
          [card])) \/
   (step Demo.catalog true Demo.limit Demo.float_str Demo.round1
      (Demo.awaiting RATING) (Demo.says "abc") 0
    = (Demo.awaiting RATING, error_handler) /\
    ((exists movie, In movie Demo.catalog /\ overview movie = Blank) \/
     (RATING = YEAR /\ true = true /\
      exists y,
        py_int (lit "abc") = Some y /\ PyFloat.overflows y = true)))).
Proof.
  assert (Hcat : Demo.catalog <> []) by discriminate.
  assert (Hc : content (Demo.says "abc") = Message (lit "abc") None)
    by reflexivity.
  assert (Hne : lit "abc" <> []) by discriminate.
  assert (Hs : Demo.awaiting RATING !! conv_key (Demo.says "abc")
               = Some RATING) by (vm_compute; reflexivity).
  split; [exact Hcat|].
  split; [exact Hc|]. split; [exact Hne|]. split; [exact Hs|].
  exact (awaited_text_answered_once Demo.catalog true Demo.limit
           Demo.float_str Demo.round1 (Demo.awaiting RATING)
           (Demo.says "abc") 0%nat (lit "abc") RATING Hcat Hc Hne Hs
           (or_introl eq_refl)).
Defined.

Lemma select_then_cancel_restores_witness :
  Fixtures.two_users !! (7, 7)%Z = Some YEAR /\
  delete (7, 7)%Z Fixtures.two_users !! (7, 7)%Z = None /\
  fst (step Demo.catalog true Demo.limit Demo.float_str Demo.round1
         (fst (step Demo.catalog true Demo.limit Demo.float_str Demo.round1
                 (delete (7, 7)%Z Fixtures.two_users)
                 (Dialog.update_of 7 7 (lit "Ann") Dialog.selectYear) 0))
         (Dialog.update_of 7 7 (lit "Ann") Dialog.cancel) 0)
  = delete (7, 7)%Z Fixtures.two_users.
Proof.
  assert (H0 : Fixtures.two_users !! (7, 7)%Z = Some YEAR)
    by (vm_compute; reflexivity).
  assert (Hi : delete (7, 7)%Z Fixtures.two_users !! (7, 7)%Z = None)
    by (vm_compute; reflexivity).
  split; [exact H0|]. split; [exact Hi|].
  rewrite (select_then_cancel_restores Demo.catalog true Demo.limit
             Demo.float_str Demo.round1
             (delete (7, 7)%Z Fixtures.two_users) 7 7 (lit "Ann")
             0%nat 0%nat Dialog.selectYear Hi
             (or_intror (or_introl eq_refl))).
  reflexivity.
Defined.

Lemma edited_message_handling_witness :
  content (Demo.edits "8.0" None) = EditedMessage (lit "8.0") None /\
  Demo.awaiting RATING !! conv_key (Demo.edits "8.0" None) = Some RATING /\
  lit "8.0" <> [] /\
  step Demo.catalog true Demo.limit Demo.float_str Demo.round1
    (Demo.awaiting RATING) (Demo.edits "8.0" None) 0
  = (Demo.awaiting RATING, error_handler).
Proof.
  assert (Hc : content (Demo.edits "8.0" None)
               = EditedMessage (lit "8.0") None) by reflexivity.
  assert (Hs : Demo.awaiting RATING !! conv_key (Demo.edits "8.0" None)
               = Some RATING) by (vm_compute; reflexivity).
  assert (Hne : lit "8.0" <> []) by discriminate.
  split; [exact Hc|]. split; [exact Hs|]. split; [exact Hne|].
  destruct (edited_message_handling Demo.catalog true Demo.limit
              Demo.float_str Demo.round1 (Demo.awaiting RATING)
              (Demo.edits "8.0" None) 0%nat (lit "8.0") None Hc)
    as (_ & _ & _ & H).
  exact (H RATING Hs (or_introl eq_refl) eq_refl Hne).
Defined.


Lemma higher_threshold_fewer_candidates_witness :
  PyFloat.le (Demo.tenths 60) (Demo.tenths 72) = true /\
  (In (Demo.row "Seven Samurai" 1954 89 207 Absent)
     (rating_frame Demo.catalog (Demo.tenths 72)) ->
   In (Demo.row "Seven Samurai" 1954 89 207 Absent)
     (rating_frame Demo.catalog (Demo.tenths 60))).
Proof.
  assert (H : PyFloat.le (Demo.tenths 60) (Demo.tenths 72) = true)
    by (vm_compute; reflexivity).
  split; [exact H|].
  exact (proj1 (higher_threshold_fewer_candidates Demo.catalog
                  (Demo.tenths 60) (Demo.tenths 72)
                  (Demo.row "Seven Samurai" 1954 89 207 Absent) H)).
Defined.

Lemma nan_input_witness :
  has_message (Demo.says " NaN ") = true /\
  py_float (sent_text (Demo.says " NaN ")) = Some S754_nan /\
  popularity_frame Demo.catalog S754_nan = [].
Proof.
  assert (Hm : has_message (Demo.says " NaN ") = true) by reflexivity.
  assert (Hp : py_float (sent_text (Demo.says " NaN ")) = Some S754_nan)
    by (vm_compute; reflexivity).
  split; [exact Hm|]. split; [exact Hp|].
  exact (proj1 (proj2 (nan_input Demo.catalog Demo.limit Demo.float_str
                         (Demo.says " NaN ") 0%nat Hm Hp))).
Defined.

Lemma shown_movie_matches_witness :
  Demo.awaiting YEAR !! (7, 7)%Z = Some YEAR /\
  py_int (lit "1979") = Some 1979%Z /\
  year_frame Demo.catalog true 1979
  = inr [Demo.row "Alien" 1979 72 458 (Demo.path "/alien.jpg")] /\
  exists movie,
    In movie Demo.catalog /\
    year movie = 1979%Z /\
    step Demo.catalog true Demo.limit Demo.float_str Demo.round1
      (Demo.awaiting YEAR) (Demo.says "1979") 0
    = conv_outcome (Demo.awaiting YEAR) (7, 7)%Z
        (resolved Demo.limit Demo.float_str movie
           (lit "🎬 Фильмы за " ++ PyStr.str_int 1979 ++ lit " год:")).
Proof.
  assert (Hc : Demo.awaiting YEAR !! (7, 7)%Z = Some YEAR)
    by (vm_compute; reflexivity).
  assert (Hy : py_int (lit "1979") = Some 1979%Z)
    by (vm_compute; reflexivity).
  assert (Hf : year_frame Demo.catalog true 1979
               = inr [Demo.row "Alien" 1979 72 458
                        (Demo.path "/alien.jpg")])
    by (vm_compute; reflexivity).
  assert (Hne : [Demo.row "Alien" 1979 72 458 (Demo.path "/alien.jpg")]
                <> []) by discriminate.
  split; [exact Hc|]. split; [exact Hy|]. split; [exact Hf|].
  pose proof (shown_movie_matches Demo.catalog true Demo.limit
                Demo.float_str Demo.round1 (Demo.awaiting YEAR) 7 7
                (lit "Ann") (lit "1979") 0%nat) as H.
  cbv zeta in H. destruct H as (_ & H & _).
  destruct (H 1979%Z _ Hc Hy Hf Hne) as (movie & Hin & Hyear & Hstep & _).
  exists movie. split; [exact Hin|]. split; [exact Hyear|exact Hstep].
Defined.


Lemma shown_overview_bounded_witness :
  (0 <= 5)%Z /\
  (Z.of_nat (length (shown_overview 5 (lit "A film."))) <= 5 + 3)%Z.
Proof.
  assert (H : (0 <= 5)%Z) by lia.
  split; [exact H|].
  exact (proj1 (shown_overview_bounded 5 (lit "A film.") H)).
Defined.

Lemma negative_limit_always_cuts_witness :
  (-3 < 0)%Z /\
  shown_overview (-3) (lit "A film.")
  = firstn (length (lit "A film.") - Z.to_nat (- -3)) (lit "A film.")
      ++ lit "...".
Proof.
  assert (H : (-3 < 0)%Z) by lia.
  split; [exact H|].
  exact (negative_limit_always_cuts (-3) (lit "A film.") H).
Defined.

Lemma unrated_catalog_refuses_all_witness :
  Fixtures.unrated <> [] /\
  (forall movie,
      In movie Fixtures.unrated ->
      PyFloat.notna (vote_average movie) = false) /\
  has_message (Demo.says "7.5") = true /\
  rating_bounds Fixtures.unrated = (S754_nan, S754_nan).
Proof.
  assert (Hne : Fixtures.unrated <> []) by discriminate.
  assert (H : forall movie,
             In movie Fixtures.unrated ->
             PyFloat.notna (vote_average movie) = false).
  { intros movie [<-|[]]. reflexivity. }
  assert (Hm : has_message (Demo.says "7.5") = true) by reflexivity.
  split; [exact Hne|]. split; [exact H|]. split; [exact Hm|].
  exact (proj1 (unrated_catalog_refuses_all Fixtures.unrated Demo.limit
                  Demo.float_str (Demo.says "7.5") 0%nat Hne H Hm)).
Defined.

Lemma load_movies_success_witness :
  load_movies Fixtures.years (Some (Some Fixtures.frame))
  = inr Fixtures.loaded /\
  Fixtures.loaded <> [].
Proof.
  split; [exact frame_loads|].
  exact (proj1 (load_movies_success Fixtures.years
                  (Some (Some Fixtures.frame)) Fixtures.loaded frame_loads)).
Defined.

Lemma load_movies_errors_witness :
  (forall dates, length (Fixtures.years dates) = length dates) /\
  (exists frame,
      Some (Some Fixtures.untitled) = Some (Some frame) /\
      ({[ lit "title" ]} : gset (list N))
      = required_cols ∖ columns frame /\
      ~ required_cols ⊆ columns frame) /\
  load_movies Fixtures.years (Some (Some Fixtures.untitled))
  = inl (MissingColumns {[ lit "title" ]}).
Proof.
  assert (Hmiss : ({[ lit "title" ]} : gset (list N))
                  = required_cols ∖ columns Fixtures.untitled)
    by (vm_compute; reflexivity).
  assert (Hnot : ~ required_cols ⊆ columns Fixtures.untitled).
  { intros Hsub.
    assert (Hin : lit "title" ∈ columns Fixtures.untitled).
    { apply Hsub.
      apply (bool_decide_eq_true_1 (lit "title" ∈ required_cols)).
      vm_compute. reflexivity. }
    revert Hin.
    apply (bool_decide_eq_false_1
             (lit "title" ∈ columns Fixtures.untitled)).
    vm_compute. reflexivity. }
  assert (Hex : exists frame,
             Some (Some Fixtures.untitled) = Some (Some frame) /\
             ({[ lit "title" ]} : gset (list N))
             = required_cols ∖ columns frame /\
             ~ required_cols ⊆ columns frame)
    by (exists Fixtures.untitled; repeat split; assumption).
  split; [exact years_length|]. split; [exact Hex|].
  destruct (load_movies_errors Fixtures.years
              (Some (Some Fixtures.untitled)) years_length)
    as (_ & _ & H & _).
  exact (proj2 (H {[ lit "title" ]}) Hex).
Defined.

Lemma loaded_catalog_serves_random_witness :
  load_movies Fixtures.years (Some (Some Fixtures.frame))
  = inr Fixtures.loaded /\
  exists movie,
    In movie Fixtures.loaded /\
    sample1 5 Fixtures.loaded = mret movie /\
    fst (step Fixtures.loaded true Demo.limit Demo.float_str Demo.round1
           (Demo.awaiting YEAR) (Demo.does Dialog.selectRandom) 5)
    = Demo.awaiting YEAR.
Proof.
  split; [exact frame_loads|].
  destruct (loaded_catalog_serves_random Fixtures.years
              (Some (Some Fixtures.frame)) Fixtures.loaded true Demo.limit
              Demo.float_str Demo.round1 (Demo.awaiting YEAR) 7 7
              (lit "Ann") 5%nat frame_loads)
    as (movie & Hin & Hs & Hfst & _).
  exists movie. split; [exact Hin|]. split; [exact Hs|exact Hfst].
Defined.

Lemma no_poster_column_no_link_witness :
  load_movies Fixtures.years (Some (Some Fixtures.frame))
  = inr Fixtures.loaded /\
  (lit "poster_path" ∉ columns Fixtures.frame) /\
  In (to_movie Fixtures.frame (Fixtures.raw "Heat" "1995-12-15" 60) 1995)
    Fixtures.loaded /\
  poster_path
    (to_movie Fixtures.frame (Fixtures.raw "Heat" "1995-12-15" 60) 1995)
  = Absent.
Proof.
  assert (Hcol : lit "poster_path" ∉ columns Fixtures.frame)
    by (apply (bool_decide_eq_false_1
                 (lit "poster_path" ∈ columns Fixtures.frame));
        vm_compute; reflexivity).
  assert (Hin : In (to_movie Fixtures.frame
                      (Fixtures.raw "Heat" "1995-12-15" 60) 1995)
                  Fixtures.loaded) by (left; reflexivity).
  split; [exact frame_loads|]. split; [exact Hcol|]. split; [exact Hin|].
  exact (proj1 (no_poster_column_no_link Fixtures.years Fixtures.frame
                  Fixtures.loaded Demo.limit Demo.float_str
                  (to_movie Fixtures.frame
                     (Fixtures.raw "Heat" "1995-12-15" 60) 1995)
                  (lit "A film.") (lit "Pick:") frame_loads Hcol Hin)).
Defined.

Lemma blank_overview_breaks_card_witness :
  load_movies Fixtures.years (Some (Some Fixtures.sparse))
  = inr Fixtures.sparse_loaded /\
  nth_error (rows Fixtures.sparse) 1 = Some Fixtures.untold /\
  nth_error
    (Fixtures.years (List.map raw_release_date (rows Fixtures.sparse))) 1
  = Some (Some 2000%Z) /\
  raw_overview Fixtures.untold = Blank /\
  sample1 1 Fixtures.sparse_loaded
  = mret (to_movie Fixtures.sparse Fixtures.untold 2000) /\
  step Fixtures.sparse_loaded true Demo.limit Demo.float_str Demo.round1
    ∅ (Demo.does Dialog.selectRandom) 1
  = (∅,
     [answer;
      reply_text (lit "⚠️ Произошла ошибка. Пожалуйста, попробуйте позже.")
        None false]).
Proof.
  assert (Hr : nth_error (rows Fixtures.sparse) 1 = Some Fixtures.untold)
    by reflexivity.
  assert (Hy : nth_error
                 (Fixtures.years
                    (List.map raw_release_date (rows Fixtures.sparse))) 1
               = Some (Some 2000%Z)) by (vm_compute; reflexivity).
  assert (Ho : raw_overview Fixtures.untold = Blank) by reflexivity.
  assert (Hs : sample1 1 Fixtures.sparse_loaded
               = mret (to_movie Fixtures.sparse Fixtures.untold 2000))
    by reflexivity.
  split; [exact sparse_loads|]. split; [exact Hr|]. split; [exact Hy|].
  split; [exact Ho|]. split; [exact Hs|].
  pose proof (blank_overview_breaks_card Fixtures.years Fixtures.sparse
                Fixtures.sparse_loaded true Demo.limit Demo.float_str
                Demo.round1 1%nat Fixtures.untold 2000%Z sparse_loads
                Hr Hy Ho) as H.
  cbv zeta in H. destruct H as (_ & _ & _ & _ & H).
  exact (H ∅ 7%Z 7%Z (lit "Ann") 1%nat Hs).
Defined.

Lemma dropped_row_makes_float64_witness :
  (forall dates, length (Fixtures.years dates) = length dates) /\
  load_movies Fixtures.years (Some (Some Fixtures.frame))
  = inr Fixtures.loaded /\
  (length Fixtures.loaded < length (rows Fixtures.frame))%nat /\
  year_dtype_float64 Fixtures.years Fixtures.frame = true.
Proof.
  assert (Hlt : (length Fixtures.loaded < length (rows Fixtures.frame))%nat)
    by (vm_compute; lia).
  split; [exact years_length|]. split; [exact frame_loads|].
  split; [exact Hlt|].
  exact (proj2 (proj1 (dropped_row_makes_float64 Fixtures.years
                         Fixtures.frame Fixtures.loaded years_length
                         frame_loads)) Hlt).
Defined.
